(** * Nautilus list view (src/nautilus-list-view.c): column settings,
      sort composition, sort-click bookkeeping and zoom levels.

    The C file is a GTK widget adapter.  The development embeds the parts
    of it that compute something: the reconciliation of the attached
    columns with the stored settings, the comparators handed to the
    toolkit, the handlers of the sorter's [changed] signal, the [sort] and
    [zoom-to-level] actions and the zoom helpers.  Mutable objects reached
    through [self] are fields of one record that every handler threads. *)

From Stdlib Require Import ZArith Ascii String List Lia.
From stdpp Require Import base decidable option list strings gmap.

Local Open Scope string_scope.

(** ** GLib helpers used by the file *)

(** [g_ascii_tolower]: only the 26 ASCII capitals are changed. *)
Definition g_ascii_tolower (c : ascii) : ascii :=
  let n := nat_of_ascii c in
  if (65 <=? n)%nat && (n <=? 90)%nat then ascii_of_nat (n + 32) else c.

(** [g_ascii_strdown (str, -1)]: the whole string, character by character. *)
Fixpoint g_ascii_strdown (s : string) : string :=
  match s with
  | EmptyString => EmptyString
  | String c rest => String (g_ascii_tolower c) (g_ascii_strdown rest)
  end.

(** [g_strcmp0 (a, b) == 0] on two non-NULL strings. *)
Definition g_str_equal (a b : string) : bool := bool_decide (a = b).

(** A [GQuark] is a [guint32]; 0 is the quark of no string. *)
Definition GQuark := Z.

(** A [GFile] location, identified by its URI. *)
Definition GFile := string.

(** ** Data model *)

(** Keys of the per-directory metadata lists this file reads and writes
    (the macros of nautilus-metadata.h, kept as an enumeration). *)
Inductive MetadataKey :=
| NAUTILUS_METADATA_KEY_LIST_VIEW_VISIBLE_COLUMNS
| NAUTILUS_METADATA_KEY_LIST_VIEW_COLUMN_ORDER.

#[global] Instance MetadataKey_eq_dec : EqDecision MetadataKey.
Proof. solve_decision. Defined.

Definition MetadataKey_to_nat (k : MetadataKey) : nat :=
  match k with
  | NAUTILUS_METADATA_KEY_LIST_VIEW_VISIBLE_COLUMNS => 0
  | NAUTILUS_METADATA_KEY_LIST_VIEW_COLUMN_ORDER => 1
  end.

Definition MetadataKey_of_nat (n : nat) : MetadataKey :=
  match n with
  | O => NAUTILUS_METADATA_KEY_LIST_VIEW_VISIBLE_COLUMNS
  | _ => NAUTILUS_METADATA_KEY_LIST_VIEW_COLUMN_ORDER
  end.

#[global] Instance MetadataKey_countable : Countable MetadataKey.
Proof.
  refine (inj_countable' MetadataKey_to_nat MetadataKey_of_nat _).
  by intros [].
Defined.

(** A [NautilusFile] as this file observes it: where it is, what the
    [nautilus_file_is_*] predicates answer, and its stored metadata. *)
Record NautilusFile := {
  file_location : GFile;
  file_is_directory : bool;
  file_is_in_trash : bool;
  file_is_in_recent : bool;
  file_metadata_lists : gmap MetadataKey (list string);
  file_sort_metadata : option (string * bool)
}.

(** A column descriptor of the registry ([NautilusColumn] properties read
    with [g_object_get]). *)
Record NautilusColumn := {
  column_name : string;
  column_label : string;
  column_attribute : string;
  column_attribute_q : GQuark;
  column_default_sort_order : bool
}.

(** [SortData]: the user data of a column's custom sorter.  The [view]
    pointer is the state that the comparators thread. *)
Record SortData := { attribute : GQuark }.

(** A [GtkColumnViewColumn].  Each one owns the list-item factory made for
    it in [setup_view_columns]; the factory number is what tells two
    columns apart (pointer identity in C). *)
Record GtkColumnViewColumn := {
  cvc_factory : nat;
  cvc_title : string;
  cvc_sorter : SortData;
  cvc_expand : bool;
  cvc_resizable : bool
}.

#[global] Instance SortData_eq_dec : EqDecision SortData.
Proof. solve_decision. Defined.

#[global] Instance GtkColumnViewColumn_eq_dec : EqDecision GtkColumnViewColumn.
Proof. solve_decision. Defined.

(** The [GtkColumnView]: the live list of its columns (what
    [gtk_column_view_get_columns] returns and later calls change under the
    caller's feet) and the sort columns of its sorter, primary first, each
    with its [inverted] flag. *)
Record GtkColumnView := {
  cv_columns : list GtkColumnViewColumn;
  cv_sorters : list (GtkColumnViewColumn * bool)
}.

(** An item of the view model.  [item_id] stands for the object's
    address; [item_file] is what [nautilus_view_item_get_file] returns,
    [None] for NULL. *)
Record NautilusViewItem := {
  item_id : nat;
  item_file : option NautilusFile
}.

(** [nautilus_list_view_preferences]: the three keys the file uses. *)
Record GSettings := {
  pref_default_visible_columns : list string;
  pref_default_column_order : list string;
  pref_default_zoom_level : Z
}.

(** The view.  First the fields of [struct _NautilusListView] that the
    embedded functions touch, then the objects of the parent instance and
    the process that the file reaches through [self]: the directory shown,
    the search location when the model is a search directory, the items of
    the view model, the state of the [sort] and [zoom-to-level] actions and
    the settings object. *)
Record NautilusListView := {
  view_ui : GtkColumnView;
  zoom_level : Z;
  directories_first : bool;
  factory_to_column_map : gmap nat NautilusColumn;
  all_view_columns_hash : gmap string GtkColumnViewColumn;
  column_header_was_clicked : bool;
  clicked_column_attribute_q : GQuark;
  directory_as_file : NautilusFile;
  search_query_location : option GFile;
  model_items : list NautilusViewItem;
  sort_action_state : string * bool;
  zoom_action_state : Z;
  nautilus_list_view_preferences : GSettings
}.

Definition set_view_ui (v : GtkColumnView) (self : NautilusListView) :=
  {| view_ui := v;
     zoom_level := zoom_level self;
     directories_first := directories_first self;
     factory_to_column_map := factory_to_column_map self;
     all_view_columns_hash := all_view_columns_hash self;
     column_header_was_clicked := column_header_was_clicked self;
     clicked_column_attribute_q := clicked_column_attribute_q self;
     directory_as_file := directory_as_file self;
     search_query_location := search_query_location self;
     model_items := model_items self;
     sort_action_state := sort_action_state self;
     zoom_action_state := zoom_action_state self;
     nautilus_list_view_preferences := nautilus_list_view_preferences self |}.

Definition set_zoom_level_field (z : Z) (self : NautilusListView) :=
  {| view_ui := view_ui self;
     zoom_level := z;
     directories_first := directories_first self;
     factory_to_column_map := factory_to_column_map self;
     all_view_columns_hash := all_view_columns_hash self;
     column_header_was_clicked := column_header_was_clicked self;
     clicked_column_attribute_q := clicked_column_attribute_q self;
     directory_as_file := directory_as_file self;
     search_query_location := search_query_location self;
     model_items := model_items self;
     sort_action_state := sort_action_state self;
     zoom_action_state := zoom_action_state self;
     nautilus_list_view_preferences := nautilus_list_view_preferences self |}.

Definition set_column_maps (f2c : gmap nat NautilusColumn)
    (avc : gmap string GtkColumnViewColumn) (self : NautilusListView) :=
  {| view_ui := view_ui self;
     zoom_level := zoom_level self;
     directories_first := directories_first self;
     factory_to_column_map := f2c;
     all_view_columns_hash := avc;
     column_header_was_clicked := column_header_was_clicked self;
     clicked_column_attribute_q := clicked_column_attribute_q self;
     directory_as_file := directory_as_file self;
     search_query_location := search_query_location self;
     model_items := model_items self;
     sort_action_state := sort_action_state self;
     zoom_action_state := zoom_action_state self;
     nautilus_list_view_preferences := nautilus_list_view_preferences self |}.

Definition set_column_header_was_clicked (b : bool) (self : NautilusListView) :=
  {| view_ui := view_ui self;
     zoom_level := zoom_level self;
     directories_first := directories_first self;
     factory_to_column_map := factory_to_column_map self;
     all_view_columns_hash := all_view_columns_hash self;
     column_header_was_clicked := b;
     clicked_column_attribute_q := clicked_column_attribute_q self;
     directory_as_file := directory_as_file self;
     search_query_location := search_query_location self;
     model_items := model_items self;
     sort_action_state := sort_action_state self;
     zoom_action_state := zoom_action_state self;
     nautilus_list_view_preferences := nautilus_list_view_preferences self |}.

Definition set_clicked_column_attribute_q (q : GQuark) (self : NautilusListView) :=
  {| view_ui := view_ui self;
     zoom_level := zoom_level self;
     directories_first := directories_first self;
     factory_to_column_map := factory_to_column_map self;
     all_view_columns_hash := all_view_columns_hash self;
     column_header_was_clicked := column_header_was_clicked self;
     clicked_column_attribute_q := q;
     directory_as_file := directory_as_file self;
     search_query_location := search_query_location self;
     model_items := model_items self;
     sort_action_state := sort_action_state self;
     zoom_action_state := zoom_action_state self;
     nautilus_list_view_preferences := nautilus_list_view_preferences self |}.

Definition set_directory_as_file (f : NautilusFile) (self : NautilusListView) :=
  {| view_ui := view_ui self;
     zoom_level := zoom_level self;
     directories_first := directories_first self;
     factory_to_column_map := factory_to_column_map self;
     all_view_columns_hash := all_view_columns_hash self;
     column_header_was_clicked := column_header_was_clicked self;
     clicked_column_attribute_q := clicked_column_attribute_q self;
     directory_as_file := f;
     search_query_location := search_query_location self;
     model_items := model_items self;
     sort_action_state := sort_action_state self;
     zoom_action_state := zoom_action_state self;
     nautilus_list_view_preferences := nautilus_list_view_preferences self |}.

Definition set_sort_action_state (v : string * bool) (self : NautilusListView) :=
  {| view_ui := view_ui self;
     zoom_level := zoom_level self;
     directories_first := directories_first self;
     factory_to_column_map := factory_to_column_map self;
     all_view_columns_hash := all_view_columns_hash self;
     column_header_was_clicked := column_header_was_clicked self;
     clicked_column_attribute_q := clicked_column_attribute_q self;
     directory_as_file := directory_as_file self;
     search_query_location := search_query_location self;
     model_items := model_items self;
     sort_action_state := v;
     zoom_action_state := zoom_action_state self;
     nautilus_list_view_preferences := nautilus_list_view_preferences self |}.

Definition set_zoom_action_state (z : Z) (self : NautilusListView) :=
  {| view_ui := view_ui self;
     zoom_level := zoom_level self;
     directories_first := directories_first self;
     factory_to_column_map := factory_to_column_map self;
     all_view_columns_hash := all_view_columns_hash self;
     column_header_was_clicked := column_header_was_clicked self;
     clicked_column_attribute_q := clicked_column_attribute_q self;
     directory_as_file := directory_as_file self;
     search_query_location := search_query_location self;
     model_items := model_items self;
     sort_action_state := sort_action_state self;
     zoom_action_state := z;
     nautilus_list_view_preferences := nautilus_list_view_preferences self |}.

Definition set_preferences (p : GSettings) (self : NautilusListView) :=
  {| view_ui := view_ui self;
     zoom_level := zoom_level self;
     directories_first := directories_first self;
     factory_to_column_map := factory_to_column_map self;
     all_view_columns_hash := all_view_columns_hash self;
     column_header_was_clicked := column_header_was_clicked self;
     clicked_column_attribute_q := clicked_column_attribute_q self;
     directory_as_file := directory_as_file self;
     search_query_location := search_query_location self;
     model_items := model_items self;
     sort_action_state := sort_action_state self;
     zoom_action_state := zoom_action_state self;
     nautilus_list_view_preferences := p |}.

(** ** Toolkit operations on the list of columns

    GTK is not part of the repository; these definitions follow the
    documented behaviour of the calls the file makes.  The list of columns
    is one shared object: what is removed or inserted is seen at once by
    whoever walks the list by index. *)

Definition g_list_model_get_n_items {A} (l : list A) : nat := length l.

Definition g_list_model_get_item {A} (l : list A) (i : nat) : option A := l !! i.

(** [g_list_find (list, data) != NULL], by pointer. *)
Definition g_list_find (l : list GtkColumnViewColumn) (c : GtkColumnViewColumn) : bool :=
  bool_decide (c ∈ l).

(** [g_list_store_remove] at the position of the first [c]. *)
Fixpoint remove_first (c : GtkColumnViewColumn) (l : list GtkColumnViewColumn)
    : list GtkColumnViewColumn :=
  match l with
  | [] => []
  | x :: rest => if decide (x = c) then rest else x :: remove_first c rest
  end.

(** [gtk_column_view_remove_column]: refuses a column that is not in this
    view; otherwise takes it out of the list and out of the sorter. *)
Definition gtk_column_view_remove_column (view : GtkColumnView)
    (column : GtkColumnViewColumn) : GtkColumnView :=
  if g_list_find (cv_columns view) column
  then {| cv_columns := remove_first column (cv_columns view);
          cv_sorters := filter (fun s => s.1 ≠ column) (cv_sorters view) |}
  else view.

(** [g_list_store_insert]: refuses a position past the end. *)
Definition g_list_store_insert (l : list GtkColumnViewColumn) (position : nat)
    (c : GtkColumnViewColumn) : list GtkColumnViewColumn :=
  if decide (position ≤ length l)%nat
  then take position l ++ c :: drop position l
  else l.

(** [gtk_column_view_insert_column]: refuses a position past the end; a
    column that is already in the view is taken out first, so that it is
    moved rather than duplicated. *)
Definition gtk_column_view_insert_column (view : GtkColumnView) (position : nat)
    (column : GtkColumnViewColumn) : GtkColumnView :=
  if decide (position ≤ length (cv_columns view))%nat
  then
    let cols := if g_list_find (cv_columns view) column
                then remove_first column (cv_columns view)
                else cv_columns view in
    {| cv_columns := g_list_store_insert cols position column;
       cv_sorters := cv_sorters view |}
  else view.

(** ** Stored settings: metadata lists and defaults *)

Definition default_columns_for_recent : list string := ["name"; "size"; "recency"].

Definition default_columns_for_trash : list string := ["name"; "size"; "trashed_on"].

(** Modelled from the spec: [nautilus_file_get_metadata_list] is defined
    outside this file; the spec has the two lists persisted as
    per-directory metadata, so the list last stored under a key is what is
    read back, and NULL when nothing is stored. *)
Definition nautilus_file_get_metadata_list (file : NautilusFile) (key : MetadataKey)
    : option (list string) :=
  file_metadata_lists file !! key.

(** Modelled from the spec: [nautilus_file_set_metadata_list] is defined
    outside this file; it stores the list under the key, and a NULL list
    clears the key. *)
Definition nautilus_file_set_metadata_list (file : NautilusFile) (key : MetadataKey)
    (l : option (list string)) : NautilusFile :=
  {| file_location := file_location file;
     file_is_directory := file_is_directory file;
     file_is_in_trash := file_is_in_trash file;
     file_is_in_recent := file_is_in_recent file;
     file_metadata_lists :=
       match l with
       | Some x => <[key := x]> (file_metadata_lists file)
       | None => delete key (file_metadata_lists file)
       end;
     file_sort_metadata := file_sort_metadata file |}.

Definition get_default_visible_columns (self : NautilusListView) : list string :=
  let file := directory_as_file self in
  if file_is_in_trash file then default_columns_for_trash
  else if file_is_in_recent file then default_columns_for_recent
  else pref_default_visible_columns (nautilus_list_view_preferences self).

Definition get_visible_columns (self : NautilusListView) : list string :=
  let file := directory_as_file self in
  match nautilus_file_get_metadata_list file
          NAUTILUS_METADATA_KEY_LIST_VIEW_VISIBLE_COLUMNS with
  | None => get_default_visible_columns self
  | Some [] => get_default_visible_columns self
  | Some visible_columns => visible_columns
  end.

Definition get_default_column_order (self : NautilusListView) : list string :=
  let file := directory_as_file self in
  if file_is_in_trash file then default_columns_for_trash
  else if file_is_in_recent file then default_columns_for_recent
  else pref_default_column_order (nautilus_list_view_preferences self).

Definition get_column_order (self : NautilusListView) : list string :=
  let file := directory_as_file self in
  match nautilus_file_get_metadata_list file
          NAUTILUS_METADATA_KEY_LIST_VIEW_COLUMN_ORDER with
  | Some (c :: rest) => c :: rest
  | _ => get_default_column_order self
  end.

(** ** Column settings reconciliation *)

(** The registry of columns, built once: [setup_view_columns] walks
    [nautilus_get_all_columns ()], makes a factory and a view column for
    each descriptor, and files them under the factory and under the name. *)
Fixpoint setup_view_columns_loop (l : list NautilusColumn) (next_factory : nat)
    (f2c : gmap nat NautilusColumn) (avc : gmap string GtkColumnViewColumn)
    : gmap nat NautilusColumn * gmap string GtkColumnViewColumn :=
  match l with
  | [] => (f2c, avc)
  | nautilus_column :: rest =>
      let name := column_name nautilus_column in
      let factory := next_factory in
      let view_column :=
        if g_str_equal name "name" then
          {| cvc_factory := factory; cvc_title := column_label nautilus_column;
             cvc_sorter := {| attribute := column_attribute_q nautilus_column |};
             cvc_expand := true; cvc_resizable := true |}
        else if g_str_equal name "starred" then
          {| cvc_factory := factory; cvc_title := "";
             cvc_sorter := {| attribute := column_attribute_q nautilus_column |};
             cvc_expand := false; cvc_resizable := false |}
        else
          {| cvc_factory := factory; cvc_title := column_label nautilus_column;
             cvc_sorter := {| attribute := column_attribute_q nautilus_column |};
             cvc_expand := false; cvc_resizable := true |} in
      setup_view_columns_loop rest (S next_factory)
        (<[factory := nautilus_column]> f2c) (<[name := view_column]> avc)
  end.

Definition setup_view_columns (nautilus_columns : list NautilusColumn)
    (self : NautilusListView) : NautilusListView :=
  let '(f2c, avc) := setup_view_columns_loop nautilus_columns 0 ∅ ∅ in
  set_column_maps f2c avc self.

(** Lines 171-189: walk the sorted descriptors, keep those whose lowercased
    name is in the hash and that have a view column under their own name;
    [g_list_prepend] builds the list backwards. *)
Fixpoint collect_view_columns (visible_columns_hash : gmap string string)
    (avc : gmap string GtkColumnViewColumn) (l : list NautilusColumn)
    (view_columns : list GtkColumnViewColumn) : list GtkColumnViewColumn :=
  match l with
  | [] => view_columns
  | column :: rest =>
      let name := column_name column in
      let lowercase := g_ascii_strdown name in
      match visible_columns_hash !! lowercase with
      | Some _ =>
          match avc !! name with
          | Some view_column =>
              collect_view_columns visible_columns_hash avc rest
                (view_column :: view_columns)
          | None => collect_view_columns visible_columns_hash avc rest view_columns
          end
      | None => collect_view_columns visible_columns_hash avc rest view_columns
      end
  end.

(** Lines 194-203: the loop that hides columns.  It walks the live list by
    index: the bound is read again at each turn, and the index moves on
    also after a removal.  [fuel] bounds the number of turns. *)
Fixpoint hide_columns_loop (fuel i : nat) (view_columns : list GtkColumnViewColumn)
    (view : GtkColumnView) : GtkColumnView :=
  match fuel with
  | O => view
  | S fuel' =>
      if decide (i < g_list_model_get_n_items (cv_columns view))%nat then
        match g_list_model_get_item (cv_columns view) i with
        | Some view_column =>
            if g_list_find view_columns view_column
            then hide_columns_loop fuel' (S i) view_columns view
            else hide_columns_loop fuel' (S i) view_columns
                   (gtk_column_view_remove_column view view_column)
        | None => view
        end
      else view
  end.

(** The list never grows and the index starts at 0, so one turn per column
    attached at the start is enough. *)
Definition hide_columns (view_columns : list GtkColumnViewColumn)
    (view : GtkColumnView) : GtkColumnView :=
  hide_columns_loop (length (cv_columns view)) 0 view_columns view.

(** Lines 206-209: put the columns in place, one position after another. *)
Fixpoint place_columns (l : list GtkColumnViewColumn) (column_i : nat)
    (view : GtkColumnView) : GtkColumnView :=
  match l with
  | [] => view
  | view_column :: rest =>
      place_columns rest (S column_i)
        (gtk_column_view_insert_column view column_i view_column)
  end.

Section ColumnSettings.

(** Functions of the repository outside this file. *)
Context (nautilus_get_columns_for_file : NautilusFile -> list NautilusColumn)
        (nautilus_sort_columns :
           list NautilusColumn -> option (list string) -> list NautilusColumn)
        (nautilus_tag_manager_can_star_contents : GFile -> bool)
        (nautilus_is_starred_directory : GFile -> bool).

(** Lines 128-140: the location whose starring support is asked. *)
Definition view_location (self : NautilusListView) : GFile :=
  match search_query_location self with
  | Some location => location
  | None => file_location (directory_as_file self)
  end.

(** Lines 142-143. *)
Definition all_columns (self : NautilusListView) (column_order : option (list string))
    : list NautilusColumn :=
  nautilus_sort_columns
    (nautilus_get_columns_for_file (directory_as_file self)) column_order.

(** Lines 146-168: the hash that says which columns should be visible. *)
Definition visible_columns_hash (self : NautilusListView)
    (visible_columns : option (list string)) : gmap string string :=
  let h0 : gmap string string := <["name" := "name"]> ∅ in
  let h1 :=
    if nautilus_tag_manager_can_star_contents (view_location self)
       || nautilus_is_starred_directory (view_location self)
    then <["starred" := "starred"]> h0
    else h0 in
  match visible_columns with
  | Some l =>
      foldl (fun h v => <[g_ascii_strdown v := g_ascii_strdown v]> h) h1 l
  | None => h1
  end.

(** Lines 170-191: the view columns to show, in the order of [all_columns]. *)
Definition view_columns (self : NautilusListView)
    (column_order visible_columns : option (list string))
    : list GtkColumnViewColumn :=
  rev (collect_view_columns (visible_columns_hash self visible_columns)
         (all_view_columns_hash self) (all_columns self column_order) []).

Definition apply_columns_settings (self : NautilusListView)
    (column_order visible_columns : option (list string)) : NautilusListView :=
  let view_columns := view_columns self column_order visible_columns in
  let hidden := hide_columns view_columns (view_ui self) in
  set_view_ui (place_columns view_columns 0 hidden) self.

Definition update_columns_settings_from_metadata_and_preferences
    (self : NautilusListView) : NautilusListView :=
  let column_order := get_column_order self in
  let visible_columns := get_visible_columns self in
  apply_columns_settings self (Some column_order) (Some visible_columns).

(** What [nautilus_column_chooser_get_settings] answers for the chooser
    at the time of the call.  The chooser itself is not part of this
    file; nothing is said here on how its answer comes about. *)
Record NautilusColumnChooser := {
  chooser_visible_columns : list string;
  chooser_column_order : list string
}.

(** A call of [nautilus_column_chooser_set_settings]: the two arrays the
    view hands to the chooser.  What the chooser keeps of them, and what
    it answers afterwards, is outside this file. *)
Record SetSettingsCall := {
  given_visible_columns : list string;
  given_column_order : list string
}.

Definition column_chooser_changed_callback (chooser : NautilusColumnChooser)
    (view : NautilusListView) : NautilusListView :=
  let file := directory_as_file view in
  let visible_columns := chooser_visible_columns chooser in
  let column_order := chooser_column_order chooser in
  let file := nautilus_file_set_metadata_list file
                NAUTILUS_METADATA_KEY_LIST_VIEW_VISIBLE_COLUMNS
                (Some visible_columns) in
  let file := nautilus_file_set_metadata_list file
                NAUTILUS_METADATA_KEY_LIST_VIEW_COLUMN_ORDER
                (Some column_order) in
  apply_columns_settings (set_directory_as_file file view)
    (Some column_order) (Some visible_columns).

(** [column_chooser_set_from_arrays]: the two arrays are handed to the
    chooser while its [changed] handler is blocked, so the view is not
    touched; the result is the call made. *)
Definition column_chooser_set_from_arrays (visible_columns column_order : list string)
    : SetSettingsCall :=
  {| given_visible_columns := visible_columns;
     given_column_order := column_order |}.

Definition column_chooser_use_default_callback (view : NautilusListView)
    : SetSettingsCall * NautilusListView :=
  let file := directory_as_file view in
  let file := nautilus_file_set_metadata_list file
                NAUTILUS_METADATA_KEY_LIST_VIEW_COLUMN_ORDER None in
  let file := nautilus_file_set_metadata_list file
                NAUTILUS_METADATA_KEY_LIST_VIEW_VISIBLE_COLUMNS None in
  let view := set_directory_as_file file view in
  let default_columns := get_default_visible_columns view in
  let default_order := get_default_column_order view in
  (column_chooser_set_from_arrays default_columns default_order,
   apply_columns_settings view (Some default_order) (Some default_columns)).

End ColumnSettings.

(** ** Handlers as state transformers *)

(** A computation that may read and change the view and returns a value. *)
Definition M (A : Type) : Type := NautilusListView -> A * NautilusListView.

Definition ret {A} (a : A) : M A := fun self => (a, self).

Definition bind {A B} (m : M A) (k : A -> M B) : M B :=
  fun self => let '(a, self') := m self in k a self'.

Notation "'let*' x ':=' m 'in' k" := (bind m (fun x => k))
  (at level 10, x name, m at level 100, k at level 200).

(** ** Orderings and the toolkit's sorters *)

Definition GTK_ORDERING_SMALLER : Z := -1.
Definition GTK_ORDERING_EQUAL : Z := 0.
Definition GTK_ORDERING_LARGER : Z := 1.

(** [gtk_ordering_from_cmpfunc]: the sign of a [GCompareFunc] result. *)
Definition gtk_ordering_from_cmpfunc (cmpfunc_result : Z) : Z := Z.sgn cmpfunc_result.

(** The [compare] virtual function of a [GtkSorter]. *)
Definition GtkSorterCompare : Type := NautilusViewItem -> NautilusViewItem -> M Z.

(** [gtk_sorter_compare]: an item is equal to itself without asking the
    sorter. *)
Definition gtk_sorter_compare (sorter : GtkSorterCompare)
    (item1 item2 : NautilusViewItem) : M Z :=
  if decide (item_id item1 = item_id item2) then ret GTK_ORDERING_EQUAL
  else sorter item1 item2.

(** A [GtkCustomSorter] made from a comparison function. *)
Definition gtk_custom_sorter_new (sort_func : NautilusViewItem -> NautilusViewItem -> M Z)
    : GtkSorterCompare :=
  fun item1 item2 =>
    let* r := sort_func item1 item2 in
    ret (gtk_ordering_from_cmpfunc r).

(** A [GtkMultiSorter]: its children in turn, until one does not say
    equal. *)
Fixpoint gtk_multi_sorter_compare (children : list GtkSorterCompare)
    (item1 item2 : NautilusViewItem) : M Z :=
  match children with
  | [] => ret GTK_ORDERING_EQUAL
  | child :: rest =>
      let* result := gtk_sorter_compare child item1 item2 in
      if decide (result = GTK_ORDERING_EQUAL)
      then gtk_multi_sorter_compare rest item1 item2
      else ret result
  end.

(** The [attributes] array of [action_sort_order_changed], indexed by
    [NautilusFileSortType]; the closing NULL is the end of the list. *)
Definition attributes : list string :=
  ["name"; "size"; "type"; "date_modified"; "date_accessed"; "date_created";
   "starred"; "trashed_on"; "search_relevance"; "recency"].

(** [gtk_column_view_sort_by_column]: no column clears the sort columns,
    a column of the view becomes the only one. *)
Definition gtk_column_view_sort_by_column (view : GtkColumnView)
    (column : option GtkColumnViewColumn) (direction : bool) : GtkColumnView :=
  match column with
  | None => {| cv_columns := cv_columns view; cv_sorters := [] |}
  | Some c =>
      if g_list_find (cv_columns view) c
      then {| cv_columns := cv_columns view; cv_sorters := [(c, direction)] |}
      else view
  end.

(** What a click on a column header does to the view's sorter
    ([gtk_column_view_sorter_add_column]): the primary column is inverted,
    any other becomes the primary one, ascending. *)
Definition gtk_column_view_sorter_add_column (view : GtkColumnView)
    (column : GtkColumnViewColumn) : GtkColumnView :=
  match cv_sorters view with
  | (c, inverted) :: rest =>
      if decide (c = column)
      then {| cv_columns := cv_columns view;
              cv_sorters := (c, negb inverted) :: rest |}
      else {| cv_columns := cv_columns view;
              cv_sorters := (column, false)
                            :: filter (fun s => s.1 ≠ column) (cv_sorters view) |}
  | [] => {| cv_columns := cv_columns view; cv_sorters := [(column, false)] |}
  end.

(** Lines 652-672 of [action_sort_order_changed]: the first attached
    column whose descriptor has the wanted attribute. *)
Fixpoint find_sort_column (f2c : gmap nat NautilusColumn) (wanted : option string)
    (view_columns : list GtkColumnViewColumn) : option GtkColumnViewColumn :=
  match view_columns with
  | [] => None
  | view_column :: rest =>
      match f2c !! cvc_factory view_column with
      | None => find_sort_column f2c wanted rest
      | Some nautilus_column =>
          if bool_decide (wanted = Some (column_attribute nautilus_column))
          then Some view_column
          else find_sort_column f2c wanted rest
      end
  end.

(** Modelled from the spec: [set_directory_sort_metadata] is defined in
    another file of the repository; the spec says that the sort state, an
    attribute and a reversed flag, is persisted per directory. *)
Definition set_directory_sort_metadata (file : NautilusFile) (sort_attribute : string)
    (reversed : bool) : NautilusFile :=
  {| file_location := file_location file;
     file_is_directory := file_is_directory file;
     file_is_in_trash := file_is_in_trash file;
     file_is_in_recent := file_is_in_recent file;
     file_metadata_lists := file_metadata_lists file;
     file_sort_metadata := Some (sort_attribute, reversed) |}.

Section Sorting.

(** Functions outside this file.  [nautilus_view_item_new] is used with
    the icon size NAUTILUS_LIST_ICON_SIZE_SMALL only. *)
Context (nautilus_file_compare_for_sort_by_attribute_q :
           NautilusFile -> NautilusFile -> GQuark -> bool -> bool -> Z)
        (nautilus_file_is_directory : option NautilusFile -> bool)
        (nautilus_view_item_new : option NautilusFile -> option NautilusViewItem)
        (g_quark_to_string : GQuark -> string)
        (get_sorts_type_from_metadata_text : string -> nat).

(** [sort_directories_func]; its user data points to
    [self->directories_first], read at each comparison. *)
Definition sort_directories_func (a b : NautilusViewItem) : M Z :=
  fun self =>
    if directories_first self then
      let file_a := item_file a in
      let file_b := item_file b in
      let a_is_directory := nautilus_file_is_directory file_a in
      let b_is_directory := nautilus_file_is_directory file_b in
      if a_is_directory && negb b_is_directory then (GTK_ORDERING_SMALLER, self)
      else if b_is_directory && negb a_is_directory then (GTK_ORDERING_LARGER, self)
      else (GTK_ORDERING_EQUAL, self)
    else (GTK_ORDERING_EQUAL, self).

Definition nautilus_list_view_sort (a b : NautilusViewItem) (data : SortData) : M Z :=
  fun self =>
    let attribute_q := attribute data in
    let file_a := item_file a in
    let file_b := item_file b in
    let self :=
      if (clicked_column_attribute_q self =? 0)%Z && column_header_was_clicked self
      then set_clicked_column_attribute_q attribute_q self
      else self in
    match file_a, file_b with
    | Some file_a, Some file_b =>
        (nautilus_file_compare_for_sort_by_attribute_q file_a file_b attribute_q
           false false, self)
    | _, _ => (GTK_ORDERING_EQUAL, self)
    end.

(** The sorter of the column view: the sort columns in turn, each
    column's custom sorter with its result negated when inverted. *)
Fixpoint gtk_column_view_sorter_loop (sorters : list (GtkColumnViewColumn * bool))
    (item1 item2 : NautilusViewItem) : M Z :=
  match sorters with
  | [] => ret GTK_ORDERING_EQUAL
  | (column, inverted) :: rest =>
      let* result :=
        gtk_sorter_compare
          (gtk_custom_sorter_new
             (fun a b => nautilus_list_view_sort a b (cvc_sorter column)))
          item1 item2 in
      let result := if inverted then (- result)%Z else result in
      if decide (result = GTK_ORDERING_EQUAL)
      then gtk_column_view_sorter_loop rest item1 item2
      else ret result
  end.

Definition gtk_column_view_get_sorter : GtkSorterCompare :=
  fun item1 item2 self =>
    gtk_column_view_sorter_loop (cv_sorters (view_ui self)) item1 item2 self.

(** Lines 1181-1185 of [nautilus_list_view_init]. *)
Definition directories_sorter : GtkSorterCompare :=
  gtk_custom_sorter_new sort_directories_func.

Definition sorter : GtkSorterCompare :=
  gtk_multi_sorter_compare [directories_sorter; gtk_column_view_get_sorter].

Definition on_sorter_changed (sorter : GtkSorterCompare) (self : NautilusListView)
    : NautilusListView :=
  let self := set_column_header_was_clicked true self in
  let self := set_clicked_column_attribute_q 0%Z self in
  if decide (g_list_model_get_n_items (model_items self) = 1%nat) then
    match g_list_model_get_item (model_items self) 0 with
    | Some item =>
        match nautilus_view_item_new (item_file item) with
        | Some dummy_item => (gtk_sorter_compare sorter item dummy_item self).2
        | None => self
        end
    | None => self
    end
  else self.

(** The [change_state] handler of the [sort] action.  When the column
    view is asked to sort (header not clicked), [on_sorter_changed] is
    blocked; the handler connected after it and the comparators run but
    both leave the view alone while [column_header_was_clicked] is
    FALSE. *)
Definition action_sort_order_changed (value : string * bool)
    (self : NautilusListView) : NautilusListView :=
  if bool_decide (value = sort_action_state self) then self
  else
    let target_name := value.1 in
    let reversed := value.2 in
    if g_str_equal target_name "unknown" then set_sort_action_state value self
    else
      let sort_type := get_sorts_type_from_metadata_text target_name in
      let sort_column :=
        find_sort_column (factory_to_column_map self) (attributes !! sort_type)
          (cv_columns (view_ui self)) in
      let self :=
        if negb (column_header_was_clicked self) then
          set_view_ui
            (gtk_column_view_sort_by_column
               (gtk_column_view_sort_by_column (view_ui self) None false)
               sort_column reversed) self
        else self in
      let self := set_column_header_was_clicked false self in
      let self :=
        set_directory_as_file
          (set_directory_sort_metadata (directory_as_file self) target_name reversed)
          self in
      set_sort_action_state value self.

(** [g_action_group_change_action_state] on [sort] runs the handler. *)
Definition on_after_sorter_changed (self : NautilusListView) : NautilusListView :=
  if negb (column_header_was_clicked self)
     || (clicked_column_attribute_q self =? 0)%Z
  then self
  else
    let current_sort_text := (sort_action_state self).1 in
    let reversed := (sort_action_state self).2 in
    let new_sort_text := g_quark_to_string (clicked_column_attribute_q self) in
    let reversed :=
      if g_str_equal new_sort_text current_sort_text then negb reversed else false in
    action_sort_order_changed (new_sort_text, reversed) self.

(** Running a list of comparisons through a sorter, as the sorted model
    does after a change. *)
Fixpoint compare_all (s : GtkSorterCompare)
    (pairs : list (NautilusViewItem * NautilusViewItem))
    (self : NautilusListView) : NautilusListView :=
  match pairs with
  | [] => self
  | (x, y) :: rest => compare_all s rest (gtk_sorter_compare s x y self).2
  end.

(** A click on the header of [column]: the column view's sorter changes
    and the composite sorter emits [changed]; [on_sorter_changed] runs
    first, then the model sorts again, then the handler connected with
    [G_CONNECT_AFTER]. *)
Definition column_header_clicked (column : GtkColumnViewColumn)
    (pairs : list (NautilusViewItem * NautilusViewItem))
    (self : NautilusListView) : NautilusListView :=
  let self :=
    set_view_ui (gtk_column_view_sorter_add_column (view_ui self) column) self in
  let self := on_sorter_changed sorter self in
  let self := compare_all sorter pairs self in
  on_after_sorter_changed self.

End Sorting.

(** ** Zoom levels *)

(** 32-bit integers; the enumeration [NautilusListZoomLevel] has no
    negative enumerator and is held as an [unsigned int]. *)
Definition to_guint (x : Z) : Z := (x mod 2 ^ 32)%Z.

Definition to_gint (x : Z) : Z := ((x + 2 ^ 31) mod 2 ^ 32 - 2 ^ 31)%Z.

(** The [CLAMP] macro of GLib. *)
Definition CLAMP (x low high : Z) : Z :=
  if (x >? high)%Z then high else if (x <? low)%Z then low else x.

Section Zoom.

(** The enumerators of [NautilusListZoomLevel] (nautilus-enums.h). *)
Context (NAUTILUS_LIST_ZOOM_LEVEL_SMALL
         NAUTILUS_LIST_ZOOM_LEVEL_MEDIUM
         NAUTILUS_LIST_ZOOM_LEVEL_LARGE : Z).

(** Without the icon size and the [compact] style class. *)
Definition set_zoom_level (self : NautilusListView) (new_level : Z)
    : NautilusListView :=
  set_zoom_level_field (to_gint new_level) self.

(** The [change_state] handler of the [zoom-to-level] action. *)
Definition action_zoom_to_level (state : Z) (self : NautilusListView)
    : NautilusListView :=
  let zoom_level := state in
  let self := set_zoom_level self (to_guint zoom_level) in
  let self := set_zoom_action_state state self in
  let prefs := nautilus_list_view_preferences self in
  if decide (pref_default_zoom_level prefs ≠ zoom_level) then
    set_preferences
      {| pref_default_visible_columns := pref_default_visible_columns prefs;
         pref_default_column_order := pref_default_column_order prefs;
         pref_default_zoom_level := zoom_level |} self
  else self.

Definition real_bump_zoom_level (self : NautilusListView) (zoom_increment : Z)
    : NautilusListView :=
  let new_level := to_guint (zoom_level self + zoom_increment) in
  if (new_level >=? to_guint NAUTILUS_LIST_ZOOM_LEVEL_SMALL)%Z
     && (new_level <=? to_guint NAUTILUS_LIST_ZOOM_LEVEL_LARGE)%Z
  then action_zoom_to_level (to_gint new_level) self
  else self.

Definition get_default_zoom_level (self : NautilusListView) : Z :=
  let default_zoom_level :=
    to_guint (pref_default_zoom_level (nautilus_list_view_preferences self)) in
  to_gint (CLAMP default_zoom_level
             (to_guint NAUTILUS_LIST_ZOOM_LEVEL_SMALL)
             (to_guint NAUTILUS_LIST_ZOOM_LEVEL_LARGE)).

Definition real_restore_standard_zoom_level (self : NautilusListView)
    : NautilusListView :=
  action_zoom_to_level NAUTILUS_LIST_ZOOM_LEVEL_MEDIUM self.

Definition real_can_zoom_in (self : NautilusListView) : bool :=
  (zoom_level self <? NAUTILUS_LIST_ZOOM_LEVEL_LARGE)%Z.

Definition real_can_zoom_out (self : NautilusListView) : bool :=
  (zoom_level self >? NAUTILUS_LIST_ZOOM_LEVEL_SMALL)%Z.

(** Lines 1201-1203 of [nautilus_list_view_init]. *)
Definition init_zoom_level (self : NautilusListView) : NautilusListView :=
  let self := set_zoom_level_field (get_default_zoom_level self) self in
  action_zoom_to_level (zoom_level self) self.

(** What can happen to the zoom level once the view is set up: the two
    operations of the view class and the exposed action, which takes any
    32-bit level. *)
Inductive ZoomOp :=
| BumpZoomLevel (zoom_increment : Z)
| RestoreStandardZoomLevel
| ZoomToLevel (state : Z).

Definition run_zoom_op (op : ZoomOp) (self : NautilusListView) : NautilusListView :=
  match op with
  | BumpZoomLevel zoom_increment => real_bump_zoom_level self zoom_increment
  | RestoreStandardZoomLevel => real_restore_standard_zoom_level self
  | ZoomToLevel state => action_zoom_to_level state self
  end.

Definition run_zoom_ops (ops : list ZoomOp) (self : NautilusListView)
    : NautilusListView :=
  foldl (fun s op => run_zoom_op op s) self ops.

(** An operation with a well-formed [int] argument that does not hand the
    action a level outside the range. *)
Definition zoom_op_in_range (op : ZoomOp) : Prop :=
  match op with
  | BumpZoomLevel zoom_increment => (- 2 ^ 31 <= zoom_increment < 2 ^ 31)%Z
  | RestoreStandardZoomLevel => True
  | ZoomToLevel state =>
      (NAUTILUS_LIST_ZOOM_LEVEL_SMALL <= state <= NAUTILUS_LIST_ZOOM_LEVEL_LARGE)%Z
  end.

(** The claim that the level is always within the range, over every
    sequence of operations after the set-up. *)
Definition zoom_level_always_in_range (self : NautilusListView) : Prop :=
  forall ops,
    (NAUTILUS_LIST_ZOOM_LEVEL_SMALL
     <= zoom_level (run_zoom_ops ops (init_zoom_level self))
     <= NAUTILUS_LIST_ZOOM_LEVEL_LARGE)%Z.

End Zoom.

(** ** Sample data for the examples *)

Definition sample_column (name : string) (q : GQuark) : NautilusColumn :=
  {| column_name := name; column_label := name; column_attribute := name;
     column_attribute_q := q; column_default_sort_order := false |}.

Definition sample_registry : list NautilusColumn :=
  [sample_column "name" 1%Z; sample_column "size" 2%Z; sample_column "type" 3%Z;
   sample_column "date_modified" 4%Z; sample_column "starred" 5%Z].

Definition sample_directory : NautilusFile :=
  {| file_location := "file:///home/user";
     file_is_directory := true;
     file_is_in_trash := false;
     file_is_in_recent := false;
     file_metadata_lists := ∅;
     file_sort_metadata := None |}.

Definition sample_regular_file : NautilusFile :=
  {| file_location := "file:///home/user/notes.txt";
     file_is_directory := false;
     file_is_in_trash := false;
     file_is_in_recent := false;
     file_metadata_lists := ∅;
     file_sort_metadata := None |}.

Definition sample_preferences : GSettings :=
  {| pref_default_visible_columns := ["name"; "size"; "date_modified"];
     pref_default_column_order := ["name"; "size"; "type"; "date_modified"];
     pref_default_zoom_level := 1%Z |}.

(** A view right after [setup_view_columns], nothing attached yet. *)
Definition sample_view : NautilusListView :=
  setup_view_columns sample_registry
    {| view_ui := {| cv_columns := []; cv_sorters := [] |};
       zoom_level := 1%Z;
       directories_first := true;
       factory_to_column_map := ∅;
       all_view_columns_hash := ∅;
       column_header_was_clicked := false;
       clicked_column_attribute_q := 0%Z;
       directory_as_file := sample_directory;
       search_query_location := None;
       model_items := [];
       sort_action_state := ("invalid", false);
       zoom_action_state := 1%Z;
       nautilus_list_view_preferences := sample_preferences |}.

(** A stand-in for [nautilus_sort_columns] in the examples: the columns
    named in the order come first, in that order, the others follow as
    they were. *)
Definition sample_sort_columns (columns : list NautilusColumn)
    (column_order : option (list string)) : list NautilusColumn :=
  match column_order with
  | None => columns
  | Some order =>
      flat_map (fun n => filter (fun c => column_name c = n) columns) order
      ++ filter (fun c => column_name c ∉ order) columns
  end.

Definition sample_columns_for_file (_ : NautilusFile) : list NautilusColumn :=
  sample_registry.

Definition never (_ : GFile) : bool := false.

Definition sample_apply : NautilusListView -> option (list string) ->
    option (list string) -> NautilusListView :=
  apply_columns_settings sample_columns_for_file sample_sort_columns never never.

(** The sample view showing name, size, type and the star column. *)
Definition sample_view_four : NautilusListView :=
  sample_apply sample_view (Some ["name"; "size"; "type"; "starred"])
    (Some ["size"; "type"; "starred"]).

Definition column_titles (self : NautilusListView) : list string :=
  map cvc_title (cv_columns (view_ui self)).

(** The sample directory seen through the list of recent files. *)
Definition sample_recent_view : NautilusListView :=
  set_directory_as_file
    {| file_location := "recent:///";
       file_is_directory := true;
       file_is_in_trash := false;
       file_is_in_recent := true;
       file_metadata_lists := ∅;
       file_sort_metadata := None |} sample_view.

Definition sample_chooser : NautilusColumnChooser :=
  {| chooser_visible_columns := ["name"; "type"];
     chooser_column_order := ["type"; "name"; "size"] |}.

Definition sample_item_folder : NautilusViewItem :=
  {| item_id := 10; item_file := Some sample_directory |}.

Definition sample_item_notes : NautilusViewItem :=
  {| item_id := 11; item_file := Some sample_regular_file |}.

Definition sample_item_null : NautilusViewItem :=
  {| item_id := 12; item_file := None |}.

(** Stand-ins for the functions outside the file: files compared by
    location whatever the attribute, with the two flags honoured the way
    the real comparison would (directories first, then reversal); quarks
    1 to 5 are the attributes of [sample_registry]. *)
Definition sample_compare (a b : NautilusFile) (q : GQuark)
    (directories_first reversed : bool) : Z :=
  let by_directory :=
    if directories_first then
      if file_is_directory a && negb (file_is_directory b) then (-1)%Z
      else if file_is_directory b && negb (file_is_directory a) then 1%Z
      else 0%Z
    else 0%Z in
  let by_location :=
    if String.ltb (file_location a) (file_location b) then (-1)%Z
    else if String.ltb (file_location b) (file_location a) then 1%Z
    else 0%Z in
  let r := if (by_directory =? 0)%Z then by_location else by_directory in
  if reversed then (- r)%Z else r.

Definition sample_is_directory (file : option NautilusFile) : bool :=
  match file with
  | Some f => file_is_directory f
  | None => false
  end.

(** New items get address 99, which no sample item has. *)
Definition sample_view_item_new (file : option NautilusFile) : option NautilusViewItem :=
  match file with
  | Some f => Some {| item_id := 99; item_file := Some f |}
  | None => None
  end.

Definition sample_quark_to_string (q : GQuark) : string :=
  if (q =? 1)%Z then "name"
  else if (q =? 2)%Z then "size"
  else if (q =? 3)%Z then "type"
  else if (q =? 4)%Z then "date_modified"
  else if (q =? 5)%Z then "starred"
  else "".

Definition sample_sorts_type (text : string) : nat :=
  if g_str_equal text "size" then 1
  else if g_str_equal text "type" then 2
  else if g_str_equal text "date_modified" then 3
  else if g_str_equal text "starred" then 6
  else 0.

(** The size column of the sample view. *)
Definition sample_size_column : GtkColumnViewColumn :=
  {| cvc_factory := 1; cvc_title := "size"; cvc_sorter := {| attribute := 2%Z |};
     cvc_expand := false; cvc_resizable := true |}.

(** The sample view with one folder in the model, sorted by name. *)
Definition sample_view_one_item : NautilusListView :=
  {| view_ui := view_ui sample_view_four;
     zoom_level := zoom_level sample_view_four;
     directories_first := directories_first sample_view_four;
     factory_to_column_map := factory_to_column_map sample_view_four;
     all_view_columns_hash := all_view_columns_hash sample_view_four;
     column_header_was_clicked := false;
     clicked_column_attribute_q := 0%Z;
     directory_as_file := directory_as_file sample_view_four;
     search_query_location := None;
     model_items := [sample_item_folder];
     sort_action_state := ("name", false);
     zoom_action_state := zoom_action_state sample_view_four;
     nautilus_list_view_preferences := sample_preferences |}.

(** The same view with a folder and a regular file in the model. *)
Definition sample_view_two_items : NautilusListView :=
  {| view_ui := view_ui sample_view_one_item;
     zoom_level := zoom_level sample_view_one_item;
     directories_first := true;
     factory_to_column_map := factory_to_column_map sample_view_one_item;
     all_view_columns_hash := all_view_columns_hash sample_view_one_item;
     column_header_was_clicked := false;
     clicked_column_attribute_q := 0%Z;
     directory_as_file := directory_as_file sample_view_one_item;
     search_query_location := None;
     model_items := [sample_item_folder; sample_item_notes];
     sort_action_state := ("name", false);
     zoom_action_state := zoom_action_state sample_view_one_item;
     nautilus_list_view_preferences := sample_preferences |}.

(** The claim on the star column, as it is worded: the hash holds
    "starred" exactly when the location can star or is the starred
    directory. *)
Definition starred_exactly_when_supported
    (can_star is_starred : GFile -> bool) (self : NautilusListView)
    (visible_columns : option (list string)) : Prop :=
  is_Some (visible_columns_hash can_star is_starred self visible_columns !! "starred")
  <-> can_star (view_location self) || is_starred (view_location self) = true.

(** The claim on the columns to hide, as it is worded: every attached
    column that is not among the view columns to show is gone after the
    call. *)
Definition unlisted_columns_removed
    (columns_for_file : NautilusFile -> list NautilusColumn)
    (sort_columns : list NautilusColumn -> option (list string) -> list NautilusColumn)
    (can_star is_starred : GFile -> bool) (self : NautilusListView)
    (column_order visible_columns : option (list string)) : Prop :=
  forall c,
    c ∈ cv_columns (view_ui self) ->
    c ∉ view_columns columns_for_file sort_columns can_star is_starred self
          column_order visible_columns ->
    c ∉ cv_columns
          (view_ui
             (apply_columns_settings columns_for_file sort_columns can_star
                is_starred self column_order visible_columns)).

(** The type column of the sample view. *)
Definition sample_type_column : GtkColumnViewColumn :=
  {| cvc_factory := 2; cvc_title := "type"; cvc_sorter := {| attribute := 3%Z |};
     cvc_expand := false; cvc_resizable := true |}.

(** The hiding loop described by its effect on the list: after a removal
    the column that slides into the freed position is passed over. *)
Fixpoint hide_columns_result (view_columns l : list GtkColumnViewColumn)
    : list GtkColumnViewColumn :=
  match l with
  | [] => []
  | c :: rest =>
      if g_list_find view_columns c then c :: hide_columns_result view_columns rest
      else match rest with
           | [] => []
           | d :: rest' => d :: hide_columns_result view_columns rest'
           end
  end.

(** What [collect_view_columns] keeps of one descriptor. *)
Definition shown_column (hash : gmap string string)
    (avc : gmap string GtkColumnViewColumn) (column : NautilusColumn)
    : option GtkColumnViewColumn :=
  match hash !! g_ascii_strdown (column_name column) with
  | Some _ => avc !! column_name column
  | None => None
  end.

(** The entries of a [char **] that may be NULL. *)
Definition entries (visible_columns : option (list string)) : list string :=
  match visible_columns with Some l => l | None => [] end.

(** ** The rest of the file *)

(** *** Icon sizes and the widget side of the zoom level *)

(** What [set_zoom_level] changes outside the struct: the icon size of the
    list base and the style classes of the widget. *)
Record ListBaseWidget := {
  icon_size : Z;
  css_classes : gset string
}.

Section ZoomWidget.

(** The enumerators of [NautilusListZoomLevel] and the icon sizes
    NAUTILUS_LIST_ICON_SIZE_* (nautilus-enums.h). *)
Context (NAUTILUS_LIST_ZOOM_LEVEL_SMALL
         NAUTILUS_LIST_ZOOM_LEVEL_MEDIUM
         NAUTILUS_LIST_ZOOM_LEVEL_LARGE : Z)
        (NAUTILUS_LIST_ICON_SIZE_SMALL
         NAUTILUS_LIST_ICON_SIZE_MEDIUM
         NAUTILUS_LIST_ICON_SIZE_LARGE : Z).

(** The switch over the three enumerators; [g_return_val_if_reached]
    answers the medium size for any other level. *)
Definition get_icon_size_for_zoom_level (zoom_level : Z) : Z :=
  if decide (zoom_level = to_guint NAUTILUS_LIST_ZOOM_LEVEL_SMALL)
  then NAUTILUS_LIST_ICON_SIZE_SMALL
  else if decide (zoom_level = to_guint NAUTILUS_LIST_ZOOM_LEVEL_MEDIUM)
  then NAUTILUS_LIST_ICON_SIZE_MEDIUM
  else if decide (zoom_level = to_guint NAUTILUS_LIST_ZOOM_LEVEL_LARGE)
  then NAUTILUS_LIST_ICON_SIZE_LARGE
  else NAUTILUS_LIST_ICON_SIZE_MEDIUM.

Definition real_get_icon_size (self : NautilusListView) : Z :=
  get_icon_size_for_zoom_level (to_guint (zoom_level self)).

Definition real_is_zoom_level_default (self : NautilusListView) : bool :=
  let icon_size := get_icon_size_for_zoom_level (to_guint (zoom_level self)) in
  bool_decide (icon_size = NAUTILUS_LIST_ICON_SIZE_MEDIUM).

(** Lines 703-713 of [set_zoom_level], after the level is stored. *)
Definition set_zoom_level_widget (new_level : Z) (widget : ListBaseWidget)
    : ListBaseWidget :=
  {| icon_size := get_icon_size_for_zoom_level new_level;
     css_classes :=
       if decide (to_gint new_level = NAUTILUS_LIST_ZOOM_LEVEL_SMALL)
       then {[ "compact" ]} ∪ css_classes widget
       else css_classes widget ∖ {[ "compact" ]} |}.

(** The widget side of the [zoom-to-level] action. *)
Definition action_zoom_to_level_widget (state : Z) (widget : ListBaseWidget)
    : ListBaseWidget :=
  set_zoom_level_widget (to_guint state) widget.

End ZoomWidget.

(** *** Loading a directory *)

(** The two fields of the struct that tell the name cells which path to
    show. *)
Record PathSettings := {
  path_attribute_q : GQuark;
  file_path_base_location : option GFile
}.

Section Loading.

(** Functions outside this file; [parent_begin_loading] is the
    [begin_loading] of the parent class. *)
Context (nautilus_get_columns_for_file : NautilusFile -> list NautilusColumn)
        (nautilus_sort_columns :
           list NautilusColumn -> option (list string) -> list NautilusColumn)
        (nautilus_tag_manager_can_star_contents : GFile -> bool)
        (nautilus_is_starred_directory : GFile -> bool)
        (nautilus_is_recent_directory : GFile -> bool)
        (nautilus_is_trash_directory : GFile -> bool)
        (nautilus_file_is_in_search : NautilusFile -> bool)
        (nautilus_file_is_in_starred : NautilusFile -> bool)
        (g_quark_from_string : string -> GQuark)
        (parent_begin_loading : NautilusListView -> NautilusListView).

Definition get_base_location (self : NautilusListView) : option GFile :=
  match search_query_location self with
  | Some location =>
      if negb (nautilus_is_recent_directory location)
         && negb (nautilus_is_starred_directory location)
         && negb (nautilus_is_trash_directory location)
      then Some location
      else None
  | None => None
  end.

Definition real_begin_loading (self : NautilusListView)
    : NautilusListView * PathSettings :=
  let self :=
    update_columns_settings_from_metadata_and_preferences
      nautilus_get_columns_for_file nautilus_sort_columns
      nautilus_tag_manager_can_star_contents nautilus_is_starred_directory self in
  let self := parent_begin_loading self in
  let self := set_clicked_column_attribute_q 0%Z self in
  let file := directory_as_file self in
  if file_is_in_trash file then
    (self, {| path_attribute_q := g_quark_from_string "trash_orig_path";
              file_path_base_location := get_base_location self |})
  else if nautilus_file_is_in_search file || file_is_in_recent file
          || nautilus_file_is_in_starred file then
    (self, {| path_attribute_q := g_quark_from_string "where";
              file_path_base_location := get_base_location self |})
  else
    (self, {| path_attribute_q := 0%Z; file_path_base_location := None |}).

End Loading.

(** *** Setting the column chooser from the stored settings *)

(** The call [column_chooser_set_from_settings] makes: the chooser is
    handed what [get_visible_columns] and [get_column_order] answer. *)
Definition column_chooser_set_from_settings (view : NautilusListView)
    : SetSettingsCall :=
  let visible_columns := get_visible_columns view in
  let column_order := get_column_order view in
  column_chooser_set_from_arrays visible_columns column_order.

(** *** Scrolling and the selection click *)

(** A child widget of the column view: whether it is a [GtkListView], and
    a number that tells it apart. *)
Record GtkWidget := {
  widget_is_list_view : bool;
  widget_id : nat
}.

(** The loop of [real_scroll_to_item] over the children, last one first. *)
Fixpoint last_list_view_from (children_backwards : list GtkWidget) : option GtkWidget :=
  match children_backwards with
  | [] => None
  | child :: previous =>
      if widget_is_list_view child then Some child
      else last_list_view_from previous
  end.

(** The widget that gets [list.scroll-to-item] and the position sent. *)
Definition real_scroll_to_item (children : list GtkWidget) (position : Z)
    : option (GtkWidget * Z) :=
  match last_list_view_from (rev children) with
  | Some child => Some (child, position)
  | None => None
  end.

Section SelectionClick.

(** The modifier masks of GDK and the model's index of an item. *)
Context (GDK_CONTROL_MASK GDK_SHIFT_MASK : Z)
        (nautilus_view_model_get_index : NautilusViewItem -> Z).

(** What [on_item_click_released_workaround] sends with
    [list.select-item], if anything: the index and the two flags. *)
Definition on_item_click_released_workaround (n_press modifiers : Z)
    (item : option NautilusViewItem) : option (Z * bool * bool) :=
  if (n_press =? 1)%Z
     && negb (Z.land modifiers (Z.lor GDK_CONTROL_MASK GDK_SHIFT_MASK) =? 0)%Z
  then
    match item with
    | Some item =>
        Some (nautilus_view_model_get_index item,
              negb (Z.land modifiers GDK_CONTROL_MASK =? 0)%Z,
              negb (Z.land modifiers GDK_SHIFT_MASK =? 0)%Z)
    | None => None
    end
  else None.

End SelectionClick.

(** *** Directories first *)

Definition set_directories_first (b : bool) (self : NautilusListView) :=
  {| view_ui := view_ui self;
     zoom_level := zoom_level self;
     directories_first := b;
     factory_to_column_map := factory_to_column_map self;
     all_view_columns_hash := all_view_columns_hash self;
     column_header_was_clicked := column_header_was_clicked self;
     clicked_column_attribute_q := clicked_column_attribute_q self;
     directory_as_file := directory_as_file self;
     search_query_location := search_query_location self;
     model_items := model_items self;
     sort_action_state := sort_action_state self;
     zoom_action_state := zoom_action_state self;
     nautilus_list_view_preferences := nautilus_list_view_preferences self |}.

(** [real_sort_directories_first_changed], given what
    [nautilus_files_view_should_sort_directories_first] answers; the model
    then sorts again with the same sorter. *)
Definition real_sort_directories_first_changed (should_sort_directories_first : bool)
    (self : NautilusListView) : NautilusListView :=
  set_directories_first should_sort_directories_first self.

(** *** Conditions used in the properties *)

(** No attached column that is to be hidden is followed at once by
    another one to be hidden. *)
Fixpoint no_adjacent_unlisted (view_columns l : list GtkColumnViewColumn) : Prop :=
  match l with
  | [] => True
  | c :: rest =>
      (c ∈ view_columns
       \/ match rest with
          | [] => True
          | d :: _ => d ∈ view_columns
          end)
      /\ no_adjacent_unlisted view_columns rest
  end.

#[global] Instance no_adjacent_unlisted_dec view_columns l :
  Decision (no_adjacent_unlisted view_columns l).
Proof.
  induction l as [|c rest IH]; simpl; [apply _|]. destruct rest; apply _.
Defined.

(** The name column of the sample view. *)
Definition sample_name_column : GtkColumnViewColumn :=
  {| cvc_factory := 0; cvc_title := "name"; cvc_sorter := {| attribute := 1%Z |};
     cvc_expand := true; cvc_resizable := true |}.

(** A second regular file, for pairs of files of one kind. *)
Definition sample_item_draft : NautilusViewItem :=
  {| item_id := 13;
     item_file :=
       Some {| file_location := "file:///home/user/draft.txt";
               file_is_directory := false;
               file_is_in_trash := false;
               file_is_in_recent := false;
               file_metadata_lists := ∅;
               file_sort_metadata := None |} |}.

(** The sample view with its two items, sorted by the size column. *)
Definition sample_view_sorted : NautilusListView :=
  set_view_ui
    (gtk_column_view_sort_by_column (view_ui sample_view_two_items)
       (Some sample_size_column) false)
    sample_view_two_items.

(** Sample icon sizes. *)
Definition sample_widget : ListBaseWidget :=
  {| icon_size := 32; css_classes := {[ "nautilus-list-view" ]} |}.

(** The sample view showing a search from the home directory, with a
    sort attribute left over from a click. *)
Definition sample_search_view : NautilusListView :=
  {| view_ui := view_ui sample_view_four;
     zoom_level := zoom_level sample_view_four;
     directories_first := true;
     factory_to_column_map := factory_to_column_map sample_view_four;
     all_view_columns_hash := all_view_columns_hash sample_view_four;
     column_header_was_clicked := true;
     clicked_column_attribute_q := 2%Z;
     directory_as_file := sample_directory;
     search_query_location := Some "file:///home/user";
     model_items := [];
     sort_action_state := ("name", false);
     zoom_action_state := zoom_action_state sample_view_four;
     nautilus_list_view_preferences := sample_preferences |}.

Definition sample_quark_from_string (s : string) : GQuark :=
  if g_str_equal s "trash_orig_path" then 7%Z
  else if g_str_equal s "where" then 8%Z
  else 9%Z.

(** * Properties *)

Local Close Scope string_scope.

(** ** Facts about the list operations *)

Lemma remove_first_app_notin c pre suf :
  c ∉ pre -> remove_first c (pre ++ c :: suf) = pre ++ suf.
Proof.
  induction pre as [|x pre IH]; intros Hc; simpl.
  - by rewrite decide_True.
  - apply not_elem_of_cons in Hc as [Hx Hc].
    rewrite decide_False; [|done]. f_equal. by apply IH.
Qed.

Lemma remove_first_app_not_elem c pre suf :
  c ∉ pre -> remove_first c (pre ++ suf) = pre ++ remove_first c suf.
Proof.
  induction pre as [|x pre IH]; intros Hc; simpl; [done|].
  apply not_elem_of_cons in Hc as [Hx Hc].
  rewrite decide_False; [|done]. f_equal. by apply IH.
Qed.

Lemma remove_first_subseteq c l : remove_first c l ⊆ l.
Proof.
  induction l as [|x l IH]; simpl; [done|].
  intros y Hy. apply elem_of_cons.
  destruct (decide (x = c)) as [_|_]; [by right|].
  apply elem_of_cons in Hy as [->|Hy]; [by left|right; by apply IH].
Qed.

Lemma remove_first_length_le c l : length (remove_first c l) ≤ length l.
Proof.
  induction l as [|x l IH]; simpl; [done|].
  case_decide; simpl; lia.
Qed.

Lemma remove_first_length c l :
  c ∈ l -> S (length (remove_first c l)) = length l.
Proof.
  induction l as [|x l IH]; intros Hc; simpl.
  - by apply elem_of_nil in Hc.
  - apply elem_of_cons in Hc as [->|Hc].
    + by rewrite decide_True.
    + case_decide; simpl; [done|]. f_equal. by apply IH.
Qed.

Lemma g_list_find_true l c : g_list_find l c = true <-> c ∈ l.
Proof. unfold g_list_find. by rewrite bool_decide_eq_true. Qed.

Lemma g_list_find_false l c : g_list_find l c = false <-> c ∉ l.
Proof. unfold g_list_find. by rewrite bool_decide_eq_false. Qed.

Lemma remove_column_length_le view c :
  length (cv_columns (gtk_column_view_remove_column view c)) ≤ length (cv_columns view).
Proof.
  unfold gtk_column_view_remove_column.
  destruct (g_list_find _ _); simpl; [apply remove_first_length_le|done].
Qed.

Lemma remove_column_subseteq view c :
  cv_columns (gtk_column_view_remove_column view c) ⊆ cv_columns view.
Proof.
  unfold gtk_column_view_remove_column.
  destruct (g_list_find _ _); simpl; [apply remove_first_subseteq|done].
Qed.

(** More fuel than columns left to visit changes nothing. *)
Lemma hide_columns_loop_fuel view_columns fuel : forall fuel' i view,
  length (cv_columns view) - i ≤ fuel -> length (cv_columns view) - i ≤ fuel' ->
  hide_columns_loop fuel i view_columns view
  = hide_columns_loop fuel' i view_columns view.
Proof.
  induction fuel as [|fuel IH]; intros fuel' i view Hf Hf'.
  - destruct fuel' as [|fuel']; [done|]. simpl.
    unfold g_list_model_get_n_items. rewrite decide_False; [done|lia].
  - destruct fuel' as [|fuel']; simpl; unfold g_list_model_get_n_items.
    + rewrite decide_False; [done|lia].
    + case_decide as Hi; [|done].
      destruct (g_list_model_get_item _ _) as [c|]; [|done].
      destruct (g_list_find view_columns c).
      * apply IH; lia.
      * pose proof (remove_column_length_le view c). apply IH; lia.
Qed.

Lemma hide_columns_loop_subseteq view_columns fuel : forall i view,
  cv_columns (hide_columns_loop fuel i view_columns view) ⊆ cv_columns view.
Proof.
  induction fuel as [|fuel IH]; intros i view; simpl; [done|].
  case_decide; [|done].
  destruct (g_list_model_get_item _ _) as [c|]; [|done].
  destruct (g_list_find view_columns c); [apply IH|].
  etrans; [apply IH|apply remove_column_subseteq].
Qed.

(** The hiding loop, column by column. *)
Lemma hide_columns_loop_result view_columns fuel : forall pre suf view,
  cv_columns view = pre ++ suf -> NoDup (pre ++ suf) -> length suf ≤ fuel ->
  cv_columns (hide_columns_loop fuel (length pre) view_columns view)
  = pre ++ hide_columns_result view_columns suf.
Proof.
  induction fuel as [|fuel IH]; intros pre suf view Hcols Hnd Hfuel.
  - destruct suf; [|simpl in Hfuel; lia]. by simpl.
  - simpl. unfold g_list_model_get_n_items, g_list_model_get_item.
    rewrite Hcols. destruct suf as [|c rest].
    + rewrite decide_False; [|rewrite length_app; simpl; lia]. by rewrite Hcols.
    + rewrite decide_True; [|rewrite length_app; simpl; lia].
      rewrite list_lookup_middle; [|done]. simpl.
      destruct (g_list_find view_columns c) eqn:Hfind.
      * replace (S (length pre)) with (length (pre ++ [c])) by (rewrite length_app; simpl; lia).
        rewrite (IH (pre ++ [c]) rest); [by rewrite <-app_assoc| by rewrite <-app_assoc| by rewrite <-app_assoc|simpl in Hfuel; lia].
      * assert (Hc : c ∉ pre).
        { apply NoDup_app in Hnd as (_ & Hd & _). intros Hin. apply (Hd c Hin). set_solver. }
        assert (Hrem : cv_columns (gtk_column_view_remove_column view c) = pre ++ rest).
        { unfold gtk_column_view_remove_column.
          rewrite (proj2 (g_list_find_true _ _)); [|rewrite Hcols; set_solver].
          simpl. rewrite Hcols. by apply remove_first_app_notin. }
        assert (Hnd' : NoDup (pre ++ rest)).
        { apply NoDup_app in Hnd as (Hp & Hd & Hs). apply NoDup_cons in Hs as [_ Hs].
          apply NoDup_app. split_and!; [done| |done]. intros x Hx Hx'. apply (Hd x Hx). set_solver. }
        destruct rest as [|d rest'].
        -- destruct fuel as [|fuel]; simpl; [by rewrite Hrem|].
           unfold g_list_model_get_n_items. rewrite Hrem.
           rewrite decide_False; [by rewrite Hrem|rewrite length_app; simpl; lia].
        -- replace (S (length pre)) with (length (pre ++ [d])) by (rewrite length_app; simpl; lia).
           rewrite (IH (pre ++ [d]) rest'); [by rewrite <-app_assoc| by rewrite <-app_assoc| by rewrite <-app_assoc|simpl in Hfuel; lia].
Qed.

Lemma g_list_store_insert_app pre rest c :
  g_list_store_insert (pre ++ rest) (length pre) c = pre ++ c :: rest.
Proof.
  unfold g_list_store_insert.
  rewrite decide_True; [|rewrite length_app; lia].
  by rewrite take_app_length, drop_app_length.
Qed.

Lemma insert_column_prefix view pre rest c :
  cv_columns view = pre ++ rest -> c ∉ pre ->
  exists rest', cv_columns (gtk_column_view_insert_column view (length pre) c)
                = pre ++ c :: rest' /\ rest' ⊆ rest.
Proof.
  intros Hcols Hc. unfold gtk_column_view_insert_column.
  rewrite decide_True; [|rewrite Hcols, length_app; lia].
  simpl. rewrite Hcols. destruct (g_list_find (pre ++ rest) c).
  - exists (remove_first c rest). split; [|apply remove_first_subseteq].
    rewrite remove_first_app_not_elem; [|done]. apply g_list_store_insert_app.
  - exists rest. split; [apply g_list_store_insert_app|done].
Qed.

Lemma place_columns_prefix l : forall pre rest view,
  cv_columns view = pre ++ rest -> NoDup (pre ++ l) ->
  exists rest', cv_columns (place_columns l (length pre) view) = pre ++ l ++ rest'
                /\ rest' ⊆ rest.
Proof.
  induction l as [|c l IH]; intros pre rest view Hcols Hnd; simpl.
  - by exists rest.
  - assert (Hc : c ∉ pre).
    { apply NoDup_app in Hnd as (_ & Hd & _). intros Hin.
      apply (Hd c Hin). apply elem_of_cons. by left. }
    destruct (insert_column_prefix view pre rest c Hcols Hc) as (rest1 & Hins & Hsub).
    destruct (IH (pre ++ [c]) rest1 (gtk_column_view_insert_column view (length pre) c))
      as (rest2 & Hpl & Hsub2).
    + by rewrite <-app_assoc.
    + by rewrite <-app_assoc.
    + exists rest2. split; [|by etrans].
      rewrite length_app in Hpl. simpl in Hpl.
      replace (S (length pre)) with (length pre + 1) by lia.
      by rewrite Hpl, <-app_assoc.
Qed.

Lemma omap_cons_eq {A B} (f : A -> option B) x l :
  omap f (x :: l) = match f x with Some y => y :: omap f l | None => omap f l end.
Proof. reflexivity. Qed.

Lemma collect_view_columns_omap hash avc l : forall acc,
  collect_view_columns hash avc l acc = rev (omap (shown_column hash avc) l) ++ acc.
Proof.
  induction l as [|column l IH]; intros acc; [done|].
  rewrite omap_cons_eq. cbn [collect_view_columns]. unfold shown_column at 1.
  destruct (hash !! g_ascii_strdown (column_name column)); [|apply IH].
  destruct (avc !! column_name column); [|apply IH].
  rewrite IH. simpl. by rewrite <-app_assoc.
Qed.

Lemma omap_ext_elem {A B} (f g : A -> option B) (l : list A) :
  (forall x, x ∈ l -> f x = g x) -> omap f l = omap g l.
Proof.
  induction l as [|x l IH]; intros Hfg; [done|].
  rewrite !omap_cons_eq.
  rewrite (Hfg x); [|apply elem_of_cons; by left].
  rewrite IH; [done|]. intros y Hy. apply Hfg, elem_of_cons. by right.
Qed.

Lemma foldl_insert_lookup (f : string -> string) (l : list string) :
  forall (h : gmap string string) k,
  is_Some (foldl (fun h v => <[f v := f v]> h) h l !! k)
  <-> is_Some (h !! k) \/ exists v, v ∈ l /\ f v = k.
Proof.
  induction l as [|x l IH]; intros h k; simpl.
  - split; [by left|]. intros [?|(v & Hv & _)]; [done|]. by apply elem_of_nil in Hv.
  - rewrite IH. rewrite lookup_insert. split.
    + intros [Hk|(v & Hv & Hfv)].
      * case_decide as Hx; [|by left]. right. exists x. split; [apply elem_of_cons; by left|done].
      * right. exists v. split; [apply elem_of_cons; by right|done].
    + intros [Hk|(v & Hv & Hfv)].
      * left. case_decide; [by eexists|done].
      * apply elem_of_cons in Hv as [->|Hv].
        -- left. rewrite decide_True; [by eexists|done].
        -- right. by exists v.
Qed.

Lemma foldl_insert_fmap (f : string -> string) (l : list string) :
  forall (h : gmap string string),
  foldl (fun h v => <[f v := f v]> h) h l
  = foldl (fun h k => <[k := k]> h) h (map f l).
Proof. induction l as [|x l IH]; intros h; simpl; [done|apply IH]. Qed.

(** [setup_view_columns] files a different view column under each name:
    every column gets a factory of its own. *)
Lemma setup_view_columns_loop_inj l : forall k f2c avc,
  (forall n c, avc !! n = Some c -> cvc_factory c < k) ->
  (forall n1 n2 c, avc !! n1 = Some c -> avc !! n2 = Some c -> n1 = n2) ->
  forall n1 n2 c,
    (setup_view_columns_loop l k f2c avc).2 !! n1 = Some c ->
    (setup_view_columns_loop l k f2c avc).2 !! n2 = Some c ->
    n1 = n2.
Proof.
  induction l as [|column l IH]; intros k f2c avc Hlt Hinj; [exact Hinj|].
  cbn [setup_view_columns_loop].
  set (view_column := if g_str_equal (column_name column) "name" then _ else _).
  assert (Hfactory : cvc_factory view_column = k).
  { unfold view_column.
    by destruct (g_str_equal (column_name column) "name"),
      (g_str_equal (column_name column) "starred"). }
  apply IH.
  - intros n c. rewrite lookup_insert. case_decide.
    + intros [= <-]. lia.
    + intros Hc. apply Hlt in Hc. lia.
  - intros n1 n2 c. rewrite !lookup_insert.
    case_decide as H1; case_decide as H2.
    + congruence.
    + intros [= <-] Hc. apply Hlt in Hc. lia.
    + intros Hc [= <-]. apply Hlt in Hc. lia.
    + apply Hinj.
Qed.

Lemma setup_view_columns_inj nautilus_columns self n1 n2 c :
  all_view_columns_hash (setup_view_columns nautilus_columns self) !! n1 = Some c ->
  all_view_columns_hash (setup_view_columns nautilus_columns self) !! n2 = Some c ->
  n1 = n2.
Proof.
  unfold setup_view_columns.
  pose proof (setup_view_columns_loop_inj nautilus_columns 0 ∅ ∅) as Hinj.
  destruct (setup_view_columns_loop nautilus_columns 0 ∅ ∅) as [f2c avc].
  simpl in *. apply Hinj.
  - intros n c'. by rewrite lookup_empty.
  - intros n n' c'. by rewrite lookup_empty.
Qed.

Lemma omap_shown_column_NoDup hash (avc : gmap string GtkColumnViewColumn)
    (l : list NautilusColumn) :
  (forall n1 n2 c, avc !! n1 = Some c -> avc !! n2 = Some c -> n1 = n2) ->
  NoDup (map column_name l) ->
  NoDup (omap (shown_column hash avc) l).
Proof.
  intros Hinj. induction l as [|column l IH]; intros Hnd; [constructor|].
  rewrite omap_cons_eq. simpl in Hnd. apply NoDup_cons in Hnd as [Hname Hnd].
  destruct (shown_column hash avc column) as [c|] eqn:Hshown; [|by apply IH].
  apply NoDup_cons. split; [|by apply IH].
  intros (column' & Hin & Hshown')%list_elem_of_omap.
  apply Hname. unfold shown_column in Hshown, Hshown'.
  destruct (hash !! g_ascii_strdown (column_name column)); [|done].
  destruct (hash !! g_ascii_strdown (column_name column')); [|done].
  rewrite (Hinj _ _ _ Hshown Hshown').
  apply list_elem_of_In, in_map. by apply list_elem_of_In.
Qed.

Section ColumnSettingsFacts.

Context (nautilus_get_columns_for_file : NautilusFile -> list NautilusColumn)
        (nautilus_sort_columns :
           list NautilusColumn -> option (list string) -> list NautilusColumn)
        (can_star : GFile -> bool)
        (is_starred : GFile -> bool).

Local Abbreviation hash_of := (visible_columns_hash can_star is_starred).
Local Abbreviation targets := (view_columns nautilus_get_columns_for_file
                       nautilus_sort_columns can_star is_starred).
Local Abbreviation sorted_columns := (all_columns nautilus_get_columns_for_file
                              nautilus_sort_columns).
Local Abbreviation apply_settings := (apply_columns_settings nautilus_get_columns_for_file
                              nautilus_sort_columns can_star is_starred).

(** Which keys the hash holds. *)
Lemma visible_columns_hash_lookup self visible_columns k :
  is_Some (hash_of self visible_columns !! k)
  <-> k = "name"%string
      \/ (can_star (view_location self) || is_starred (view_location self) = true
          /\ k = "starred"%string)
      \/ exists v, v ∈ entries visible_columns /\ g_ascii_strdown v = k.
Proof.
  unfold visible_columns_hash.
  set (h0 := <["name"%string := "name"%string]> (∅ : gmap string string)).
  assert (H0 : forall k, is_Some (h0 !! k) <-> k = "name"%string).
  { intros k'. unfold h0. rewrite lookup_insert. case_decide as Hk.
    - split; [done|by eexists].
    - rewrite lookup_empty. split; [by intros [? ?]|done]. }
  set (h1 := if can_star (view_location self) || is_starred (view_location self)
             then <["starred"%string := "starred"%string]> h0 else h0).
  assert (H1 : forall k, is_Some (h1 !! k) <-> k = "name"%string
            \/ (can_star (view_location self) || is_starred (view_location self) = true
                /\ k = "starred"%string)).
  { intros k'. unfold h1.
    destruct (can_star (view_location self) || is_starred (view_location self)).
    - rewrite lookup_insert. case_decide as Hk.
      + split; [by right|by eexists].
      + rewrite H0. split; [by left|]. intros [?|[_ ?]]; [done|congruence].
    - rewrite H0. split; [by left|]. by intros [?|[? _]]. }
  destruct visible_columns as [l|]; simpl.
  - rewrite foldl_insert_lookup, H1. tauto.
  - rewrite H1. split; [tauto|]. intros [?|[?|(v & Hv & _)]]; [tauto|tauto|].
    by apply elem_of_nil in Hv.
Qed.

Lemma view_columns_omap self column_order visible_columns :
  targets self column_order visible_columns
  = omap (shown_column (hash_of self visible_columns) (all_view_columns_hash self))
      (sorted_columns self column_order).
Proof.
  unfold view_columns. rewrite collect_view_columns_omap.
  by rewrite app_nil_r, rev_involutive.
Qed.

(** Descriptors with distinct names, in a view set up by
    [setup_view_columns], give distinct view columns to show. *)
Lemma view_columns_NoDup nautilus_columns self column_order visible_columns :
  all_view_columns_hash self
  = all_view_columns_hash (setup_view_columns nautilus_columns self) ->
  NoDup (map column_name (sorted_columns self column_order)) ->
  NoDup (targets self column_order visible_columns).
Proof.
  intros Havc Hnames. rewrite view_columns_omap.
  apply omap_shown_column_NoDup; [|done].
  rewrite Havc. intros n1 n2 c. apply setup_view_columns_inj.
Qed.

Lemma shown_column_ext (h1 h2 : gmap string string)
    (avc : gmap string GtkColumnViewColumn) column :
  (is_Some (h1 !! g_ascii_strdown (column_name column))
   <-> is_Some (h2 !! g_ascii_strdown (column_name column))) ->
  shown_column h1 avc column = shown_column h2 avc column.
Proof.
  unfold shown_column. intros [H12 H21].
  destruct (h1 !! _) as [x|], (h2 !! _) as [y|]; try done.
  - destruct H12 as [? ?]; [by eexists|done].
  - destruct H21 as [? ?]; [by eexists|done].
Qed.

Lemma hide_columns_columns view_columns view :
  NoDup (cv_columns view) ->
  cv_columns (hide_columns view_columns view)
  = hide_columns_result view_columns (cv_columns view).
Proof.
  intros Hnd. unfold hide_columns.
  by apply (hide_columns_loop_result view_columns _ [] (cv_columns view) view).
Qed.

Lemma apply_columns_settings_columns self column_order visible_columns :
  cv_columns (view_ui (apply_settings self column_order visible_columns))
  = cv_columns
      (place_columns (targets self column_order visible_columns) 0
         (hide_columns (targets self column_order visible_columns) (view_ui self))).
Proof. reflexivity. Qed.

(** The result depends on the visible columns only through the list of
    view columns to show. *)
Lemma apply_columns_settings_targets self column_order v1 v2 :
  targets self column_order v1 = targets self column_order v2 ->
  apply_settings self column_order v1 = apply_settings self column_order v2.
Proof. unfold apply_columns_settings. by intros ->. Qed.

(** C1, as amended: the hash of visible columns always holds "name"; it
    holds "starred" when the location can star or is the starred directory,
    and otherwise exactly when an entry of [visible_columns] lowercases to
    "starred".  The view columns to show are those of the descriptors, in
    the order [nautilus_sort_columns] gives them for [column_order], whose
    lowercased name is in the hash.  After the call they are the first
    attached columns, in that order, and every attached column is one of
    them or was attached before. *)
Theorem apply_columns_settings_reconciles self column_order visible_columns :
  NoDup (targets self column_order visible_columns) ->
  is_Some (hash_of self visible_columns !! "name"%string)
  /\ (is_Some (hash_of self visible_columns !! "starred"%string)
      <-> can_star (view_location self) || is_starred (view_location self) = true
          \/ exists v, v ∈ entries visible_columns
                       /\ g_ascii_strdown v = "starred"%string)
  /\ targets self column_order visible_columns
     = omap (shown_column (hash_of self visible_columns) (all_view_columns_hash self))
         (sorted_columns self column_order)
  /\ take (length (targets self column_order visible_columns))
       (cv_columns (view_ui (apply_settings self column_order visible_columns)))
     = targets self column_order visible_columns
  /\ (forall c,
        c ∈ cv_columns (view_ui (apply_settings self column_order visible_columns)) ->
        c ∈ targets self column_order visible_columns
        \/ c ∈ cv_columns (view_ui self)).
Proof.
  intros Hnd. split_and!.
  - apply visible_columns_hash_lookup. by left.
  - rewrite visible_columns_hash_lookup. split.
    + intros [?|[[? _]|?]]; [done|by left|by right].
    + intros [?|?]; [right; by left|right; by right].
  - apply view_columns_omap.
  - rewrite apply_columns_settings_columns.
    destruct (place_columns_prefix (targets self column_order visible_columns) []
                (cv_columns (hide_columns (targets self column_order visible_columns)
                               (view_ui self)))
                (hide_columns (targets self column_order visible_columns) (view_ui self)))
      as (rest & Hpl & _); [done|done|].
    simpl in Hpl. rewrite Hpl. apply take_app_length.
  - intros c. rewrite apply_columns_settings_columns.
    destruct (place_columns_prefix (targets self column_order visible_columns) []
                (cv_columns (hide_columns (targets self column_order visible_columns)
                               (view_ui self)))
                (hide_columns (targets self column_order visible_columns) (view_ui self)))
      as (rest & Hpl & Hsub); [done|done|].
    simpl in Hpl. rewrite Hpl. intros [Hc|Hc]%elem_of_app; [by left|right].
    apply Hsub in Hc. unfold hide_columns in Hc.
    by apply hide_columns_loop_subseteq in Hc.
Qed.

(** C10: a descriptor is shown exactly when its lowercased name is "name",
    is "starred" at a location that supports it, or equals the lowercased
    form of an entry of [visible_columns], and a view column is filed under
    its name; two lists of entries that agree once lowercased give the same
    result; an entry that matches no filed column changes nothing. *)
Theorem visible_columns_matched_case_insensitively self column_order :
  (forall visible_columns c,
     c ∈ targets self column_order visible_columns
     <-> exists column,
           column ∈ sorted_columns self column_order
           /\ all_view_columns_hash self !! column_name column = Some c
           /\ (g_ascii_strdown (column_name column) = "name"%string
               \/ (can_star (view_location self) || is_starred (view_location self) = true
                   /\ g_ascii_strdown (column_name column) = "starred"%string)
               \/ exists v, v ∈ entries visible_columns
                            /\ g_ascii_strdown v = g_ascii_strdown (column_name column)))
  /\ (forall l l',
        map g_ascii_strdown l = map g_ascii_strdown l' ->
        apply_settings self column_order (Some l)
        = apply_settings self column_order (Some l'))
  /\ (forall pre entry post,
        (forall column,
           column ∈ sorted_columns self column_order ->
           g_ascii_strdown (column_name column) = g_ascii_strdown entry ->
           all_view_columns_hash self !! column_name column = None) ->
        targets self column_order (Some (pre ++ entry :: post))
        = targets self column_order (Some (pre ++ post))
        /\ apply_settings self column_order (Some (pre ++ entry :: post))
           = apply_settings self column_order (Some (pre ++ post))).
Proof.
  split_and!.
  - intros visible_columns c. rewrite view_columns_omap, list_elem_of_omap.
    split.
    + intros (column & Hin & Hshown). exists column. split; [done|].
      unfold shown_column in Hshown.
      destruct (hash_of self visible_columns !! _) as [x|] eqn:Hk; [|done].
      split; [done|]. apply visible_columns_hash_lookup. by eexists.
    + intros (column & Hin & Havc & Hk). exists column. split; [done|].
      apply visible_columns_hash_lookup in Hk as [x Hx].
      unfold shown_column. by rewrite Hx.
  - intros l l' Hll'. apply apply_columns_settings_targets.
    unfold view_columns, visible_columns_hash.
    by rewrite (foldl_insert_fmap _ l), (foldl_insert_fmap _ l'), Hll'.
  - intros pre entry post Habsent.
    assert (Ht : targets self column_order (Some (pre ++ entry :: post))
                 = targets self column_order (Some (pre ++ post))).
    { rewrite !view_columns_omap. apply omap_ext_elem. intros column Hin.
      destruct (decide (g_ascii_strdown (column_name column) = g_ascii_strdown entry))
        as [Heq|Hne].
      - unfold shown_column. rewrite (Habsent column Hin Heq).
        by destruct (_ !! _), (_ !! _).
      - apply shown_column_ext. rewrite !visible_columns_hash_lookup. simpl.
        split.
        + intros [?|[?|(v & Hv & Hvk)]]; [by left|right; by left|].
          right; right. exists v. split; [|done].
          apply elem_of_app in Hv as [Hv|Hv]; apply elem_of_app; [by left|].
          apply elem_of_cons in Hv as [->|Hv]; [congruence|by right].
        + intros [?|[?|(v & Hv & Hvk)]]; [by left|right; by left|].
          right; right. exists v. split; [|done].
          apply elem_of_app in Hv as [Hv|Hv]; apply elem_of_app; [by left|].
          right. apply elem_of_cons. by right. }
    split; [done|]. by apply apply_columns_settings_targets.
Qed.

End ColumnSettingsFacts.

Lemma apply_columns_settings_reconciles_witness :
  NoDup (view_columns sample_columns_for_file sample_sort_columns never never
           sample_view_four (Some ["type"; "name"; "size"]%string)
           (Some ["SIZE"; "type"]%string))
  /\ take 3
       (cv_columns
          (view_ui
             (sample_apply sample_view_four (Some ["type"; "name"; "size"]%string)
                (Some ["SIZE"; "type"]%string))))
     = view_columns sample_columns_for_file sample_sort_columns never never
         sample_view_four (Some ["type"; "name"; "size"]%string)
         (Some ["SIZE"; "type"]%string).
Proof.
  assert (Hnd : NoDup (view_columns sample_columns_for_file sample_sort_columns
                         never never sample_view_four
                         (Some ["type"; "name"; "size"]%string)
                         (Some ["SIZE"; "type"]%string))).
  { refine (bool_decide_unpack _ _). vm_compute. exact I. }
  split; [exact Hnd|].
  destruct (apply_columns_settings_reconciles sample_columns_for_file
              sample_sort_columns never never sample_view_four
              (Some ["type"; "name"; "size"]%string)
              (Some ["SIZE"; "type"]%string) Hnd) as (_ & _ & _ & Htake & _).
  exact Htake.
Defined.

Example apply_columns_settings_reorders :
  column_titles
    (sample_apply sample_view_four (Some ["type"; "name"; "size"]%string)
       (Some ["SIZE"; "type"]%string))
  = ["type"; "name"; "size"]%string.
Proof. vm_compute. reflexivity. Qed.

(** C1, as worded, fails on the star column: with a tag manager that
    cannot star anything, an entry "starred" among the visible columns
    still puts "starred" in the hash. *)
Lemma starred_shown_without_support :
  ~ starred_exactly_when_supported never never sample_view
      (Some ["name"; "starred"]%string).
Proof.
  unfold starred_exactly_when_supported. intros [Hto _].
  assert (Hin : is_Some (visible_columns_hash never never sample_view
                           (Some ["name"; "starred"]%string) !! "starred"%string)).
  { vm_compute. by eexists. }
  specialize (Hto Hin). vm_compute in Hto. discriminate Hto.
Qed.

(** The part of C1 on hiding fails as well, by the way the loop walks the
    list: with name, size, type and the star column attached and only the
    star column asked for, "size" is removed, "type" slides into its place
    and is never looked at. *)
Example unlisted_column_left_attached :
  ~ unlisted_columns_removed sample_columns_for_file sample_sort_columns
      never (fun _ => true) sample_view_four
      (Some ["name"; "size"; "type"; "starred"]%string) (Some []).
Proof.
  intros Hremoved. apply (Hremoved sample_type_column).
  - refine (bool_decide_unpack _ _). vm_compute. exact I.
  - refine (bool_decide_unpack _ _). vm_compute. exact I.
  - refine (bool_decide_unpack _ _). vm_compute. exact I.
Qed.

(** The hiding loop passes over the column that follows a removed one:
    with name, size, type and the star column attached and only the star
    column asked for, "size" goes and "type" stays, although "type" is not
    in the hash. *)
Example apply_columns_settings_leaves_type :
  column_titles sample_view_four = ["name"; "size"; "type"; ""]%string
  /\ visible_columns_hash never (fun _ => true) sample_view_four
       (Some []) !! "type"%string = None
  /\ column_titles
       (apply_columns_settings sample_columns_for_file sample_sort_columns
          never (fun _ => true) sample_view_four
          (Some ["name"; "size"; "type"; "starred"]%string) (Some []))
     = ["name"; ""; "type"]%string.
Proof. vm_compute. done. Qed.

Lemma visible_columns_matched_case_insensitively_witness :
  sample_apply sample_view_four None (Some ["size"; "bogus"; "type"]%string)
  = sample_apply sample_view_four None (Some ["size"; "type"]%string)
  /\ sample_apply sample_view_four None (Some ["Size"; "TYPE"]%string)
     = sample_apply sample_view_four None (Some ["size"; "type"]%string).
Proof.
  destruct (visible_columns_matched_case_insensitively sample_columns_for_file
              sample_sort_columns never never sample_view_four None)
    as (_ & Hcase & Habsent).
  split.
  - apply (Habsent ["size"%string] "bogus"%string ["type"%string]).
    refine (proj1 (Forall_forall
                     (fun column =>
                        g_ascii_strdown (column_name column)
                        = g_ascii_strdown "bogus"%string ->
                        all_view_columns_hash sample_view_four !! column_name column
                        = None) _) _).
    refine (bool_decide_unpack _ _). vm_compute. exact I.
  - apply Hcase. reflexivity.
Defined.

(** ** Stored settings *)

Lemma apply_columns_settings_directory
    (columns_for_file : NautilusFile -> list NautilusColumn)
    (sort_columns : list NautilusColumn -> option (list string) -> list NautilusColumn)
    (can_star is_starred : GFile -> bool) self column_order visible_columns :
  directory_as_file
    (apply_columns_settings columns_for_file sort_columns can_star is_starred
       self column_order visible_columns)
  = directory_as_file self.
Proof. reflexivity. Qed.

(** Trash is asked first: a file that answered yes to both questions would
    get the trash defaults. *)
Lemma get_default_visible_columns_trash_first self :
  file_is_in_trash (directory_as_file self) = true ->
  get_default_visible_columns self = default_columns_for_trash
  /\ get_default_column_order self = default_columns_for_trash.
Proof.
  intros Htrash. unfold get_default_visible_columns, get_default_column_order.
  by rewrite Htrash.
Qed.

(** C4: a stored list that is neither NULL nor empty is used as it is;
    otherwise the defaults are name, size, trashed_on in the trash, name,
    size, recency among the recent files, and the preference elsewhere.
    The same holds of the column order, with its own key and preference. *)
Theorem columns_from_metadata_or_defaults self :
  file_is_in_trash (directory_as_file self)
  && file_is_in_recent (directory_as_file self) = false ->
  let file := directory_as_file self in
  let stored_visible :=
    nautilus_file_get_metadata_list file
      NAUTILUS_METADATA_KEY_LIST_VIEW_VISIBLE_COLUMNS in
  let stored_order :=
    nautilus_file_get_metadata_list file
      NAUTILUS_METADATA_KEY_LIST_VIEW_COLUMN_ORDER in
  (forall l, stored_visible = Some l -> l <> [] -> get_visible_columns self = l)
  /\ (forall l, stored_order = Some l -> l <> [] -> get_column_order self = l)
  /\ (stored_visible = None \/ stored_visible = Some [] ->
      (file_is_in_trash file = true ->
       get_visible_columns self = ["name"; "size"; "trashed_on"]%string)
      /\ (file_is_in_recent file = true ->
          get_visible_columns self = ["name"; "size"; "recency"]%string)
      /\ (file_is_in_trash file = false -> file_is_in_recent file = false ->
          get_visible_columns self
          = pref_default_visible_columns (nautilus_list_view_preferences self)))
  /\ (stored_order = None \/ stored_order = Some [] ->
      (file_is_in_trash file = true ->
       get_column_order self = ["name"; "size"; "trashed_on"]%string)
      /\ (file_is_in_recent file = true ->
          get_column_order self = ["name"; "size"; "recency"]%string)
      /\ (file_is_in_trash file = false -> file_is_in_recent file = false ->
          get_column_order self
          = pref_default_column_order (nautilus_list_view_preferences self))).
Proof.
  intros Hexcl file stored_visible stored_order. subst file.
  assert (Hdv : get_default_visible_columns self
                = if file_is_in_trash (directory_as_file self)
                  then default_columns_for_trash
                  else if file_is_in_recent (directory_as_file self)
                       then default_columns_for_recent
                       else pref_default_visible_columns
                              (nautilus_list_view_preferences self)) by reflexivity.
  assert (Hdo : get_default_column_order self
                = if file_is_in_trash (directory_as_file self)
                  then default_columns_for_trash
                  else if file_is_in_recent (directory_as_file self)
                       then default_columns_for_recent
                       else pref_default_column_order
                              (nautilus_list_view_preferences self)) by reflexivity.
  split_and!.
  - intros l Hl Hne. unfold get_visible_columns. fold stored_visible.
    rewrite Hl. by destruct l.
  - intros l Hl Hne. unfold get_column_order. fold stored_order.
    rewrite Hl. by destruct l.
  - intros Hstored.
    assert (Hv : get_visible_columns self = get_default_visible_columns self).
    { unfold get_visible_columns. fold stored_visible.
      by destruct Hstored as [-> | ->]. }
    rewrite Hv, Hdv.
    destruct (file_is_in_trash (directory_as_file self)),
      (file_is_in_recent (directory_as_file self)); try done.
  - intros Hstored.
    assert (Hv : get_column_order self = get_default_column_order self).
    { unfold get_column_order. fold stored_order.
      by destruct Hstored as [-> | ->]. }
    rewrite Hv, Hdo.
    destruct (file_is_in_trash (directory_as_file self)),
      (file_is_in_recent (directory_as_file self)); try done.
Qed.

Lemma columns_from_metadata_or_defaults_witness :
  get_visible_columns sample_recent_view = ["name"; "size"; "recency"]%string
  /\ get_column_order sample_recent_view = ["name"; "size"; "recency"]%string.
Proof.
  destruct (columns_from_metadata_or_defaults sample_recent_view eq_refl)
    as (_ & _ & Hvisible & Horder).
  split.
  - apply Hvisible; [by left|reflexivity].
  - apply Horder; [by left|reflexivity].
Defined.

(** ** Comparators *)

Lemma gtk_sorter_compare_distinct (s : GtkSorterCompare) a b self :
  item_id a <> item_id b -> gtk_sorter_compare s a b self = s a b self.
Proof. intros Hab. unfold gtk_sorter_compare. by rewrite decide_False. Qed.

Section SortingFacts.

Context (compare : NautilusFile -> NautilusFile -> GQuark -> bool -> bool -> Z)
        (nautilus_file_is_directory : option NautilusFile -> bool)
        (nautilus_view_item_new : option NautilusFile -> option NautilusViewItem)
        (g_quark_to_string : GQuark -> string)
        (get_sorts_type_from_metadata_text : string -> nat).

Local Abbreviation directories_func :=
  (sort_directories_func nautilus_file_is_directory).
Local Abbreviation view_sorter := (sorter compare nautilus_file_is_directory).
Local Abbreviation column_sort := (nautilus_list_view_sort compare).
Local Abbreviation column_view_sorter := (gtk_column_view_get_sorter compare).

Lemma sort_directories_func_state a b self :
  (directories_func a b self).2 = self.
Proof.
  unfold sort_directories_func.
  by destruct (directories_first self), (nautilus_file_is_directory (item_file a)),
    (nautilus_file_is_directory (item_file b)).
Qed.

Lemma sort_directories_func_range a b self :
  Z.sgn (directories_func a b self).1 = (directories_func a b self).1.
Proof.
  unfold sort_directories_func.
  by destruct (directories_first self), (nautilus_file_is_directory (item_file a)),
    (nautilus_file_is_directory (item_file b)).
Qed.

Lemma directories_sorter_eq a b self :
  directories_sorter nautilus_file_is_directory a b self
  = ((directories_func a b self).1, self).
Proof.
  unfold directories_sorter, gtk_custom_sorter_new, bind, ret.
  pose proof (sort_directories_func_state a b self) as Hst.
  pose proof (sort_directories_func_range a b self) as Hr.
  destruct (directories_func a b self) as [r st]. simpl in *.
  unfold gtk_ordering_from_cmpfunc. by rewrite Hr, Hst.
Qed.

(** The composite sorter on two distinct items: the verdict of the
    directories sorter when it is not equal, else the column view's. *)
Lemma sorter_eq a b self :
  item_id a <> item_id b ->
  view_sorter a b self
  = if decide ((directories_func a b self).1 = GTK_ORDERING_EQUAL)
    then column_view_sorter a b self
    else ((directories_func a b self).1, self).
Proof.
  intros Hab. unfold sorter. cbn [gtk_multi_sorter_compare]. unfold bind.
  rewrite gtk_sorter_compare_distinct, directories_sorter_eq; [|done].
  case_decide as Hd; [|done].
  rewrite gtk_sorter_compare_distinct; [|done].
  destruct (column_view_sorter a b self) as [r st].
  unfold ret. by case_decide; subst.
Qed.

(** What one call of the column comparator does to the view. *)
Lemma nautilus_list_view_sort_state a b data self :
  (column_sort a b data self).2
  = if (clicked_column_attribute_q self =? 0)%Z && column_header_was_clicked self
    then set_clicked_column_attribute_q (attribute data) self
    else self.
Proof.
  unfold nautilus_list_view_sort.
  by destruct (item_file a), (item_file b).
Qed.

(** C2: with directories first, a directory is put before a file that is
    not one, whichever way round the two are given, and the composite
    sorter returns that verdict without running the column comparator;
    when both or neither are directories, or directories first is off, the
    directories comparator says equal and the composite sorter is the
    column view's sorter. *)
Theorem directories_first_before_column a b self :
  item_id a <> item_id b ->
  let a_is_directory := nautilus_file_is_directory (item_file a) in
  let b_is_directory := nautilus_file_is_directory (item_file b) in
  (directories_first self = true -> a_is_directory = true -> b_is_directory = false ->
   (directories_func a b self).1 = GTK_ORDERING_SMALLER
   /\ view_sorter a b self = (GTK_ORDERING_SMALLER, self))
  /\ (directories_first self = true -> a_is_directory = false -> b_is_directory = true ->
      (directories_func a b self).1 = GTK_ORDERING_LARGER
      /\ view_sorter a b self = (GTK_ORDERING_LARGER, self))
  /\ (directories_first self = false \/ a_is_directory = b_is_directory ->
      (directories_func a b self).1 = GTK_ORDERING_EQUAL
      /\ view_sorter a b self = column_view_sorter a b self).
Proof.
  intros Hab a_is_directory b_is_directory. subst a_is_directory b_is_directory.
  rewrite (sorter_eq a b self Hab). unfold sort_directories_func.
  split_and!.
  - by intros -> -> ->.
  - by intros -> -> ->.
  - intros [-> | ->]; [done|].
    by destruct (directories_first self), (nautilus_file_is_directory (item_file b)).
Qed.

(** C3: on two items that have files the column comparator returns what
    [nautilus_file_compare_for_sort_by_attribute_q] returns when called
    with the column's attribute and both flags FALSE; in the composite
    sorter with one sort column the directories verdict is never negated
    and the column verdict is negated once, when the column is inverted. *)
Theorem nautilus_list_view_sort_flags a b file_a file_b self :
  item_file a = Some file_a -> item_file b = Some file_b ->
  (forall data,
     (column_sort a b data self).1
     = compare file_a file_b (attribute data) false false)
  /\ (forall column inverted,
        item_id a <> item_id b ->
        cv_sorters (view_ui self) = [(column, inverted)] ->
        (view_sorter a b self).1
        = if directories_first self && nautilus_file_is_directory (Some file_a)
             && negb (nautilus_file_is_directory (Some file_b))
          then GTK_ORDERING_SMALLER
          else if directories_first self && nautilus_file_is_directory (Some file_b)
                  && negb (nautilus_file_is_directory (Some file_a))
          then GTK_ORDERING_LARGER
          else
            let r := Z.sgn (compare file_a file_b (attribute (cvc_sorter column))
                              false false) in
            if inverted then (- r)%Z else r).
Proof.
  intros Ha Hb. split.
  - intros data. unfold nautilus_list_view_sort. by rewrite Ha, Hb.
  - intros column inverted Hab Hsorters.
    rewrite (sorter_eq a b self Hab).
    assert (Hcol : (column_view_sorter a b self).1
                   = let r := Z.sgn (compare file_a file_b
                                       (attribute (cvc_sorter column)) false false) in
                     if inverted then (- r)%Z else r).
    { unfold gtk_column_view_get_sorter. rewrite Hsorters.
      cbn [gtk_column_view_sorter_loop]. unfold bind.
      rewrite gtk_sorter_compare_distinct; [|done].
      unfold gtk_custom_sorter_new, bind, ret, nautilus_list_view_sort,
        gtk_ordering_from_cmpfunc.
      rewrite Ha, Hb. cbn zeta.
      case_decide as Hr; [|done]. simpl. by rewrite Hr. }
    unfold sort_directories_func. rewrite Ha, Hb. simpl.
    by destruct (directories_first self), (nautilus_file_is_directory (Some file_a)),
      (nautilus_file_is_directory (Some file_b)).
Qed.

(** C7: when either item has no file the comparator returns
    GTK_ORDERING_EQUAL, and what it returns and does to the view is the
    same for every comparison function: none is asked. *)
Theorem nautilus_list_view_sort_null_file a b data self :
  item_file a = None \/ item_file b = None ->
  (column_sort a b data self).1 = GTK_ORDERING_EQUAL
  /\ forall compare',
       nautilus_list_view_sort compare' a b data self = column_sort a b data self.
Proof.
  intros Hnull. unfold nautilus_list_view_sort.
  destruct Hnull as [-> | ->]; [done|].
  by destruct (item_file a).
Qed.

(** ** The sort-click bookkeeping *)

(** Once an attribute is captured the comparators leave the view alone. *)
Lemma gtk_column_view_sorter_loop_captured l : forall a b self,
  clicked_column_attribute_q self <> 0%Z ->
  (gtk_column_view_sorter_loop compare l a b self).2 = self.
Proof.
  induction l as [|[column inverted] l IH]; intros a b self Hq; [done|].
  cbn [gtk_column_view_sorter_loop]. unfold bind, gtk_sorter_compare.
  case_decide as Hid.
  - unfold ret. replace (if inverted then (- GTK_ORDERING_EQUAL)%Z
                         else GTK_ORDERING_EQUAL) with GTK_ORDERING_EQUAL
      by (by destruct inverted).
    rewrite decide_True; [|done]. by apply IH.
  - unfold gtk_custom_sorter_new, bind, ret.
    pose proof (nautilus_list_view_sort_state a b (cvc_sorter column) self) as Hst.
    destruct (column_sort a b (cvc_sorter column) self) as [r st].
    simpl in Hst. apply Z.eqb_neq in Hq. rewrite Hq in Hst. simpl in Hst. subst st.
    case_decide; [|done]. apply IH. by apply Z.eqb_neq.
Qed.

(** No comparator touches [column_header_was_clicked]. *)
Lemma nautilus_list_view_sort_clicked a b data self :
  column_header_was_clicked (column_sort a b data self).2
  = column_header_was_clicked self.
Proof.
  rewrite nautilus_list_view_sort_state.
  by destruct ((clicked_column_attribute_q self =? 0)%Z && column_header_was_clicked self).
Qed.

Lemma gtk_column_view_sorter_loop_clicked l : forall a b self,
  column_header_was_clicked (gtk_column_view_sorter_loop compare l a b self).2
  = column_header_was_clicked self.
Proof.
  induction l as [|[column inverted] l IH]; intros a b self; [done|].
  cbn [gtk_column_view_sorter_loop]. unfold bind, gtk_sorter_compare.
  case_decide as Hid.
  - unfold ret. replace (if inverted then (- GTK_ORDERING_EQUAL)%Z
                         else GTK_ORDERING_EQUAL) with GTK_ORDERING_EQUAL
      by (by destruct inverted).
    rewrite decide_True; [|done]. by apply IH.
  - unfold gtk_custom_sorter_new, bind, ret.
    pose proof (nautilus_list_view_sort_clicked a b (cvc_sorter column) self) as Hst.
    destruct (column_sort a b (cvc_sorter column) self) as [r st].
    simpl in Hst. case_decide; [|done]. by rewrite IH.
Qed.

Lemma sorter_clicked a b self :
  column_header_was_clicked (gtk_sorter_compare view_sorter a b self).2
  = column_header_was_clicked self.
Proof.
  unfold gtk_sorter_compare at 1. case_decide as Hid; [done|].
  rewrite (sorter_eq a b self Hid). case_decide; [|done].
  apply gtk_column_view_sorter_loop_clicked.
Qed.

(** The first comparison after the flags are set stores its attribute. *)
Lemma nautilus_list_view_sort_captures a b data self :
  column_header_was_clicked self = true -> clicked_column_attribute_q self = 0%Z ->
  clicked_column_attribute_q (column_sort a b data self).2 = attribute data.
Proof. intros Hc Hq. rewrite nautilus_list_view_sort_state. by rewrite Hc, Hq. Qed.

(** With one item in the model the comparison with the dummy item runs
    the comparator of the primary sort column, and nothing after it changes
    the view. *)
Lemma on_sorter_changed_one_item self item dummy_item column inverted rest :
  model_items self = [item] ->
  nautilus_view_item_new (item_file item) = Some dummy_item ->
  item_file dummy_item = item_file item ->
  item_id dummy_item <> item_id item ->
  cv_sorters (view_ui self) = (column, inverted) :: rest ->
  attribute (cvc_sorter column) <> 0%Z ->
  on_sorter_changed nautilus_view_item_new view_sorter self
  = set_clicked_column_attribute_q (attribute (cvc_sorter column))
      (set_clicked_column_attribute_q 0%Z (set_column_header_was_clicked true self)).
Proof.
  intros Hitems Hnew Hfile Hid Hsorters Hattr. unfold on_sorter_changed.
  set (self1 := set_clicked_column_attribute_q 0%Z
                  (set_column_header_was_clicked true self)).
  change (model_items self1) with (model_items self).
  unfold g_list_model_get_n_items, g_list_model_get_item.
  rewrite Hitems. simpl. rewrite Hnew.
  assert (Hid' : item_id item <> item_id dummy_item) by done.
  rewrite (gtk_sorter_compare_distinct _ _ _ _ Hid'), (sorter_eq _ _ _ Hid').
  assert (Hdirs : (directories_func item dummy_item self1).1 = GTK_ORDERING_EQUAL).
  { unfold sort_directories_func. simpl. rewrite Hfile.
    by destruct (directories_first self),
      (nautilus_file_is_directory (item_file item)). }
  rewrite decide_True; [|done].
  unfold gtk_column_view_get_sorter.
  change (cv_sorters (view_ui self1)) with (cv_sorters (view_ui self)).
  rewrite Hsorters. cbn [gtk_column_view_sorter_loop]. unfold bind.
  rewrite (gtk_sorter_compare_distinct _ _ _ _ Hid').
  unfold gtk_custom_sorter_new, bind, ret.
  pose proof (nautilus_list_view_sort_state item dummy_item (cvc_sorter column) self1)
    as Hst.
  destruct (column_sort item dummy_item (cvc_sorter column) self1) as [r st].
  simpl in Hst. subst st. case_decide; [|done].
  by rewrite gtk_column_view_sorter_loop_captured.
Qed.

(** C5: after [on_sorter_changed] the click flag is set; unless the model
    has exactly one item the captured attribute is 0 and the next run of
    the column comparator stores its attribute; with exactly one item that
    has a file, a dummy item made for that file at an address of its own,
    and a primary sort column whose attribute is not 0, the comparison
    with the dummy item has already stored that attribute. *)
Theorem on_sorter_changed_captures self :
  let self' := on_sorter_changed nautilus_view_item_new view_sorter self in
  column_header_was_clicked self' = true
  /\ (length (model_items self) <> 1 ->
      clicked_column_attribute_q self' = 0%Z
      /\ forall a b data,
           clicked_column_attribute_q (column_sort a b data self').2
           = attribute data)
  /\ (forall item dummy_item column inverted rest,
        model_items self = [item] ->
        nautilus_view_item_new (item_file item) = Some dummy_item ->
        item_file dummy_item = item_file item ->
        item_id dummy_item <> item_id item ->
        cv_sorters (view_ui self) = (column, inverted) :: rest ->
        attribute (cvc_sorter column) <> 0%Z ->
        clicked_column_attribute_q self' = attribute (cvc_sorter column)).
Proof.
  intros self'. subst self'. split_and!.
  - unfold on_sorter_changed.
    unfold g_list_model_get_n_items, g_list_model_get_item.
    case_decide as Hone; [|done].
    destruct (_ !! 0) as [item|]; [|done].
    destruct (nautilus_view_item_new (item_file item)); [|done].
    by rewrite sorter_clicked.
  - intros Hlen. unfold on_sorter_changed, g_list_model_get_n_items.
    rewrite decide_False; [|done]. split; [done|].
    intros a b data. by apply nautilus_list_view_sort_captures.
  - intros item dummy_item column inverted rest Hitems Hnew Hfile Hid Hsorters Hattr.
    by rewrite (on_sorter_changed_one_item self item dummy_item column inverted rest).
Qed.

(** The handler of the [sort] action always leaves the action in the state
    it was asked for. *)
Lemma action_sort_order_changed_state value self :
  sort_action_state (action_sort_order_changed get_sorts_type_from_metadata_text
                       value self) = value.
Proof.
  unfold action_sort_order_changed.
  case_bool_decide as Hsame; [done|].
  destruct (g_str_equal value.1 "unknown"); [done|].
  by destruct (column_header_was_clicked self).
Qed.

(** What the handler connected after the others asks of the [sort] action. *)
Lemma on_after_sorter_changed_eq self :
  column_header_was_clicked self = true ->
  clicked_column_attribute_q self <> 0%Z ->
  on_after_sorter_changed g_quark_to_string get_sorts_type_from_metadata_text self
  = action_sort_order_changed get_sorts_type_from_metadata_text
      (g_quark_to_string (clicked_column_attribute_q self),
       if g_str_equal (g_quark_to_string (clicked_column_attribute_q self))
            (sort_action_state self).1
       then negb (sort_action_state self).2 else false) self.
Proof.
  intros Hclicked Hq. unfold on_after_sorter_changed. rewrite Hclicked.
  apply Z.eqb_neq in Hq. by rewrite Hq.
Qed.

(** The primary sort column after a click on a header is that column. *)
Lemma gtk_column_view_sorter_add_column_primary view column :
  exists inverted rest,
    cv_sorters (gtk_column_view_sorter_add_column view column)
    = (column, inverted) :: rest.
Proof.
  unfold gtk_column_view_sorter_add_column.
  destruct (cv_sorters view) as [|[c inverted] rest]; [by eexists _, _|].
  case_decide as Hc; [subst c|]; by eexists _, _.
Qed.

(** X14: a click on a header with a single file in the view, from the
    click to the state of the [sort] action, when the dummy item made for
    the comparison carries the file of the item at another address and the
    attribute of the column is not 0: the action ends with the attribute
    of the clicked column, the flag toggled when the action already named
    it; unless that name is "unknown" the pair is stored for the directory
    and the click flag is down again. *)
Corollary column_header_clicked_one_item self item dummy_item column :
  model_items self = [item] ->
  nautilus_view_item_new (item_file item) = Some dummy_item ->
  item_file dummy_item = item_file item ->
  item_id dummy_item <> item_id item ->
  attribute (cvc_sorter column) <> 0%Z ->
  let name := g_quark_to_string (attribute (cvc_sorter column)) in
  let reversed :=
    if g_str_equal name (sort_action_state self).1
    then negb (sort_action_state self).2 else false in
  let self' :=
    column_header_clicked compare nautilus_file_is_directory nautilus_view_item_new
      g_quark_to_string get_sorts_type_from_metadata_text column [] self in
  sort_action_state self' = (name, reversed)
  /\ (name <> "unknown"%string ->
      column_header_was_clicked self' = false
      /\ file_sort_metadata (directory_as_file self') = Some (name, reversed)).
Proof.
  intros Hitems Hnew Hfile Hid Hattr name reversed self'.
  subst name reversed self'. unfold column_header_clicked.
  set (clicked := set_view_ui _ self).
  destruct (gtk_column_view_sorter_add_column_primary (view_ui self) column)
    as (inverted & rest & Hprimary).
  rewrite (on_sorter_changed_one_item clicked item dummy_item column inverted rest);
    [|done..].
  cbn [compare_all]. rewrite on_after_sorter_changed_eq; [|done|done].
  cbn [clicked_column_attribute_q set_clicked_column_attribute_q
       sort_action_state set_column_header_was_clicked set_view_ui clicked].
  set (value := (g_quark_to_string (attribute (cvc_sorter column)), _)).
  split; [apply action_sort_order_changed_state|].
  assert (Hnew_state : value <> sort_action_state self).
  { unfold value, g_str_equal. destruct (sort_action_state self) as [cur rev].
    simpl. case_bool_decide as Hcur; [|congruence].
    intros [= _ Hrev]. by destruct rev. }
  unfold action_sort_order_changed.
  cbn [sort_action_state set_clicked_column_attribute_q].
  rewrite bool_decide_eq_false_2; [|done].
  intros Hname.
  assert (Hunknown : g_str_equal value.1 "unknown" = false)
    by (by apply bool_decide_eq_false_2).
  rewrite !Hunknown. split; reflexivity.
Qed.

(** C8: with a captured attribute after a click, the new state of the
    [sort] action names the captured attribute; its flag is the old one
    toggled when the attribute is that of the old state, FALSE when not. *)
Theorem on_after_sorter_changed_state self :
  column_header_was_clicked self = true ->
  clicked_column_attribute_q self <> 0%Z ->
  let captured := g_quark_to_string (clicked_column_attribute_q self) in
  let self' :=
    on_after_sorter_changed g_quark_to_string get_sorts_type_from_metadata_text self in
  (captured = (sort_action_state self).1 ->
   sort_action_state self' = (captured, negb (sort_action_state self).2))
  /\ (captured <> (sort_action_state self).1 ->
      sort_action_state self' = (captured, false)).
Proof.
  intros Hclicked Hq captured self'. subst captured self'.
  unfold on_after_sorter_changed. rewrite Hclicked.
  apply Z.eqb_neq in Hq. rewrite Hq. simpl.
  rewrite action_sort_order_changed_state. unfold g_str_equal.
  split; intros Hcmp.
  - by rewrite bool_decide_eq_true_2.
  - by rewrite bool_decide_eq_false_2.
Qed.

End SortingFacts.

Lemma directories_first_before_column_witness :
  sorter sample_compare sample_is_directory sample_item_folder sample_item_notes
    sample_view_four
  = (GTK_ORDERING_SMALLER, sample_view_four).
Proof.
  destruct (directories_first_before_column sample_compare sample_is_directory
              sample_item_folder sample_item_notes sample_view_four)
    as (Hsmaller & _ & _); [vm_compute; discriminate|].
  apply Hsmaller; reflexivity.
Defined.

Lemma nautilus_list_view_sort_flags_witness :
  (sorter sample_compare sample_is_directory sample_item_notes sample_item_folder
     (set_view_ui
        (gtk_column_view_sort_by_column (view_ui sample_view_four)
           (Some sample_size_column) true) sample_view_four)).1
  = GTK_ORDERING_LARGER.
Proof.
  destruct (nautilus_list_view_sort_flags sample_compare sample_is_directory
              sample_item_notes sample_item_folder sample_regular_file
              sample_directory
              (set_view_ui
                 (gtk_column_view_sort_by_column (view_ui sample_view_four)
                    (Some sample_size_column) true) sample_view_four)
              eq_refl eq_refl) as [_ Hcomposite].
  rewrite (Hcomposite sample_size_column true); [reflexivity| |reflexivity].
  vm_compute. discriminate.
Defined.

Lemma nautilus_list_view_sort_null_file_witness :
  (nautilus_list_view_sort sample_compare sample_item_folder sample_item_null
     {| attribute := 2%Z |} sample_view_four).1 = GTK_ORDERING_EQUAL.
Proof.
  apply (nautilus_list_view_sort_null_file sample_compare sample_item_folder
           sample_item_null {| attribute := 2%Z |} sample_view_four).
  right. reflexivity.
Defined.

Lemma on_sorter_changed_captures_witness :
  clicked_column_attribute_q
    (on_sorter_changed sample_view_item_new
       (sorter sample_compare sample_is_directory)
       (set_view_ui
          (gtk_column_view_sorter_add_column (view_ui sample_view_one_item)
             sample_size_column) sample_view_one_item))
  = 2%Z.
Proof.
  destruct (on_sorter_changed_captures sample_compare sample_is_directory
              sample_view_item_new
              (set_view_ui
                 (gtk_column_view_sorter_add_column (view_ui sample_view_one_item)
                    sample_size_column) sample_view_one_item))
    as (_ & _ & Hone).
  apply (Hone sample_item_folder
           {| item_id := 99; item_file := Some sample_directory |}
           sample_size_column false []);
    [reflexivity|reflexivity|reflexivity|vm_compute; discriminate
    |reflexivity|discriminate].
Defined.

(** The capture needs a comparison that reaches a column comparator.  With
    a folder and a regular file in the model and directories first, the
    directories sorter settles every comparison: after a click on the size
    header nothing is captured, the [sort] action keeps its state and the
    click flag stays up. *)
Example click_settled_by_directories_not_captured :
  let self' :=
    column_header_clicked sample_compare sample_is_directory sample_view_item_new
      sample_quark_to_string sample_sorts_type sample_size_column
      [(sample_item_folder, sample_item_notes);
       (sample_item_notes, sample_item_folder)]
      sample_view_two_items in
  clicked_column_attribute_q self' = 0%Z
  /\ column_header_was_clicked self' = true
  /\ sort_action_state self' = ("name"%string, false)
  /\ cv_sorters (view_ui self') = [(sample_size_column, false)].
Proof. vm_compute. done. Qed.

Lemma on_after_sorter_changed_state_witness :
  sort_action_state
    (on_after_sorter_changed sample_quark_to_string sample_sorts_type
       (set_clicked_column_attribute_q 1%Z
          (set_column_header_was_clicked true sample_view_one_item)))
  = ("name"%string, true)
  /\ sort_action_state
       (on_after_sorter_changed sample_quark_to_string sample_sorts_type
          (set_clicked_column_attribute_q 2%Z
             (set_column_header_was_clicked true sample_view_one_item)))
     = ("size"%string, false).
Proof.
  split.
  - apply (on_after_sorter_changed_state sample_quark_to_string sample_sorts_type
             (set_clicked_column_attribute_q 1%Z
                (set_column_header_was_clicked true sample_view_one_item)));
      [reflexivity|discriminate|reflexivity].
  - apply (on_after_sorter_changed_state sample_quark_to_string sample_sorts_type
             (set_clicked_column_attribute_q 2%Z
                (set_column_header_was_clicked true sample_view_one_item)));
      [reflexivity|discriminate|discriminate].
Defined.

(** ** What is written to the directory's metadata *)

Section PersistFacts.

Context (nautilus_get_columns_for_file : NautilusFile -> list NautilusColumn)
        (nautilus_sort_columns :
           list NautilusColumn -> option (list string) -> list NautilusColumn)
        (can_star : GFile -> bool)
        (is_starred : GFile -> bool)
        (get_sorts_type_from_metadata_text : string -> nat).

(** C6: after the column chooser's [changed] handler the two metadata
    lists of the directory are the chooser's lists; after the [sort]
    action's handler got a state that differs from the current one and
    does not name "unknown", the directory's file is the old one with
    [set_directory_sort_metadata] applied to the new attribute and flag,
    and the action is in the new state. *)
Theorem settings_written_to_metadata chooser view value self :
  let view' :=
    column_chooser_changed_callback nautilus_get_columns_for_file
      nautilus_sort_columns can_star is_starred chooser view in
  let self' := action_sort_order_changed get_sorts_type_from_metadata_text value self in
  (nautilus_file_get_metadata_list (directory_as_file view')
     NAUTILUS_METADATA_KEY_LIST_VIEW_VISIBLE_COLUMNS
   = Some (chooser_visible_columns chooser)
   /\ nautilus_file_get_metadata_list (directory_as_file view')
        NAUTILUS_METADATA_KEY_LIST_VIEW_COLUMN_ORDER
      = Some (chooser_column_order chooser))
  /\ (value <> sort_action_state self -> value.1 <> "unknown"%string ->
      directory_as_file self'
      = set_directory_sort_metadata (directory_as_file self) value.1 value.2
      /\ file_sort_metadata (directory_as_file self') = Some value
      /\ sort_action_state self' = value).
Proof.
  intros view' self'. subst view' self'. split.
  - unfold column_chooser_changed_callback.
    rewrite apply_columns_settings_directory.
    unfold nautilus_file_get_metadata_list, nautilus_file_set_metadata_list. simpl.
    split.
    + rewrite lookup_insert_ne; [|done]. by rewrite lookup_insert_eq.
    + by rewrite lookup_insert_eq.
  - intros Hnew Hknown. unfold action_sort_order_changed.
    rewrite bool_decide_eq_false_2; [|done].
    unfold g_str_equal. rewrite bool_decide_eq_false_2; [|done].
    destruct value as [target_name reversed].
    by destruct (column_header_was_clicked self).
Qed.

End PersistFacts.

Lemma settings_written_to_metadata_witness :
  file_sort_metadata
    (directory_as_file
       (action_sort_order_changed sample_sorts_type ("size"%string, true)
          sample_view_one_item))
  = Some ("size"%string, true).
Proof.
  destruct (settings_written_to_metadata sample_columns_for_file sample_sort_columns
              never never sample_sorts_type sample_chooser sample_view_one_item
              ("size"%string, true) sample_view_one_item) as [_ Hsort].
  apply Hsort; discriminate.
Defined.

(** Once written, non-empty lists are what the view reads back. *)
Example chooser_lists_read_back :
  let view' :=
    column_chooser_changed_callback sample_columns_for_file sample_sort_columns
      never never sample_chooser sample_view_four in
  get_visible_columns view' = ["name"; "type"]%string
  /\ get_column_order view' = ["type"; "name"; "size"]%string
  /\ column_titles view' = ["type"; "name"]%string.
Proof. vm_compute. done. Qed.

(** The chooser's "use default" clears both keys, so that the defaults
    are what the view reads back. *)
Lemma column_chooser_use_default_clears
    (columns_for_file : NautilusFile -> list NautilusColumn)
    (sort_columns : list NautilusColumn -> option (list string) -> list NautilusColumn)
    (can_star is_starred : GFile -> bool) view :
  let view' :=
    (column_chooser_use_default_callback columns_for_file sort_columns can_star
       is_starred view).2 in
  nautilus_file_get_metadata_list (directory_as_file view')
    NAUTILUS_METADATA_KEY_LIST_VIEW_VISIBLE_COLUMNS = None
  /\ nautilus_file_get_metadata_list (directory_as_file view')
       NAUTILUS_METADATA_KEY_LIST_VIEW_COLUMN_ORDER = None
  /\ get_visible_columns view' = get_default_visible_columns view
  /\ get_column_order view' = get_default_column_order view.
Proof.
  assert (Hvisible :
    nautilus_file_get_metadata_list
      (directory_as_file
         (column_chooser_use_default_callback columns_for_file sort_columns
            can_star is_starred view).2)
      NAUTILUS_METADATA_KEY_LIST_VIEW_VISIBLE_COLUMNS = None).
  { unfold column_chooser_use_default_callback. cbn [snd].
    rewrite apply_columns_settings_directory.
    unfold nautilus_file_get_metadata_list, nautilus_file_set_metadata_list. simpl.
    by rewrite lookup_delete_eq. }
  assert (Horder :
    nautilus_file_get_metadata_list
      (directory_as_file
         (column_chooser_use_default_callback columns_for_file sort_columns
            can_star is_starred view).2)
      NAUTILUS_METADATA_KEY_LIST_VIEW_COLUMN_ORDER = None).
  { unfold column_chooser_use_default_callback. cbn [snd].
    rewrite apply_columns_settings_directory.
    unfold nautilus_file_get_metadata_list, nautilus_file_set_metadata_list. simpl.
    rewrite lookup_delete_ne; [|done]. by rewrite lookup_delete_eq. }
  intros view'. subst view'. split; [done|]. split; [done|].
  unfold get_visible_columns, get_column_order. rewrite Hvisible, Horder.
  done.
Qed.

(** ** Zoom levels *)

Lemma to_gint_to_guint x :
  (- 2 ^ 31 <= x < 2 ^ 31)%Z -> to_gint (to_guint x) = x.
Proof.
  intros Hx. unfold to_gint, to_guint.
  rewrite Zplus_mod_idemp_l, Z.mod_small; lia.
Qed.

Lemma to_guint_small x : (0 <= x < 2 ^ 32)%Z -> to_guint x = x.
Proof. intros Hx. unfold to_guint. by apply Z.mod_small. Qed.

Lemma to_gint_small x : (- 2 ^ 31 <= x < 2 ^ 31)%Z -> to_gint x = x.
Proof. intros Hx. unfold to_gint. rewrite Z.mod_small; lia. Qed.

Lemma action_zoom_to_level_level state self :
  zoom_level (action_zoom_to_level state self) = to_gint (to_guint state).
Proof. unfold action_zoom_to_level. by case_decide. Qed.

Lemma CLAMP_range x low high :
  (low <= high)%Z -> (low <= CLAMP x low high <= high)%Z.
Proof.
  intros Hlh. unfold CLAMP.
  destruct (Z.gtb_spec x high); [lia|]. destruct (Z.ltb_spec x low); lia.
Qed.

Lemma CLAMP_id x low high :
  (low <= x <= high)%Z -> CLAMP x low high = x.
Proof.
  intros Hx. unfold CLAMP.
  destruct (Z.gtb_spec x high); [lia|]. destruct (Z.ltb_spec x low); lia.
Qed.

Section ZoomFacts.

Context (SMALL MEDIUM LARGE : Z).

Lemma get_default_zoom_level_range self :
  (0 <= SMALL <= LARGE)%Z -> (LARGE < 2 ^ 31)%Z ->
  (SMALL <= get_default_zoom_level SMALL LARGE self <= LARGE)%Z.
Proof.
  intros Hs Hl. unfold get_default_zoom_level.
  rewrite (to_guint_small SMALL), (to_guint_small LARGE) by lia.
  pose proof (CLAMP_range
                (to_guint (pref_default_zoom_level (nautilus_list_view_preferences self)))
                SMALL LARGE ltac:(lia)) as Hc.
  rewrite to_gint_small; lia.
Qed.

Lemma get_default_zoom_level_id self :
  (0 <= SMALL <= LARGE)%Z -> (LARGE < 2 ^ 31)%Z ->
  (SMALL <= pref_default_zoom_level (nautilus_list_view_preferences self) <= LARGE)%Z ->
  get_default_zoom_level SMALL LARGE self
  = pref_default_zoom_level (nautilus_list_view_preferences self).
Proof.
  intros Hs Hl Hp. unfold get_default_zoom_level.
  rewrite (to_guint_small SMALL), (to_guint_small LARGE) by lia.
  rewrite (to_guint_small (pref_default_zoom_level _)) by lia.
  rewrite CLAMP_id by lia. apply to_gint_small. lia.
Qed.

Lemma real_bump_zoom_level_spec self zoom_increment :
  (0 <= SMALL <= LARGE)%Z -> (LARGE < 2 ^ 31)%Z ->
  (SMALL <= zoom_level self <= LARGE)%Z ->
  (- 2 ^ 31 <= zoom_increment < 2 ^ 31)%Z ->
  (SMALL <= zoom_level self + zoom_increment <= LARGE ->
   zoom_level (real_bump_zoom_level SMALL LARGE self zoom_increment)
   = zoom_level self + zoom_increment)%Z
  /\ (~ (SMALL <= zoom_level self + zoom_increment <= LARGE)%Z ->
      real_bump_zoom_level SMALL LARGE self zoom_increment = self).
Proof.
  intros Hs Hl Hz Hinc. unfold real_bump_zoom_level.
  rewrite (to_guint_small SMALL), (to_guint_small LARGE) by lia.
  split.
  - intros Hsum. rewrite (to_guint_small (zoom_level self + zoom_increment)) by lia.
    replace (zoom_level self + zoom_increment >=? SMALL)%Z with true by lia.
    replace (zoom_level self + zoom_increment <=? LARGE)%Z with true by lia.
    simpl. rewrite action_zoom_to_level_level.
    rewrite (to_gint_small (zoom_level self + zoom_increment)) by lia.
    apply to_gint_to_guint. lia.
  - intros Hsum.
    destruct (Z.le_gt_cases 0 (zoom_level self + zoom_increment)) as [Hpos|Hneg].
    + rewrite (to_guint_small (zoom_level self + zoom_increment)) by lia.
      destruct (Z.geb_spec (zoom_level self + zoom_increment) SMALL); [|done].
      destruct (Z.leb_spec (zoom_level self + zoom_increment) LARGE); [lia|done].
    + assert (Hwrap : to_guint (zoom_level self + zoom_increment)
                      = (zoom_level self + zoom_increment + 2 ^ 32)%Z).
      { unfold to_guint. symmetry.
        apply (Z.mod_unique _ _ (-1)); lia. }
      rewrite Hwrap.
      destruct (Z.leb_spec (zoom_level self + zoom_increment + 2 ^ 32) LARGE);
        [lia|]. by rewrite andb_false_r.
Qed.

(** The preference outside the range: above LARGE it gives LARGE, from 0
    to below SMALL it gives SMALL, and a negative one gives LARGE, the
    comparison being made on the unsigned enumeration type. *)
Lemma get_default_zoom_level_clamped self :
  (0 <= SMALL <= LARGE)%Z -> (LARGE < 2 ^ 31)%Z ->
  ((LARGE < pref_default_zoom_level (nautilus_list_view_preferences self) < 2 ^ 31)%Z ->
   get_default_zoom_level SMALL LARGE self = LARGE)
  /\ ((0 <= pref_default_zoom_level (nautilus_list_view_preferences self) < SMALL)%Z ->
      get_default_zoom_level SMALL LARGE self = SMALL)
  /\ ((- 2 ^ 31 <= pref_default_zoom_level (nautilus_list_view_preferences self) < 0)%Z ->
      get_default_zoom_level SMALL LARGE self = LARGE).
Proof.
  intros Hs Hl. unfold get_default_zoom_level.
  rewrite (to_guint_small SMALL), (to_guint_small LARGE) by lia.
  set (pref := pref_default_zoom_level (nautilus_list_view_preferences self)).
  split_and!; intros Hp.
  - rewrite (to_guint_small pref) by lia. unfold CLAMP.
    destruct (Z.gtb_spec pref LARGE); [|lia]. apply to_gint_small. lia.
  - rewrite (to_guint_small pref) by lia. unfold CLAMP.
    destruct (Z.gtb_spec pref LARGE); [lia|].
    destruct (Z.ltb_spec pref SMALL); [|lia]. apply to_gint_small. lia.
  - assert (Hwrap : to_guint pref = (pref + 2 ^ 32)%Z).
    { unfold to_guint. symmetry. apply (Z.mod_unique _ _ (-1)); lia. }
    rewrite Hwrap. unfold CLAMP.
    destruct (Z.gtb_spec (pref + 2 ^ 32) LARGE); [|lia]. apply to_gint_small. lia.
Qed.

(** X29: what the zoom code keeps, for enumerators with
    0 <= SMALL <= MEDIUM <= LARGE < 2^31.  [get_default_zoom_level] answers
    a level of the range: the stored preference itself when that is in the
    range, LARGE when it is above LARGE or negative, SMALL when it is from
    0 to below SMALL; the set-up makes it the level of the view.  A bump
    by an [int] from a level of the range moves to the incremented level
    when that is in the range and otherwise leaves the view as it is.
    [real_restore_standard_zoom_level] sets MEDIUM, and the [zoom-to-level]
    action stores any [int] it is given.  Zooming in is possible exactly
    below LARGE and zooming out exactly above SMALL.  After the set-up the
    level stays in the range over every sequence of bumps, restores and
    activations of the action with levels of the range. *)
Theorem zoom_level_kept_in_range self :
  (0 <= SMALL <= MEDIUM)%Z -> (MEDIUM <= LARGE < 2 ^ 31)%Z ->
  ((SMALL <= get_default_zoom_level SMALL LARGE self <= LARGE)%Z
   /\ ((SMALL <= pref_default_zoom_level (nautilus_list_view_preferences self)
        <= LARGE)%Z ->
       get_default_zoom_level SMALL LARGE self
       = pref_default_zoom_level (nautilus_list_view_preferences self))
   /\ ((LARGE < pref_default_zoom_level (nautilus_list_view_preferences self)
        < 2 ^ 31)%Z
       \/ (- 2 ^ 31 <= pref_default_zoom_level (nautilus_list_view_preferences self)
           < 0)%Z ->
       get_default_zoom_level SMALL LARGE self = LARGE)
   /\ ((0 <= pref_default_zoom_level (nautilus_list_view_preferences self)
        < SMALL)%Z ->
       get_default_zoom_level SMALL LARGE self = SMALL)
   /\ zoom_level (init_zoom_level SMALL LARGE self)
      = get_default_zoom_level SMALL LARGE self)
  /\ (forall st zoom_increment,
        (SMALL <= zoom_level st <= LARGE)%Z ->
        (- 2 ^ 31 <= zoom_increment < 2 ^ 31)%Z ->
        ((SMALL <= zoom_level st + zoom_increment <= LARGE)%Z ->
         zoom_level (real_bump_zoom_level SMALL LARGE st zoom_increment)
         = (zoom_level st + zoom_increment)%Z)
        /\ (~ (SMALL <= zoom_level st + zoom_increment <= LARGE)%Z ->
            real_bump_zoom_level SMALL LARGE st zoom_increment = st))
  /\ (forall st,
        zoom_level (real_restore_standard_zoom_level MEDIUM st) = MEDIUM)
  /\ (forall st state,
        (- 2 ^ 31 <= state < 2 ^ 31)%Z ->
        zoom_level (action_zoom_to_level state st) = state)
  /\ (forall st,
        (real_can_zoom_in LARGE st = true <-> (zoom_level st < LARGE)%Z)
        /\ (real_can_zoom_out SMALL st = true <-> (zoom_level st > SMALL)%Z))
  /\ (forall ops,
        Forall (zoom_op_in_range SMALL LARGE) ops ->
        (SMALL
         <= zoom_level (run_zoom_ops SMALL MEDIUM LARGE ops
                          (init_zoom_level SMALL LARGE self))
         <= LARGE)%Z).
Proof.
  intros Hs Hl.
  assert (Hinit : zoom_level (init_zoom_level SMALL LARGE self)
                  = get_default_zoom_level SMALL LARGE self).
  { unfold init_zoom_level. rewrite action_zoom_to_level_level. simpl.
    pose proof (get_default_zoom_level_range self ltac:(lia) ltac:(lia)).
    apply to_gint_to_guint. lia. }
  destruct (get_default_zoom_level_clamped self ltac:(lia) ltac:(lia))
    as (Habove & Hbelow & Hnegative).
  refine (conj (conj _ (conj _ (conj _ (conj _ _))))
            (conj _ (conj _ (conj _ (conj _ _))))).
  - apply get_default_zoom_level_range; lia.
  - apply get_default_zoom_level_id; lia.
  - intros [Hp|Hp]; [by apply Habove|by apply Hnegative].
  - exact Hbelow.
  - exact Hinit.
  - intros st zoom_increment Hz Hinc. apply real_bump_zoom_level_spec; lia.
  - intros st. unfold real_restore_standard_zoom_level.
    rewrite action_zoom_to_level_level. apply to_gint_to_guint. lia.
  - intros st state Hstate. rewrite action_zoom_to_level_level.
    by apply to_gint_to_guint.
  - intros st. unfold real_can_zoom_in, real_can_zoom_out. split.
    + apply Z.ltb_lt.
    + rewrite Z.gtb_ltb, Z.ltb_lt. lia.
  - intros ops Hops. unfold run_zoom_ops.
    assert (Hstart : (SMALL <= zoom_level (init_zoom_level SMALL LARGE self) <= LARGE)%Z).
    { rewrite Hinit. apply get_default_zoom_level_range; lia. }
    revert Hstart. generalize (init_zoom_level SMALL LARGE self) as st.
    induction Hops as [|op ops Hop Hops IH]; intros st Hst; [done|].
    simpl. apply IH. destruct op as [zoom_increment| |state]; simpl in *.
    + destruct (decide (SMALL <= zoom_level st + zoom_increment <= LARGE)%Z) as [Hin|Hout].
      * rewrite (proj1 (real_bump_zoom_level_spec st zoom_increment
                          ltac:(lia) ltac:(lia) Hst Hop) Hin). lia.
      * by rewrite (proj2 (real_bump_zoom_level_spec st zoom_increment
                             ltac:(lia) ltac:(lia) Hst Hop) Hout).
    + unfold real_restore_standard_zoom_level.
      rewrite action_zoom_to_level_level, to_gint_to_guint; lia.
    + rewrite action_zoom_to_level_level, to_gint_to_guint; lia.
Qed.

End ZoomFacts.

Lemma zoom_level_kept_in_range_witness :
  (0 <= zoom_level
          (run_zoom_ops 0 1 2
             [BumpZoomLevel 1; BumpZoomLevel 1; RestoreStandardZoomLevel;
              BumpZoomLevel (-1); BumpZoomLevel (-1); ZoomToLevel 2]
             (init_zoom_level 0 2 sample_view)) <= 2)%Z.
Proof.
  destruct (zoom_level_kept_in_range 0 1 2 sample_view ltac:(lia) ltac:(lia))
    as (_ & _ & _ & _ & _ & Hops).
  apply Hops. repeat constructor; simpl; lia.
Defined.

(** The level is not within the range over every sequence of operations:
    the [zoom-to-level] action stores the level it is given without
    looking at the range. *)
Lemma zoom_to_level_out_of_range :
  ~ zoom_level_always_in_range 0 1 2 sample_view.
Proof.
  intros Hall. specialize (Hall [ZoomToLevel 5]).
  vm_compute in Hall. destruct Hall as [_ Hle]. by apply Hle.
Qed.

Example zoom_to_level_five :
  zoom_level (action_zoom_to_level 5 (init_zoom_level 0 2 sample_view)) = 5%Z.
Proof. reflexivity. Qed.


(** * More of the file *)

(** ** More on the column settings *)

Lemma remove_first_sublist c l : remove_first c l `sublist_of` l.
Proof.
  induction l as [|x l IH]; simpl; [done|].
  case_decide; [by apply sublist_cons|by apply sublist_skip].
Qed.

Lemma remove_first_NoDup_notin c l : NoDup l -> c ∉ remove_first c l.
Proof.
  induction l as [|x l IH]; intros Hnd; simpl; [by apply not_elem_of_nil|].
  apply NoDup_cons in Hnd as [Hx Hnd]. case_decide as Hc.
  - by subst x.
  - apply not_elem_of_cons. split; [done|by apply IH].
Qed.

Lemma g_list_store_insert_NoDup l position c :
  NoDup l -> c ∉ l -> NoDup (g_list_store_insert l position c).
Proof.
  intros Hnd Hc. unfold g_list_store_insert. case_decide; [|done].
  rewrite <-(take_drop position l) in Hnd, Hc.
  apply NoDup_app in Hnd as (Ht & Hd & Hdr).
  apply not_elem_of_app in Hc as [Hct Hcd].
  apply NoDup_app. split_and!; [done| |by apply NoDup_cons].
  intros x Hx. apply not_elem_of_cons. split; [by intros ->|by apply Hd].
Qed.

Lemma insert_column_NoDup view position c :
  NoDup (cv_columns view) ->
  NoDup (cv_columns (gtk_column_view_insert_column view position c)).
Proof.
  intros Hnd. unfold gtk_column_view_insert_column. case_decide; [|done].
  simpl. destruct (g_list_find (cv_columns view) c) eqn:Hfind.
  - apply g_list_store_insert_NoDup.
    + eapply sublist_NoDup; [exact Hnd|apply remove_first_sublist].
    + by apply remove_first_NoDup_notin.
  - apply g_list_store_insert_NoDup; [done|]. by apply g_list_find_false.
Qed.

Lemma place_columns_NoDup l : forall column_i view,
  NoDup (cv_columns view) -> NoDup (cv_columns (place_columns l column_i view)).
Proof.
  induction l as [|c l IH]; intros column_i view Hnd; simpl; [done|].
  by apply IH, insert_column_NoDup.
Qed.

Lemma hide_columns_loop_sublist view_columns fuel : forall i view,
  cv_columns (hide_columns_loop fuel i view_columns view)
  `sublist_of` cv_columns view.
Proof.
  induction fuel as [|fuel IH]; intros i view; simpl; [done|].
  case_decide; [|done].
  destruct (g_list_model_get_item _ _) as [c|]; [|done].
  destruct (g_list_find view_columns c); [apply IH|].
  etrans; [apply IH|]. unfold gtk_column_view_remove_column.
  destruct (g_list_find _ _); [apply remove_first_sublist|done].
Qed.

Lemma hide_columns_result_filter view_columns l :
  no_adjacent_unlisted view_columns l ->
  hide_columns_result view_columns l = filter (fun c => c ∈ view_columns) l.
Proof.
  assert (Hboth : forall l,
    (no_adjacent_unlisted view_columns l ->
     hide_columns_result view_columns l = filter (fun c => c ∈ view_columns) l)
    /\ (forall c, no_adjacent_unlisted view_columns (c :: l) ->
        hide_columns_result view_columns (c :: l)
        = filter (fun c => c ∈ view_columns) (c :: l))).
  { clear l. induction l as [|d l [IH1 IH2]].
    - split; [done|]. intros c _. simpl. unfold g_list_find.
      case_bool_decide as Hc; [by rewrite filter_cons_True|by rewrite filter_cons_False].
    - split; [apply IH2|].
      intros c [Hadj Hrest]. cbn [hide_columns_result]. unfold g_list_find.
      case_bool_decide as Hc.
      + rewrite (filter_cons_True _ c); [|done]. f_equal. by apply IH2.
      + rewrite (filter_cons_False _ c); [|done].
        destruct Hadj as [Hc'|Hd]; [done|].
        rewrite (filter_cons_True _ d); [|done]. f_equal.
        apply IH1. by destruct Hrest. }
  apply Hboth.
Qed.

Lemma hide_columns_loop_all_listed view_columns fuel : forall i view,
  (forall c, c ∈ cv_columns view -> c ∈ view_columns) ->
  hide_columns_loop fuel i view_columns view = view.
Proof.
  induction fuel as [|fuel IH]; intros i view Hall; simpl; [done|].
  case_decide; [|done]. unfold g_list_model_get_item.
  destruct (cv_columns view !! i) as [c|] eqn:Hc; [|done].
  rewrite (proj2 (g_list_find_true view_columns c)); [by apply IH|].
  apply Hall. by eapply list_elem_of_lookup_2.
Qed.

Lemma insert_column_in_place view pre c rest :
  cv_columns view = pre ++ c :: rest -> c ∉ pre ->
  gtk_column_view_insert_column view (length pre) c = view.
Proof.
  intros Hcols Hc. unfold gtk_column_view_insert_column.
  rewrite decide_True; [|rewrite Hcols, length_app; lia].
  rewrite (proj2 (g_list_find_true _ c));
    [|rewrite Hcols; apply elem_of_app; right; apply elem_of_cons; by left].
  rewrite Hcols, remove_first_app_notin, g_list_store_insert_app; [|done].
  destruct view. simpl in *. by rewrite Hcols.
Qed.

Lemma place_columns_in_place l : forall pre rest view,
  cv_columns view = pre ++ l ++ rest -> NoDup (pre ++ l) ->
  place_columns l (length pre) view = view.
Proof.
  induction l as [|c l IH]; intros pre rest view Hcols Hnd; simpl; [done|].
  assert (Hc : c ∉ pre).
  { apply NoDup_app in Hnd as (_ & Hd & _). intros Hin.
    apply (Hd c Hin). apply elem_of_cons. by left. }
  rewrite (insert_column_in_place view pre c (l ++ rest)); [|done|done].
  replace (S (length pre)) with (length (pre ++ [c]))
    by (rewrite length_app; simpl; lia).
  apply (IH (pre ++ [c]) rest); by rewrite <-app_assoc.
Qed.

Lemma set_view_ui_id self : set_view_ui (view_ui self) self = self.
Proof. by destruct self. Qed.

Section ColumnSettingsMore.

Context (nautilus_get_columns_for_file : NautilusFile -> list NautilusColumn)
        (nautilus_sort_columns :
           list NautilusColumn -> option (list string) -> list NautilusColumn)
        (can_star : GFile -> bool)
        (is_starred : GFile -> bool).

Local Abbreviation hash_of := (visible_columns_hash can_star is_starred).
Local Abbreviation targets := (view_columns nautilus_get_columns_for_file
                                 nautilus_sort_columns can_star is_starred).
Local Abbreviation sorted_columns := (all_columns nautilus_get_columns_for_file
                                        nautilus_sort_columns).
Local Abbreviation apply_settings := (apply_columns_settings nautilus_get_columns_for_file
                                        nautilus_sort_columns can_star is_starred).

(** X1: [apply_columns_settings] never attaches a column twice: when the
    columns attached to the view are pairwise distinct before the call,
    they are pairwise distinct after it, whatever column order and visible
    columns are asked for. *)
Theorem apply_columns_settings_NoDup self column_order visible_columns :
  NoDup (cv_columns (view_ui self)) ->
  NoDup (cv_columns
           (view_ui
              (apply_columns_settings nautilus_get_columns_for_file
                 nautilus_sort_columns can_star is_starred self column_order
                 visible_columns))).
Proof.
  intros Hnd. rewrite apply_columns_settings_columns.
  apply place_columns_NoDup. unfold hide_columns.
  eapply sublist_NoDup; [exact Hnd|apply hide_columns_loop_sublist].
Qed.

(** X2: when the attached columns are pairwise distinct, the view columns
    to show are pairwise distinct, and no two attached columns that are to
    be hidden stand next to each other, the columns attached after
    [apply_columns_settings] are exactly the view columns to show, in
    their order. *)
Theorem apply_columns_settings_exact self column_order visible_columns :
  NoDup (cv_columns (view_ui self)) ->
  NoDup (targets self column_order visible_columns) ->
  no_adjacent_unlisted (targets self column_order visible_columns)
    (cv_columns (view_ui self)) ->
  cv_columns
    (view_ui
       (apply_columns_settings nautilus_get_columns_for_file nautilus_sort_columns
          can_star is_starred self column_order visible_columns))
  = targets self column_order visible_columns.
Proof.
  intros Hnd Hndt Hadj.
  pose proof (apply_columns_settings_columns nautilus_get_columns_for_file
                nautilus_sort_columns can_star is_starred self column_order
                visible_columns) as Hcols.
  set (t := targets self column_order visible_columns) in *.
  set (hidden := hide_columns t (view_ui self)) in *.
  assert (Hhidden : cv_columns hidden = filter (fun c => c ∈ t) (cv_columns (view_ui self))).
  { unfold hidden. rewrite hide_columns_columns; [|done].
    by apply hide_columns_result_filter. }
  assert (Hnd' : NoDup (cv_columns (place_columns t 0 hidden))).
  { apply place_columns_NoDup. rewrite Hhidden. by apply NoDup_filter. }
  destruct (place_columns_prefix t [] (cv_columns hidden) hidden)
    as (rest & Hpl & Hsub); [done|done|].
  simpl in Hpl. rewrite Hcols, Hpl. rewrite Hpl in Hnd'.
  apply NoDup_app in Hnd' as (_ & Hdisj & _).
  assert (Hrest : rest = []).
  { apply elem_of_nil_inv. intros x Hx.
    assert (Hxt : x ∈ t).
    { apply Hsub in Hx. rewrite Hhidden in Hx.
      by apply list_elem_of_filter in Hx as [Hx _]. }
    by apply (Hdisj x Hxt). }
  by rewrite Hrest, app_nil_r.
Qed.

(** X3: [apply_columns_settings] leaves the view as it is when the view
    columns to show are pairwise distinct and the attached columns
    already are exactly these, in their order. *)
Theorem apply_columns_settings_fixpoint self column_order visible_columns :
  NoDup (targets self column_order visible_columns) ->
  cv_columns (view_ui self) = targets self column_order visible_columns ->
  apply_columns_settings nautilus_get_columns_for_file nautilus_sort_columns
    can_star is_starred self column_order visible_columns
  = self.
Proof.
  intros Hnd Hcols. unfold apply_columns_settings.
  fold (targets self column_order visible_columns).
  unfold hide_columns.
  rewrite hide_columns_loop_all_listed; [|by rewrite Hcols].
  rewrite (place_columns_in_place _ [] [] (view_ui self)); [apply set_view_ui_id| |done].
  by rewrite Hcols, app_nil_r.
Qed.

(** X4: the name column cannot be hidden by the visible columns: when
    the view columns to show are pairwise distinct, a descriptor among the
    sorted columns of the file whose lowercased name is "name", and that
    has a view column filed under its name, has that view column attached
    after [apply_columns_settings] whatever the visible columns say; under
    the same condition this holds for the "starred" descriptor where the
    location can star its contents or is the starred directory. *)
Theorem name_column_always_attached self column_order visible_columns column c :
  NoDup (targets self column_order visible_columns) ->
  column ∈ sorted_columns self column_order ->
  all_view_columns_hash self !! column_name column = Some c ->
  g_ascii_strdown (column_name column) = "name"%string
  \/ (can_star (view_location self) || is_starred (view_location self) = true
      /\ g_ascii_strdown (column_name column) = "starred"%string) ->
  c ∈ cv_columns (view_ui (apply_settings self column_order visible_columns)).
Proof.
  intros Hnd Hin Havc Hname.
  assert (Hc : c ∈ targets self column_order visible_columns).
  { rewrite view_columns_omap. apply list_elem_of_omap. exists column.
    split; [done|]. unfold shown_column.
    assert (Hk : is_Some (hash_of self visible_columns
                            !! g_ascii_strdown (column_name column))).
    { apply visible_columns_hash_lookup. destruct Hname as [?|?]; [by left|right; by left]. }
    destruct Hk as [x Hx]. by rewrite Hx. }
  rewrite apply_columns_settings_columns.
  destruct (place_columns_prefix (targets self column_order visible_columns) []
              (cv_columns (hide_columns (targets self column_order visible_columns)
                             (view_ui self)))
              (hide_columns (targets self column_order visible_columns) (view_ui self)))
    as (rest & Hpl & _); [done|done|].
  simpl in Hpl. rewrite Hpl. apply elem_of_app. by left.
Qed.

(** X5: of the visible columns only the set of lowercased entries
    matters: two arrays with the same lowercased entries, in any order,
    with any repetition or letter case, NULL counting as the empty array,
    give the same view after [apply_columns_settings]. *)
Theorem visible_columns_as_set self column_order v v' :
  (forall k, (exists x, x ∈ entries v /\ g_ascii_strdown x = k)
             <-> (exists x, x ∈ entries v' /\ g_ascii_strdown x = k)) ->
  apply_settings self column_order v = apply_settings self column_order v'.
Proof.
  intros Hsame. apply apply_columns_settings_targets.
  rewrite !view_columns_omap. apply omap_ext_elem. intros column _.
  apply shown_column_ext. rewrite !visible_columns_hash_lookup.
  by rewrite (Hsame (g_ascii_strdown (column_name column))).
Qed.

(** X6: naming more visible columns never hides one: a view column to
    show for one array of visible columns is still to show for any array
    that has all its entries. *)
Theorem more_entries_more_columns self column_order v v' c :
  (forall x, x ∈ entries v -> x ∈ entries v') ->
  c ∈ targets self column_order v -> c ∈ targets self column_order v'.
Proof.
  intros Hsub. rewrite !view_columns_omap, !list_elem_of_omap.
  intros (column & Hin & Hshown). exists column. split; [done|].
  unfold shown_column in *.
  destruct (hash_of self v !! _) as [x|] eqn:Hk; [|done].
  assert (Hk' : is_Some (hash_of self v' !! g_ascii_strdown (column_name column))).
  { apply visible_columns_hash_lookup.
    assert (Hs : is_Some (hash_of self v !! g_ascii_strdown (column_name column)))
      by (by eexists).
    apply visible_columns_hash_lookup in Hs as [?|[?|(y & Hy & Hyk)]];
      [by left|right; by left|].
    right; right. exists y. split; [by apply Hsub|done]. }
  destruct Hk' as [y Hy]. by rewrite Hy.
Qed.

End ColumnSettingsMore.

Lemma apply_columns_settings_NoDup_witness :
  NoDup (cv_columns (view_ui sample_view_four))
  /\ NoDup (cv_columns
              (view_ui (sample_apply sample_view_four
                          (Some ["type"; "name"; "size"]%string)
                          (Some ["SIZE"; "type"]%string)))).
Proof.
  assert (Hnd : NoDup (cv_columns (view_ui sample_view_four))).
  { refine (bool_decide_unpack _ _). vm_compute. exact I. }
  split; [exact Hnd|].
  exact (apply_columns_settings_NoDup sample_columns_for_file sample_sort_columns
           never never sample_view_four (Some ["type"; "name"; "size"]%string)
           (Some ["SIZE"; "type"]%string) Hnd).
Defined.

Lemma apply_columns_settings_exact_witness :
  cv_columns (view_ui (sample_apply sample_view_four
                         (Some ["type"; "name"; "size"]%string)
                         (Some ["SIZE"; "type"]%string)))
  = view_columns sample_columns_for_file sample_sort_columns never never
      sample_view_four (Some ["type"; "name"; "size"]%string)
      (Some ["SIZE"; "type"]%string).
Proof.
  apply (apply_columns_settings_exact sample_columns_for_file sample_sort_columns
           never never sample_view_four (Some ["type"; "name"; "size"]%string)
           (Some ["SIZE"; "type"]%string));
    refine (bool_decide_unpack _ _); vm_compute; exact I.
Defined.

Lemma apply_columns_settings_fixpoint_witness :
  sample_apply
    (sample_apply sample_view_four (Some ["type"; "name"; "size"]%string)
       (Some ["SIZE"; "type"]%string))
    (Some ["type"; "name"; "size"]%string) (Some ["SIZE"; "type"]%string)
  = sample_apply sample_view_four (Some ["type"; "name"; "size"]%string)
      (Some ["SIZE"; "type"]%string).
Proof.
  apply (apply_columns_settings_fixpoint sample_columns_for_file sample_sort_columns
           never never).
  - refine (bool_decide_unpack _ _). vm_compute. exact I.
  - vm_compute. reflexivity.
Defined.

Lemma name_column_always_attached_witness :
  sample_name_column
  ∈ cv_columns (view_ui (sample_apply sample_view None (Some ["size"]%string))).
Proof.
  apply (name_column_always_attached sample_columns_for_file sample_sort_columns
           never never sample_view None (Some ["size"]%string)
           (sample_column "name"%string 1%Z)).
  - refine (bool_decide_unpack _ _). vm_compute. exact I.
  - apply elem_of_cons. left. reflexivity.
  - vm_compute. reflexivity.
  - left. vm_compute. reflexivity.
Defined.

Lemma visible_columns_as_set_witness :
  sample_apply sample_view None (Some ["SIZE"; "type"]%string)
  = sample_apply sample_view None (Some ["type"; "size"; "Type"]%string).
Proof.
  apply (visible_columns_as_set sample_columns_for_file sample_sort_columns
           never never).
  intros k. split; intros (x & Hx & <-); cbn [entries] in Hx;
    repeat (apply elem_of_cons in Hx as [->|Hx]);
    try (by apply elem_of_nil in Hx);
    first [ by (exists "size"%string; split; [repeat constructor|vm_compute])
          | by (exists "SIZE"%string; split; [repeat constructor|vm_compute])
          | by (exists "type"%string; split; [repeat constructor|vm_compute]) ].
Defined.

Lemma more_entries_more_columns_witness :
  sample_size_column
  ∈ view_columns sample_columns_for_file sample_sort_columns never never
      sample_view None (Some ["size"; "type"]%string).
Proof.
  apply (more_entries_more_columns sample_columns_for_file sample_sort_columns
           never never sample_view None (Some ["size"]%string)).
  - intros x Hx. apply elem_of_cons. by left; apply list_elem_of_singleton in Hx.
  - refine (bool_decide_unpack _ _). vm_compute. exact I.
Defined.

(** ** The two tables of [setup_view_columns] *)

Lemma setup_view_columns_loop_tables l : forall k f2c avc done,
  (forall n vc, avc !! n = Some vc ->
     cvc_factory vc < k
     /\ exists nc, nc ∈ done /\ column_name nc = n
                   /\ f2c !! cvc_factory vc = Some nc
                   /\ attribute (cvc_sorter vc) = column_attribute_q nc) ->
  (forall nc, nc ∈ done -> is_Some (avc !! column_name nc)) ->
  (forall n vc, (setup_view_columns_loop l k f2c avc).2 !! n = Some vc ->
     exists nc, nc ∈ done ++ l /\ column_name nc = n
                /\ (setup_view_columns_loop l k f2c avc).1 !! cvc_factory vc = Some nc
                /\ attribute (cvc_sorter vc) = column_attribute_q nc)
  /\ (forall nc, nc ∈ done ++ l ->
        is_Some ((setup_view_columns_loop l k f2c avc).2 !! column_name nc)).
Proof.
  induction l as [|column l IH]; intros k f2c avc done Hback Hfiled.
  - rewrite app_nil_r. split; [|done].
    intros n vc Hvc. by destruct (Hback n vc Hvc) as [_ ?].
  - cbn [setup_view_columns_loop].
    set (view_column := if g_str_equal (column_name column) "name" then _ else _).
    assert (Hfactory : cvc_factory view_column = k
                       /\ attribute (cvc_sorter view_column) = column_attribute_q column).
    { unfold view_column.
      by destruct (g_str_equal (column_name column) "name"),
        (g_str_equal (column_name column) "starred"). }
    destruct Hfactory as [Hfactory Hattr].
    replace (done ++ column :: l) with ((done ++ [column]) ++ l)
      by (by rewrite <-app_assoc).
    apply IH.
    + intros n vc. rewrite lookup_insert. case_decide as Hn.
      * intros [= <-]. rewrite Hfactory. split; [lia|].
        exists column. split_and!; [apply elem_of_app; right; by apply list_elem_of_singleton
                                   |done|by rewrite lookup_insert_eq|done].
      * intros Hvc. destruct (Hback n vc Hvc) as (Hlt & nc & Hin & Hname & Hf2c & Hq).
        split; [lia|]. exists nc.
        split_and!; [apply elem_of_app; by left|done| |done].
        rewrite lookup_insert_ne; [done|lia].
    + intros nc [Hin| ->%list_elem_of_singleton]%elem_of_app.
      * rewrite lookup_insert. case_decide; [by eexists|by apply Hfiled].
      * rewrite lookup_insert_eq. by eexists.
Qed.

(** X7: the two tables built by [setup_view_columns] agree: every
    descriptor is filed under its name in [all_view_columns_hash]; the
    factory of a filed view column leads, in [factory_to_column_map], to a
    descriptor with that name, whose attribute quark is the one the
    column's sorter compares by; and no view column is filed under two
    names. *)
Theorem setup_view_columns_tables nautilus_columns self :
  let self' := setup_view_columns nautilus_columns self in
  (forall nc, nc ∈ nautilus_columns ->
     is_Some (all_view_columns_hash self' !! column_name nc))
  /\ (forall n vc, all_view_columns_hash self' !! n = Some vc ->
        exists nc, nc ∈ nautilus_columns /\ column_name nc = n
                   /\ factory_to_column_map self' !! cvc_factory vc = Some nc
                   /\ attribute (cvc_sorter vc) = column_attribute_q nc)
  /\ (forall n1 n2 vc,
        all_view_columns_hash self' !! n1 = Some vc ->
        all_view_columns_hash self' !! n2 = Some vc -> n1 = n2).
Proof.
  intros self'.
  split_and!; [| |intros n1 n2 vc; apply setup_view_columns_inj].
  - subst self'. unfold setup_view_columns.
    destruct (setup_view_columns_loop_tables nautilus_columns 0 ∅ ∅ []) as [_ Hfiled].
    + intros n vc. by rewrite lookup_empty.
    + intros nc Hnc. by apply elem_of_nil in Hnc.
    + destruct (setup_view_columns_loop nautilus_columns 0 ∅ ∅) as [f2c avc].
      simpl in *. exact Hfiled.
  - subst self'. unfold setup_view_columns.
    destruct (setup_view_columns_loop_tables nautilus_columns 0 ∅ ∅ []) as [Hback _].
    + intros n vc. by rewrite lookup_empty.
    + intros nc Hnc. by apply elem_of_nil in Hnc.
    + destruct (setup_view_columns_loop nautilus_columns 0 ∅ ∅) as [f2c avc].
      simpl in *. exact Hback.
Qed.

(** X8: the search of [action_sort_order_changed] for the column to sort
    by returns the first attached column whose descriptor has the wanted
    attribute, and returns none only when no attached column has it. *)
Theorem find_sort_column_first f2c wanted view_columns :
  match find_sort_column f2c wanted view_columns with
  | Some view_column =>
      exists pre post nautilus_column,
        view_columns = pre ++ view_column :: post
        /\ f2c !! cvc_factory view_column = Some nautilus_column
        /\ wanted = Some (column_attribute nautilus_column)
        /\ forall c nc, c ∈ pre -> f2c !! cvc_factory c = Some nc ->
                        wanted <> Some (column_attribute nc)
  | None =>
      forall c nc, c ∈ view_columns -> f2c !! cvc_factory c = Some nc ->
                   wanted <> Some (column_attribute nc)
  end.
Proof.
  induction view_columns as [|c l IH]; simpl.
  - intros c nc Hc. by apply elem_of_nil in Hc.
  - destruct (f2c !! cvc_factory c) as [nautilus_column|] eqn:Hf2c.
    + case_bool_decide as Hw.
      * exists [], l, nautilus_column. split_and!; [done|done|done|].
        intros c' nc Hc'. by apply elem_of_nil in Hc'.
      * destruct (find_sort_column f2c wanted l) as [vc|].
        -- destruct IH as (pre & post & nc & -> & Hvc & Hwanted & Hfirst).
           exists (c :: pre), post, nc. split_and!; [done|done|done|].
           intros c' nc' [->|Hc']%elem_of_cons Hc'f; [congruence|by eapply Hfirst].
        -- intros c' nc' [->|Hc']%elem_of_cons Hc'f; [congruence|by eapply IH].
    + destruct (find_sort_column f2c wanted l) as [vc|].
      * destruct IH as (pre & post & nc & -> & Hvc & Hwanted & Hfirst).
        exists (c :: pre), post, nc. split_and!; [done|done|done|].
        intros c' nc' [->|Hc']%elem_of_cons Hc'f; [congruence|by eapply Hfirst].
      * intros c' nc' [->|Hc']%elem_of_cons Hc'f; [congruence|by eapply IH].
Qed.

Lemma find_sort_column_attached f2c wanted view_columns view_column :
  find_sort_column f2c wanted view_columns = Some view_column ->
  view_column ∈ view_columns.
Proof.
  induction view_columns as [|c l IH]; simpl; [done|].
  destruct (f2c !! cvc_factory c) as [nc|].
  - case_bool_decide; [intros [= ->]; apply elem_of_cons; by left|].
    intros Hf. apply elem_of_cons. right. by apply IH.
  - intros Hf. apply elem_of_cons. right. by apply IH.
Qed.

Section SortActionMore.

Context (get_sorts_type_from_metadata_text : string -> nat).

Local Abbreviation sort_changed :=
  (action_sort_order_changed get_sorts_type_from_metadata_text).

(** X9: a new state of the [sort] action whose attribute is not
    "unknown" leaves the click flag down and the attached columns as they
    were; after a click on a header the column view is not touched at
    all, otherwise it is told to sort by the first attached column with
    the attribute of the state, in the direction of the state, or by no
    column when no attached column has it. *)
Theorem action_sort_order_changed_sorts value self :
  value <> sort_action_state self -> value.1 <> "unknown"%string ->
  let self' := sort_changed value self in
  let sort_column :=
    find_sort_column (factory_to_column_map self)
      (attributes !! get_sorts_type_from_metadata_text value.1)
      (cv_columns (view_ui self)) in
  column_header_was_clicked self' = false
  /\ cv_columns (view_ui self') = cv_columns (view_ui self)
  /\ (column_header_was_clicked self = true -> view_ui self' = view_ui self)
  /\ (column_header_was_clicked self = false ->
      cv_sorters (view_ui self')
      = match sort_column with
        | Some view_column => [(view_column, value.2)]
        | None => []
        end).
Proof.
  intros Hnew Hknown self' sort_column. subst self'.
  unfold action_sort_order_changed.
  rewrite bool_decide_eq_false_2; [|done].
  unfold g_str_equal. rewrite bool_decide_eq_false_2; [|done].
  fold sort_column.
  destruct (column_header_was_clicked self) eqn:Hclicked; simpl.
  - done.
  - split_and!; [done| |done|intros _].
    + destruct sort_column as [c|]; simpl; [|done].
      by destruct (g_list_find (cv_columns (view_ui self)) c).
    + destruct sort_column as [c|] eqn:Hfind; simpl; [|done].
      apply find_sort_column_attached in Hfind.
      by rewrite (proj2 (g_list_find_true _ c)).
Qed.

(** X10: the handler of the [sort] action settles: run a second time with
    the same state it changes nothing; and a state named "unknown" changes
    neither the column view, nor the metadata of the directory, nor the
    click flag. *)
Theorem action_sort_order_changed_settles value self :
  action_sort_order_changed get_sorts_type_from_metadata_text value
    (action_sort_order_changed get_sorts_type_from_metadata_text value self)
  = action_sort_order_changed get_sorts_type_from_metadata_text value self
  /\ (value.1 = "unknown"%string ->
      view_ui (sort_changed value self) = view_ui self
      /\ directory_as_file (sort_changed value self) = directory_as_file self
      /\ column_header_was_clicked (sort_changed value self)
         = column_header_was_clicked self).
Proof.
  split.
  - pose proof (action_sort_order_changed_state get_sorts_type_from_metadata_text
                  value self) as Hstate.
    unfold action_sort_order_changed at 1.
    by rewrite bool_decide_eq_true_2.
  - intros Hunknown. unfold action_sort_order_changed.
    case_bool_decide; [done|].
    unfold g_str_equal. by rewrite bool_decide_eq_true_2.
Qed.

End SortActionMore.

Lemma action_sort_order_changed_sorts_witness :
  cv_sorters
    (view_ui (action_sort_order_changed sample_sorts_type ("size"%string, true)
                sample_view_two_items))
  = [(sample_size_column, true)].
Proof.
  destruct (action_sort_order_changed_sorts sample_sorts_type ("size"%string, true)
              sample_view_two_items) as (_ & _ & _ & Hsorters).
  - discriminate.
  - discriminate.
  - rewrite Hsorters by reflexivity. vm_compute. reflexivity.
Defined.

(** ** Comparisons outside the capture *)

Section ComparisonsMore.

Context (compare : NautilusFile -> NautilusFile -> GQuark -> bool -> bool -> Z)
        (nautilus_file_is_directory : option NautilusFile -> bool)
        (nautilus_view_item_new : option NautilusFile -> option NautilusViewItem)
        (g_quark_to_string : GQuark -> string)
        (get_sorts_type_from_metadata_text : string -> nat).

Local Abbreviation directories_func :=
  (sort_directories_func nautilus_file_is_directory).
Local Abbreviation view_sorter := (sorter compare nautilus_file_is_directory).
Local Abbreviation column_sort := (nautilus_list_view_sort compare).

(** Nothing is to be captured: no click is pending, or an attribute is
    already there. *)
Lemma nautilus_list_view_sort_steady a b data self :
  (clicked_column_attribute_q self =? 0)%Z && column_header_was_clicked self = false ->
  (column_sort a b data self).2 = self.
Proof. intros Hs. by rewrite nautilus_list_view_sort_state, Hs. Qed.

Lemma nautilus_list_view_sort_value a b data self :
  (column_sort a b data self).1
  = match item_file a, item_file b with
    | Some file_a, Some file_b => compare file_a file_b (attribute data) false false
    | _, _ => GTK_ORDERING_EQUAL
    end.
Proof. unfold nautilus_list_view_sort. by destruct (item_file a), (item_file b). Qed.

Lemma gtk_column_view_sorter_loop_steady l : forall a b self,
  (clicked_column_attribute_q self =? 0)%Z && column_header_was_clicked self = false ->
  (gtk_column_view_sorter_loop compare l a b self).2 = self.
Proof.
  induction l as [|[column inverted] l IH]; intros a b self Hs; [done|].
  cbn [gtk_column_view_sorter_loop]. unfold bind, gtk_sorter_compare.
  case_decide as Hid.
  - unfold ret. replace (if inverted then (- GTK_ORDERING_EQUAL)%Z
                         else GTK_ORDERING_EQUAL) with GTK_ORDERING_EQUAL
      by (by destruct inverted).
    rewrite decide_True; [|done]. by apply IH.
  - unfold gtk_custom_sorter_new, bind, ret.
    pose proof (nautilus_list_view_sort_steady a b (cvc_sorter column) self Hs) as Hst.
    destruct (column_sort a b (cvc_sorter column) self) as [r st].
    simpl in Hst. subst st. case_decide; [|done]. by apply IH.
Qed.

Lemma sorter_steady a b self :
  (clicked_column_attribute_q self =? 0)%Z && column_header_was_clicked self = false ->
  (gtk_sorter_compare view_sorter a b self).2 = self.
Proof.
  intros Hs. unfold gtk_sorter_compare at 1. case_decide as Hid; [done|].
  rewrite (sorter_eq compare nautilus_file_is_directory a b self Hid).
  case_decide; [|done]. by apply gtk_column_view_sorter_loop_steady.
Qed.

(** X11: comparing items changes nothing in the view unless a click is
    waiting for its attribute: with the click flag down, or with an
    attribute already captured, any run of comparisons by the view's
    sorter leaves the view as it was. *)
Theorem comparisons_leave_view_alone pairs self :
  column_header_was_clicked self = false \/ clicked_column_attribute_q self <> 0%Z ->
  compare_all view_sorter pairs self = self.
Proof.
  intros Hs.
  assert (Hsteady : (clicked_column_attribute_q self =? 0)%Z
                    && column_header_was_clicked self = false).
  { destruct Hs as [-> | Hq]; [apply andb_false_r|].
    apply Z.eqb_neq in Hq. by rewrite Hq. }
  clear Hs. induction pairs as [|[x y] pairs IH]; simpl; [done|].
  by rewrite sorter_steady.
Qed.

Lemma sort_directories_func_antisym a b self :
  (directories_func a b self).1 = (- (directories_func b a self).1)%Z.
Proof.
  unfold sort_directories_func.
  by destruct (directories_first self), (nautilus_file_is_directory (item_file a)),
    (nautilus_file_is_directory (item_file b)).
Qed.

Lemma gtk_column_view_sorter_loop_antisym l : forall a b self,
  (forall file_a file_b q,
     Z.sgn (compare file_a file_b q false false)
     = (- Z.sgn (compare file_b file_a q false false))%Z) ->
  (clicked_column_attribute_q self =? 0)%Z && column_header_was_clicked self = false ->
  item_id a <> item_id b ->
  (gtk_column_view_sorter_loop compare l a b self).1
  = (- (gtk_column_view_sorter_loop compare l b a self).1)%Z.
Proof.
  induction l as [|[column inverted] l IH]; intros a b self Hanti Hs Hid; [done|].
  cbn [gtk_column_view_sorter_loop]. unfold bind.
  rewrite !gtk_sorter_compare_distinct; [|done|done].
  unfold gtk_custom_sorter_new, bind, ret.
  pose proof (nautilus_list_view_sort_steady a b (cvc_sorter column) self Hs) as Hab.
  pose proof (nautilus_list_view_sort_steady b a (cvc_sorter column) self Hs) as Hba.
  pose proof (nautilus_list_view_sort_value a b (cvc_sorter column) self) as Vab.
  pose proof (nautilus_list_view_sort_value b a (cvc_sorter column) self) as Vba.
  destruct (column_sort a b (cvc_sorter column) self) as [rab sab].
  destruct (column_sort b a (cvc_sorter column) self) as [rba sba].
  simpl in *. subst sab sba.
  assert (Hr : gtk_ordering_from_cmpfunc rab = (- gtk_ordering_from_cmpfunc rba)%Z).
  { unfold gtk_ordering_from_cmpfunc. subst rab rba.
    destruct (item_file a), (item_file b); first [apply Hanti|done]. }
  rewrite Hr. unfold GTK_ORDERING_EQUAL.
  destruct inverted; repeat case_decide; unfold ret; simpl; try lia; by apply IH.
Qed.

(** X12: the sorter of the view is antisymmetric whenever the comparison
    of files is and no capture is pending: swapping the two items negates
    the ordering, with directories first on or off and for any sort
    columns and directions. *)
Theorem sorter_antisymmetric a b self :
  (forall file_a file_b q,
     Z.sgn (compare file_a file_b q false false)
     = (- Z.sgn (compare file_b file_a q false false))%Z) ->
  column_header_was_clicked self = false \/ clicked_column_attribute_q self <> 0%Z ->
  (gtk_sorter_compare view_sorter a b self).1
  = (- (gtk_sorter_compare view_sorter b a self).1)%Z.
Proof.
  intros Hanti Hs.
  assert (Hsteady : (clicked_column_attribute_q self =? 0)%Z
                    && column_header_was_clicked self = false).
  { destruct Hs as [-> | Hq]; [apply andb_false_r|].
    apply Z.eqb_neq in Hq. by rewrite Hq. }
  unfold gtk_sorter_compare. repeat case_decide; try done; try congruence.
  rewrite !(sorter_eq compare nautilus_file_is_directory); [|done|done].
  rewrite (sort_directories_func_antisym a b self). unfold GTK_ORDERING_EQUAL.
  repeat case_decide; simpl; try lia.
  unfold gtk_column_view_get_sorter. by apply gtk_column_view_sorter_loop_antisym.
Qed.

Lemma compare_all_settled pairs : forall self,
  directories_first self = true ->
  Forall (fun p : NautilusViewItem * NautilusViewItem =>
            item_id p.1 <> item_id p.2
            /\ nautilus_file_is_directory (item_file p.1)
               <> nautilus_file_is_directory (item_file p.2)) pairs ->
  compare_all view_sorter pairs self = self.
Proof.
  induction pairs as [|[x y] pairs IH]; intros self Hdf Hall; simpl; [done|].
  apply Forall_cons in Hall as [[Hid Hdir] Hall]. simpl in *.
  rewrite gtk_sorter_compare_distinct; [|done].
  rewrite (sorter_eq compare nautilus_file_is_directory x y self Hid).
  assert (Hne : (directories_func x y self).1 <> GTK_ORDERING_EQUAL).
  { unfold sort_directories_func. rewrite Hdf.
    by destruct (nautilus_file_is_directory (item_file x)),
      (nautilus_file_is_directory (item_file y)). }
  rewrite decide_False; [|done]. simpl. by apply IH.
Qed.

(** X13: a click on a header goes unnoticed when directories come first
    and every comparison made is between a directory and a file: with more
    or fewer than one item in the model, the click flag stays up, no
    attribute is captured, and neither the state of the [sort] action nor
    the metadata of the directory change. *)
Theorem click_settled_by_directories column pairs self :
  length (model_items self) <> 1 ->
  directories_first self = true ->
  Forall (fun p : NautilusViewItem * NautilusViewItem =>
            item_id p.1 <> item_id p.2
            /\ nautilus_file_is_directory (item_file p.1)
               <> nautilus_file_is_directory (item_file p.2)) pairs ->
  let self' :=
    column_header_clicked compare nautilus_file_is_directory nautilus_view_item_new
      g_quark_to_string get_sorts_type_from_metadata_text column pairs self in
  column_header_was_clicked self' = true
  /\ clicked_column_attribute_q self' = 0%Z
  /\ sort_action_state self' = sort_action_state self
  /\ directory_as_file self' = directory_as_file self.
Proof.
  intros Hlen Hdf Hall self'. subst self'. unfold column_header_clicked.
  unfold on_sorter_changed, g_list_model_get_n_items. cbn [model_items set_view_ui
    set_clicked_column_attribute_q set_column_header_was_clicked].
  rewrite decide_False; [|done].
  rewrite compare_all_settled; [|done|done].
  unfold on_after_sorter_changed. simpl. done.
Qed.

End ComparisonsMore.

Lemma comparisons_leave_view_alone_witness :
  compare_all (sorter sample_compare sample_is_directory)
    [(sample_item_notes, sample_item_draft); (sample_item_draft, sample_item_folder)]
    sample_view_sorted
  = sample_view_sorted.
Proof.
  apply comparisons_leave_view_alone. left. reflexivity.
Defined.

Lemma sample_compare_antisymmetric file_a file_b q :
  Z.sgn (sample_compare file_a file_b q false false)
  = (- Z.sgn (sample_compare file_b file_a q false false))%Z.
Proof.
  unfold sample_compare, String.ltb. simpl.
  rewrite (String.compare_antisym (file_location file_b) (file_location file_a)).
  by destruct (String.compare (file_location file_a) (file_location file_b)).
Qed.

Lemma sorter_antisymmetric_witness :
  (gtk_sorter_compare (sorter sample_compare sample_is_directory)
     sample_item_notes sample_item_draft sample_view_sorted).1
  = (- (gtk_sorter_compare (sorter sample_compare sample_is_directory)
          sample_item_draft sample_item_notes sample_view_sorted).1)%Z.
Proof.
  apply sorter_antisymmetric.
  - apply sample_compare_antisymmetric.
  - left. reflexivity.
Defined.

Lemma click_settled_by_directories_witness :
  column_header_was_clicked
    (column_header_clicked sample_compare sample_is_directory sample_view_item_new
       sample_quark_to_string sample_sorts_type sample_size_column
       [(sample_item_folder, sample_item_notes)] sample_view_two_items) = true
  /\ clicked_column_attribute_q
       (column_header_clicked sample_compare sample_is_directory sample_view_item_new
          sample_quark_to_string sample_sorts_type sample_size_column
          [(sample_item_folder, sample_item_notes)] sample_view_two_items) = 0%Z.
Proof.
  destruct (click_settled_by_directories sample_compare sample_is_directory
              sample_view_item_new sample_quark_to_string sample_sorts_type
              sample_size_column [(sample_item_folder, sample_item_notes)]
              sample_view_two_items) as (Hflag & Hq & _).
  - simpl. lia.
  - reflexivity.
  - constructor; [|constructor]. simpl. split; [lia|discriminate].
  - split; [exact Hflag|exact Hq].
Defined.

Lemma column_header_clicked_one_item_witness :
  sort_action_state
    (column_header_clicked sample_compare sample_is_directory sample_view_item_new
       sample_quark_to_string sample_sorts_type sample_size_column []
       sample_view_one_item)
  = ("size"%string, false).
Proof.
  destruct (column_header_clicked_one_item sample_compare sample_is_directory
              sample_view_item_new sample_quark_to_string sample_sorts_type
              sample_view_one_item sample_item_folder
              {| item_id := 99; item_file := Some sample_directory |}
              sample_size_column) as [Hstate _].
  - reflexivity.
  - reflexivity.
  - reflexivity.
  - simpl. lia.
  - simpl. lia.
  - exact Hstate.
Defined.

Section DirectoriesFirstMore.

Context (compare : NautilusFile -> NautilusFile -> GQuark -> bool -> bool -> Z)
        (nautilus_file_is_directory : option NautilusFile -> bool).

Local Abbreviation directories_func :=
  (sort_directories_func nautilus_file_is_directory).
Local Abbreviation view_sorter := (sorter compare nautilus_file_is_directory).

Lemma nautilus_list_view_sort_directories_first a b data d self :
  nautilus_list_view_sort compare a b data (set_directories_first d self)
  = ((nautilus_list_view_sort compare a b data self).1,
     set_directories_first d (nautilus_list_view_sort compare a b data self).2).
Proof.
  unfold nautilus_list_view_sort. simpl.
  by destruct ((clicked_column_attribute_q self =? 0)%Z && column_header_was_clicked self),
    (item_file a), (item_file b).
Qed.

Lemma gtk_column_view_sorter_loop_directories_first l : forall a b d self,
  gtk_column_view_sorter_loop compare l a b (set_directories_first d self)
  = ((gtk_column_view_sorter_loop compare l a b self).1,
     set_directories_first d (gtk_column_view_sorter_loop compare l a b self).2).
Proof.
  induction l as [|[column inverted] l IH]; intros a b d self; [done|].
  cbn [gtk_column_view_sorter_loop]. unfold bind, gtk_sorter_compare.
  case_decide as Hid.
  - unfold ret. replace (if inverted then (- GTK_ORDERING_EQUAL)%Z
                         else GTK_ORDERING_EQUAL) with GTK_ORDERING_EQUAL
      by (by destruct inverted).
    rewrite !decide_True by done. apply IH.
  - unfold gtk_custom_sorter_new, bind, ret.
    rewrite nautilus_list_view_sort_directories_first.
    destruct (nautilus_list_view_sort compare a b (cvc_sorter column) self) as [r st].
    simpl. case_decide; [apply IH|done].
Qed.

(** X15: the directories-first setting decides nothing between two
    directories or between two files: for items of the same kind, the
    verdict of the view's sorter after
    [real_sort_directories_first_changed] is the verdict before it,
    whatever the new setting, and the comparison changes the view the same
    way. *)
Theorem directories_first_only_for_mixed_pairs a b d self :
  nautilus_file_is_directory (item_file a) = nautilus_file_is_directory (item_file b) ->
  gtk_sorter_compare view_sorter a b (real_sort_directories_first_changed d self)
  = ((gtk_sorter_compare view_sorter a b self).1,
     real_sort_directories_first_changed d (gtk_sorter_compare view_sorter a b self).2).
Proof.
  intros Hsame. unfold real_sort_directories_first_changed, gtk_sorter_compare.
  case_decide as Hid; [done|].
  rewrite !(sorter_eq compare nautilus_file_is_directory); [|done|done].
  assert (Hd : forall st, (directories_func a b st).1 = GTK_ORDERING_EQUAL).
  { intros st. unfold sort_directories_func. rewrite Hsame.
    by destruct (directories_first st), (nautilus_file_is_directory (item_file b)). }
  rewrite !decide_True; [|apply Hd|apply Hd].
  unfold gtk_column_view_get_sorter. simpl.
  apply gtk_column_view_sorter_loop_directories_first.
Qed.

End DirectoriesFirstMore.

Lemma directories_first_only_for_mixed_pairs_witness :
  gtk_sorter_compare (sorter sample_compare sample_is_directory)
    sample_item_notes sample_item_draft
    (real_sort_directories_first_changed false sample_view_sorted)
  = ((gtk_sorter_compare (sorter sample_compare sample_is_directory)
        sample_item_notes sample_item_draft sample_view_sorted).1,
     real_sort_directories_first_changed false
       (gtk_sorter_compare (sorter sample_compare sample_is_directory)
          sample_item_notes sample_item_draft sample_view_sorted).2).
Proof.
  apply directories_first_only_for_mixed_pairs. reflexivity.
Defined.

(** ** More on zoom levels *)

Lemma to_guint_to_gint x : to_guint (to_gint (to_guint x)) = to_guint x.
Proof.
  unfold to_guint, to_gint.
  rewrite Zminus_mod_idemp_l.
  replace (x mod 2 ^ 32 + 2 ^ 31 - 2 ^ 31)%Z with (x mod 2 ^ 32)%Z by lia.
  apply Z.mod_mod. lia.
Qed.

Lemma to_guint_eq_small x c :
  (- 2 ^ 31 <= x < 2 ^ 31)%Z -> (0 <= c < 2 ^ 31)%Z ->
  to_guint x = to_guint c <-> x = c.
Proof.
  intros Hx Hc. rewrite (to_guint_small c) by lia. unfold to_guint.
  split; [|intros ->; apply Z.mod_small; lia].
  intros Hmod. destruct (Z.le_gt_cases 0 x) as [Hpos|Hneg].
  - rewrite Z.mod_small in Hmod; lia.
  - assert (Hw : (x mod 2 ^ 32 = x + 2 ^ 32)%Z).
    { symmetry. apply (Z.mod_unique _ _ (-1)); lia. }
    lia.
Qed.

Lemma action_zoom_to_level_pref state self :
  pref_default_zoom_level
    (nautilus_list_view_preferences (action_zoom_to_level state self)) = state
  /\ zoom_action_state (action_zoom_to_level state self) = state.
Proof.
  unfold action_zoom_to_level.
  destruct (decide _) as [Hp|Hp]; simpl; [done|].
  split; [|done]. by apply dec_stable.
Qed.

Section ZoomMore.

Context (SMALL MEDIUM LARGE : Z) (ICON_SMALL ICON_MEDIUM ICON_LARGE : Z).

(** X16: with distinct enumerators and icon sizes,
    [real_is_zoom_level_default] answers TRUE exactly when the level is
    neither the small nor the large one: the medium level and every level
    outside the enumeration count as the default. *)
Theorem real_is_zoom_level_default_spec self :
  (0 <= SMALL < MEDIUM)%Z -> (MEDIUM < LARGE < 2 ^ 31)%Z ->
  ICON_SMALL <> ICON_MEDIUM -> ICON_LARGE <> ICON_MEDIUM ->
  (- 2 ^ 31 <= zoom_level self < 2 ^ 31)%Z ->
  real_is_zoom_level_default SMALL MEDIUM LARGE ICON_SMALL ICON_MEDIUM ICON_LARGE self
  = true
  <-> zoom_level self <> SMALL /\ zoom_level self <> LARGE.
Proof.
  intros Hs Hl His Hil Hz.
  unfold real_is_zoom_level_default, get_icon_size_for_zoom_level.
  rewrite bool_decide_eq_true.
  rewrite <-(to_guint_eq_small (zoom_level self) SMALL) by lia.
  rewrite <-(to_guint_eq_small (zoom_level self) LARGE) by lia.
  repeat case_decide; split; try done; try (intros [? ?]; done).
  intros _. split; [done|].
  rewrite (to_guint_small SMALL), (to_guint_small MEDIUM), (to_guint_small LARGE) in * by lia.
  lia.
Qed.

(** X17: [real_can_zoom_in] and [real_can_zoom_out] tell what
    [real_bump_zoom_level] does at a level within the range: where they
    answer TRUE a bump by one (up, down) moves the level by one, where
    they answer FALSE the bump leaves the view as it is. *)
Theorem zoom_buttons_match_bump self :
  (0 <= SMALL <= LARGE)%Z -> (LARGE < 2 ^ 31)%Z ->
  (SMALL <= zoom_level self <= LARGE)%Z ->
  (if real_can_zoom_in LARGE self
   then zoom_level (real_bump_zoom_level SMALL LARGE self 1) = (zoom_level self + 1)%Z
   else real_bump_zoom_level SMALL LARGE self 1 = self)
  /\ (if real_can_zoom_out SMALL self
      then zoom_level (real_bump_zoom_level SMALL LARGE self (-1))
           = (zoom_level self - 1)%Z
      else real_bump_zoom_level SMALL LARGE self (-1) = self).
Proof.
  intros Hs Hl Hz. unfold real_can_zoom_in, real_can_zoom_out.
  destruct (real_bump_zoom_level_spec SMALL LARGE self 1 Hs Hl Hz ltac:(lia))
    as [Hin_ok Hin_no].
  destruct (real_bump_zoom_level_spec SMALL LARGE self (-1) Hs Hl Hz ltac:(lia))
    as [Hout_ok Hout_no].
  split.
  - destruct (Z.ltb_spec (zoom_level self) LARGE); [apply Hin_ok|apply Hin_no]; lia.
  - rewrite Z.gtb_ltb.
    destruct (Z.ltb_spec SMALL (zoom_level self)).
    + replace (zoom_level self - 1)%Z with (zoom_level self + -1)%Z by lia.
      apply Hout_ok. lia.
    + apply Hout_no. lia.
Qed.

(** X18: bumping the zoom level and bumping it back returns to the level
    one started from, when the level and the level bumped to are both
    within the range. *)
Theorem bump_there_and_back self zoom_increment :
  (0 <= SMALL <= LARGE)%Z -> (LARGE < 2 ^ 31)%Z ->
  (SMALL <= zoom_level self <= LARGE)%Z ->
  (SMALL <= zoom_level self + zoom_increment <= LARGE)%Z ->
  zoom_level
    (real_bump_zoom_level SMALL LARGE
       (real_bump_zoom_level SMALL LARGE self zoom_increment) (- zoom_increment))
  = zoom_level self.
Proof.
  intros Hs Hl Hz Hsum.
  destruct (real_bump_zoom_level_spec SMALL LARGE self zoom_increment Hs Hl Hz
              ltac:(lia)) as [Hthere _].
  specialize (Hthere Hsum).
  destruct (real_bump_zoom_level_spec SMALL LARGE
              (real_bump_zoom_level SMALL LARGE self zoom_increment)
              (- zoom_increment) Hs Hl ltac:(lia) ltac:(lia)) as [Hback _].
  rewrite Hback; lia.
Qed.

(** X19: the set-up of the zoom level in [nautilus_list_view_init]
    repairs the preference: whatever the stored default level, after the
    set-up the level of the view is within the range and the state of the
    [zoom-to-level] action and the stored preference both equal it. *)
Theorem init_zoom_level_repairs_preference self :
  (0 <= SMALL <= LARGE)%Z -> (LARGE < 2 ^ 31)%Z ->
  let self' := init_zoom_level SMALL LARGE self in
  (SMALL <= zoom_level self' <= LARGE)%Z
  /\ zoom_action_state self' = zoom_level self'
  /\ pref_default_zoom_level (nautilus_list_view_preferences self') = zoom_level self'.
Proof.
  intros Hs Hl self'. subst self'.
  pose proof (get_default_zoom_level_range SMALL LARGE self Hs Hl) as Hr.
  unfold init_zoom_level.
  destruct (action_zoom_to_level_pref
              (zoom_level (set_zoom_level_field (get_default_zoom_level SMALL LARGE self) self))
              (set_zoom_level_field (get_default_zoom_level SMALL LARGE self) self))
    as [Hpref Hstate].
  rewrite Hpref, Hstate, action_zoom_to_level_level. simpl.
  rewrite to_gint_to_guint by lia. done.
Qed.

(** X20: a zoom level chosen within the range is the level a later view
    starts with: a view set up on the preferences left by
    [action_zoom_to_level] gets the chosen level. *)
Theorem zoom_level_survives_restart state self other :
  (0 <= SMALL <= LARGE)%Z -> (LARGE < 2 ^ 31)%Z ->
  (SMALL <= state <= LARGE)%Z ->
  nautilus_list_view_preferences other
  = nautilus_list_view_preferences (action_zoom_to_level state self) ->
  zoom_level (init_zoom_level SMALL LARGE other) = state.
Proof.
  intros Hs Hl Hstate Hprefs.
  unfold init_zoom_level. rewrite action_zoom_to_level_level. simpl.
  assert (Hd : get_default_zoom_level SMALL LARGE other = state).
  { assert (Hp : pref_default_zoom_level (nautilus_list_view_preferences other) = state)
      by (rewrite Hprefs; apply action_zoom_to_level_pref).
    rewrite (get_default_zoom_level_id SMALL LARGE other Hs Hl); rewrite Hp; [done|lia]. }
  rewrite Hd. apply to_gint_to_guint. lia.
Qed.

(** X21: the widget follows the level that [action_zoom_to_level] stores:
    the icon size set is the one [real_get_icon_size] answers afterwards,
    the widget has the style class "compact" exactly when the stored level
    is the small one, and no other style class is added or removed. *)
Theorem zoom_widget_follows_level state self widget :
  let self' := action_zoom_to_level state self in
  let widget' :=
    action_zoom_to_level_widget SMALL MEDIUM LARGE ICON_SMALL ICON_MEDIUM ICON_LARGE
      state widget in
  icon_size widget'
  = real_get_icon_size SMALL MEDIUM LARGE ICON_SMALL ICON_MEDIUM ICON_LARGE self'
  /\ ("compact"%string ∈ css_classes widget' <-> zoom_level self' = SMALL)
  /\ (forall class, class <> "compact"%string ->
        class ∈ css_classes widget' <-> class ∈ css_classes widget).
Proof.
  intros self' widget'. subst self' widget'.
  unfold action_zoom_to_level_widget, set_zoom_level_widget, real_get_icon_size.
  rewrite action_zoom_to_level_level, to_guint_to_gint. simpl.
  split; [done|]. case_decide as Hsmall.
  - split.
    + split; [done|]. intros _. apply elem_of_union. left.
      by apply elem_of_singleton.
    + intros class Hclass. rewrite elem_of_union, elem_of_singleton.
      split; [by intros [?|?]|by right].
  - split.
    + rewrite elem_of_difference, elem_of_singleton. split; [by intros [_ ?]|done].
    + intros class Hclass. rewrite elem_of_difference, elem_of_singleton.
      split; [by intros [? _]|done].
Qed.

End ZoomMore.

Lemma real_is_zoom_level_default_spec_witness :
  real_is_zoom_level_default 0 1 2 16 32 64 sample_view = true
  <-> zoom_level sample_view <> 0%Z /\ zoom_level sample_view <> 2%Z.
Proof.
  apply real_is_zoom_level_default_spec; simpl; lia.
Defined.

Lemma zoom_buttons_match_bump_witness :
  (if real_can_zoom_in 2 sample_view
   then zoom_level (real_bump_zoom_level 0 2 sample_view 1)
        = (zoom_level sample_view + 1)%Z
   else real_bump_zoom_level 0 2 sample_view 1 = sample_view)
  /\ (if real_can_zoom_out 0 sample_view
      then zoom_level (real_bump_zoom_level 0 2 sample_view (-1))
           = (zoom_level sample_view - 1)%Z
      else real_bump_zoom_level 0 2 sample_view (-1) = sample_view).
Proof.
  apply zoom_buttons_match_bump; simpl; lia.
Defined.

Lemma bump_there_and_back_witness :
  zoom_level (real_bump_zoom_level 0 2 (real_bump_zoom_level 0 2 sample_view 1) (- 1))
  = zoom_level sample_view.
Proof.
  apply bump_there_and_back; simpl; lia.
Defined.

Lemma init_zoom_level_repairs_preference_witness :
  (0 <= zoom_level (init_zoom_level 0 2 (action_zoom_to_level 7 sample_view)) <= 2)%Z
  /\ pref_default_zoom_level
       (nautilus_list_view_preferences
          (init_zoom_level 0 2 (action_zoom_to_level 7 sample_view)))
     = zoom_level (init_zoom_level 0 2 (action_zoom_to_level 7 sample_view)).
Proof.
  destruct (init_zoom_level_repairs_preference 0 2 (action_zoom_to_level 7 sample_view))
    as (Hrange & _ & Hpref); [lia|lia|].
  split; [exact Hrange|exact Hpref].
Defined.

Example compact_at_the_small_level :
  icon_size (action_zoom_to_level_widget 0 1 2 16 32 64 0 sample_widget) = 16%Z
  /\ "compact"%string
     ∈ css_classes (action_zoom_to_level_widget 0 1 2 16 32 64 0 sample_widget)
  /\ "compact"%string
     ∉ css_classes (action_zoom_to_level_widget 0 1 2 16 32 64 1 sample_widget).
Proof.
  split_and!; [reflexivity|..]; refine (bool_decide_unpack _ _); vm_compute; exact I.
Qed.

Lemma zoom_level_survives_restart_witness :
  zoom_level
    (init_zoom_level 0 2 (set_zoom_level_field 0 (action_zoom_to_level 2 sample_view)))
  = 2%Z.
Proof.
  apply (zoom_level_survives_restart 0 2 2 sample_view); [lia|lia|lia|reflexivity].
Defined.

(** ** Loading a directory *)

Section LoadingMore.

Context (nautilus_get_columns_for_file : NautilusFile -> list NautilusColumn)
        (nautilus_sort_columns :
           list NautilusColumn -> option (list string) -> list NautilusColumn)
        (can_star : GFile -> bool)
        (is_starred_directory : GFile -> bool)
        (is_recent_directory : GFile -> bool)
        (is_trash_directory : GFile -> bool)
        (is_in_search : NautilusFile -> bool)
        (is_in_starred : NautilusFile -> bool)
        (g_quark_from_string : string -> GQuark)
        (parent_begin_loading : NautilusListView -> NautilusListView)
        (g_quark_to_string : GQuark -> string)
        (get_sorts_type_from_metadata_text : string -> nat).

Local Abbreviation begin_loading :=
  (real_begin_loading nautilus_get_columns_for_file nautilus_sort_columns can_star
     is_starred_directory is_recent_directory is_trash_directory is_in_search
     is_in_starred g_quark_from_string parent_begin_loading).

Lemma real_begin_loading_view self :
  (begin_loading self).1
  = set_clicked_column_attribute_q 0%Z
      (parent_begin_loading
         (update_columns_settings_from_metadata_and_preferences
            nautilus_get_columns_for_file nautilus_sort_columns can_star
            is_starred_directory self)).
Proof.
  unfold real_begin_loading.
  destruct (file_is_in_trash _); [done|]. by destruct (_ || _ || _).
Qed.

(** X22: the base location [real_begin_loading] leaves for the path
    column: there is none when the view shows no search; it is a location
    exactly when the directory is in the trash, a search, the recent files
    or the starred files, the view shows a search from that location, and
    the location is none of the recent, starred and trash directories. *)
Theorem real_begin_loading_base_location self :
  let loaded :=
    real_begin_loading nautilus_get_columns_for_file nautilus_sort_columns can_star
      is_starred_directory is_recent_directory is_trash_directory is_in_search
      is_in_starred g_quark_from_string parent_begin_loading self in
  let self' := loaded.1 in
  let path := loaded.2 in
  let file := directory_as_file self' in
  let shows_path :=
    file_is_in_trash file || is_in_search file || file_is_in_recent file
    || is_in_starred file in
  (search_query_location self' = None -> file_path_base_location path = None)
  /\ (forall location,
        file_path_base_location path = Some location
        <-> shows_path = true
            /\ search_query_location self' = Some location
            /\ is_recent_directory location = false
            /\ is_starred_directory location = false
            /\ is_trash_directory location = false).
Proof.
  intros loaded self' path file shows_path. subst path shows_path file self' loaded.
  rewrite real_begin_loading_view. unfold real_begin_loading, get_base_location.
  set (p := parent_begin_loading _). simpl.
  destruct (file_is_in_trash (directory_as_file p)),
    (is_in_search (directory_as_file p)),
    (file_is_in_recent (directory_as_file p)),
    (is_in_starred (directory_as_file p)),
    (search_query_location p) as [l|]; simpl;
    (split; [done|]); intros location;
    try (split; [done|by intros (? & ? & _)]);
    destruct (is_recent_directory l) eqn:Hr, (is_starred_directory l) eqn:Hs,
      (is_trash_directory l) eqn:Ht; simpl;
    (split; [intros [= <-]; by rewrite ?Hr, ?Hs, ?Ht
            |intros (_ & [= <-] & Hr' & Hs' & Ht'); congruence]).
Qed.

(** X23: [real_begin_loading] drops a captured sort attribute, so that
    [on_after_sorter_changed] run right after it does nothing; the path
    attribute it leaves is "trash_orig_path" in the trash, also for a
    search in the trash, "where" in a search, the recent or the starred
    files outside the trash, and nothing, with no base location, anywhere
    else. *)
Theorem real_begin_loading_path_attribute self :
  let loaded :=
    real_begin_loading nautilus_get_columns_for_file nautilus_sort_columns can_star
      is_starred_directory is_recent_directory is_trash_directory is_in_search
      is_in_starred g_quark_from_string parent_begin_loading self in
  let self' := loaded.1 in
  let path := loaded.2 in
  let file := directory_as_file self' in
  clicked_column_attribute_q self' = 0%Z
  /\ on_after_sorter_changed g_quark_to_string get_sorts_type_from_metadata_text self'
     = self'
  /\ (file_is_in_trash file = true ->
      path_attribute_q path = g_quark_from_string "trash_orig_path")
  /\ (file_is_in_trash file = false ->
      is_in_search file || file_is_in_recent file || is_in_starred file = true ->
      path_attribute_q path = g_quark_from_string "where")
  /\ (file_is_in_trash file = false ->
      is_in_search file || file_is_in_recent file || is_in_starred file = false ->
      path_attribute_q path = 0%Z /\ file_path_base_location path = None).
Proof.
  intros loaded self' path file. subst path file self' loaded.
  rewrite real_begin_loading_view. unfold real_begin_loading.
  set (p := parent_begin_loading _).
  split; [done|]. split.
  { unfold on_after_sorter_changed. simpl. by rewrite orb_true_r. }
  simpl.
  destruct (file_is_in_trash (directory_as_file p)); simpl; [done|].
  by destruct (is_in_search (directory_as_file p)
               || file_is_in_recent (directory_as_file p)
               || is_in_starred (directory_as_file p)).
Qed.

End LoadingMore.

Example search_results_show_where :
  let loaded :=
    real_begin_loading sample_columns_for_file sample_sort_columns never never
      never never (fun _ => true) (fun _ => false) sample_quark_from_string id
      sample_search_view in
  loaded.2 = {| path_attribute_q := 8%Z;
                file_path_base_location := Some "file:///home/user"%string |}
  /\ clicked_column_attribute_q loaded.1 = 0%Z.
Proof. vm_compute. split; reflexivity. Qed.

(** ** The column chooser *)

Lemma get_visible_columns_stored self l :
  nautilus_file_get_metadata_list (directory_as_file self)
    NAUTILUS_METADATA_KEY_LIST_VIEW_VISIBLE_COLUMNS = Some l ->
  get_visible_columns self
  = match l with [] => get_default_visible_columns self | _ => l end.
Proof. intros Hl. unfold get_visible_columns. rewrite Hl. by destruct l. Qed.

Lemma get_column_order_stored self l :
  nautilus_file_get_metadata_list (directory_as_file self)
    NAUTILUS_METADATA_KEY_LIST_VIEW_COLUMN_ORDER = Some l ->
  get_column_order self
  = match l with [] => get_default_column_order self | _ => l end.
Proof. intros Hl. unfold get_column_order. rewrite Hl. by destruct l. Qed.

Section ChooserMore.

Context (nautilus_get_columns_for_file : NautilusFile -> list NautilusColumn)
        (nautilus_sort_columns :
           list NautilusColumn -> option (list string) -> list NautilusColumn)
        (can_star : GFile -> bool)
        (is_starred : GFile -> bool).

Local Abbreviation chooser_changed :=
  (column_chooser_changed_callback nautilus_get_columns_for_file
     nautilus_sort_columns can_star is_starred).

Lemma chooser_changed_reads chooser view :
  get_visible_columns (chooser_changed chooser view)
  = match chooser_visible_columns chooser with
    | [] => get_default_visible_columns view
    | l => l
    end
  /\ get_column_order (chooser_changed chooser view)
     = match chooser_column_order chooser with
       | [] => get_default_column_order view
       | l => l
       end.
Proof.
  assert (Hv : nautilus_file_get_metadata_list
                 (directory_as_file (chooser_changed chooser view))
                 NAUTILUS_METADATA_KEY_LIST_VIEW_VISIBLE_COLUMNS
               = Some (chooser_visible_columns chooser)).
  { unfold column_chooser_changed_callback. rewrite apply_columns_settings_directory.
    unfold nautilus_file_get_metadata_list, nautilus_file_set_metadata_list. simpl.
    rewrite lookup_insert_ne; [|done]. by rewrite lookup_insert_eq. }
  assert (Ho : nautilus_file_get_metadata_list
                 (directory_as_file (chooser_changed chooser view))
                 NAUTILUS_METADATA_KEY_LIST_VIEW_COLUMN_ORDER
               = Some (chooser_column_order chooser)).
  { unfold column_chooser_changed_callback. rewrite apply_columns_settings_directory.
    unfold nautilus_file_get_metadata_list, nautilus_file_set_metadata_list. simpl.
    by rewrite lookup_insert_eq. }
  rewrite (get_visible_columns_stored _ _ Hv), (get_column_order_stored _ _ Ho).
  split.
  - by destruct (chooser_visible_columns chooser).
  - by destruct (chooser_column_order chooser).
Qed.

(** X24: what the view reads back after the column chooser changed: a
    list of the chooser that is not empty is read back as it is, by
    [get_visible_columns] and by [get_column_order]; an empty list is
    stored but read back as the default for the directory. *)
Theorem chooser_lists_read_back_or_default chooser view :
  (chooser_visible_columns chooser <> [] ->
   get_visible_columns (chooser_changed chooser view) = chooser_visible_columns chooser)
  /\ (chooser_column_order chooser <> [] ->
      get_column_order (chooser_changed chooser view) = chooser_column_order chooser)
  /\ (chooser_visible_columns chooser = [] ->
      get_visible_columns (chooser_changed chooser view)
      = get_default_visible_columns view)
  /\ (chooser_column_order chooser = [] ->
      get_column_order (chooser_changed chooser view) = get_default_column_order view).
Proof.
  destruct (chooser_changed_reads chooser view) as [Hv Ho].
  rewrite Hv, Ho. split_and!.
  - by destruct (chooser_visible_columns chooser).
  - by destruct (chooser_column_order chooser).
  - by intros ->.
  - by intros ->.
Qed.

(** X26: "use default" in the column chooser is clearing the two
    metadata lists of the directory and refreshing: the view it leaves is
    [update_columns_settings_from_metadata_and_preferences] run on the
    cleared view, and the chooser is handed the settings of that view. *)
Theorem use_default_is_clear_and_refresh view :
  let cleared :=
    set_directory_as_file
      (nautilus_file_set_metadata_list
         (nautilus_file_set_metadata_list (directory_as_file view)
            NAUTILUS_METADATA_KEY_LIST_VIEW_COLUMN_ORDER None)
         NAUTILUS_METADATA_KEY_LIST_VIEW_VISIBLE_COLUMNS None) view in
  let result :=
    column_chooser_use_default_callback nautilus_get_columns_for_file
      nautilus_sort_columns can_star is_starred view in
  result.2
  = update_columns_settings_from_metadata_and_preferences
      nautilus_get_columns_for_file nautilus_sort_columns can_star is_starred cleared
  /\ result.1 = column_chooser_set_from_settings result.2.
Proof.
  intros cleared result. subst result.
  assert (Hv : get_visible_columns cleared = get_default_visible_columns cleared).
  { unfold get_visible_columns, cleared, nautilus_file_get_metadata_list,
      nautilus_file_set_metadata_list. simpl. by rewrite lookup_delete_eq. }
  assert (Ho : get_column_order cleared = get_default_column_order cleared).
  { unfold get_column_order, cleared, nautilus_file_get_metadata_list,
      nautilus_file_set_metadata_list. simpl.
    rewrite lookup_delete_ne; [|done]. by rewrite lookup_delete_eq. }
  unfold column_chooser_use_default_callback. fold cleared. cbn [fst snd].
  unfold update_columns_settings_from_metadata_and_preferences.
  rewrite Hv, Ho. split; [done|].
  unfold column_chooser_set_from_settings.
  set (applied := apply_columns_settings _ _ _ _ cleared _ _).
  assert (Hv' : get_visible_columns applied = get_visible_columns cleared) by done.
  assert (Ho' : get_column_order applied = get_column_order cleared) by done.
  by rewrite Hv', Ho', Hv, Ho.
Qed.

End ChooserMore.

(** ** The selection click and scrolling *)

Section SelectionClickMore.

Context (GDK_CONTROL_MASK GDK_SHIFT_MASK : Z)
        (nautilus_view_model_get_index : NautilusViewItem -> Z).

(** X27: the click workaround activates [list.select-item] only for a
    single press with Control or Shift held and an item in the cell; the
    index sent is the item's index in the model, and each flag sent is up
    exactly when its modifier is held, so at least one of them is. *)
Theorem select_item_sent_with_a_modifier n_press modifiers item :
  match
    on_item_click_released_workaround GDK_CONTROL_MASK GDK_SHIFT_MASK
      nautilus_view_model_get_index n_press modifiers item
  with
  | Some (i, control, shift) =>
      n_press = 1%Z
      /\ (control = true \/ shift = true)
      /\ (control = true <-> Z.land modifiers GDK_CONTROL_MASK <> 0%Z)
      /\ (shift = true <-> Z.land modifiers GDK_SHIFT_MASK <> 0%Z)
      /\ exists it, item = Some it /\ i = nautilus_view_model_get_index it
  | None =>
      n_press <> 1%Z
      \/ (Z.land modifiers GDK_CONTROL_MASK = 0%Z
          /\ Z.land modifiers GDK_SHIFT_MASK = 0%Z)
      \/ item = None
  end.
Proof.
  unfold on_item_click_released_workaround.
  rewrite Z.land_lor_distr_r.
  destruct (Z.eqb_spec n_press 1) as [Hn|Hn]; simpl; [|by left].
  destruct (Z.eqb_spec (Z.lor (Z.land modifiers GDK_CONTROL_MASK)
                          (Z.land modifiers GDK_SHIFT_MASK)) 0) as [Hm|Hm]; simpl.
  - right. left. by apply Z.lor_eq_0_iff.
  - destruct item as [it|]; [|right; by right].
    split; [done|].
    destruct (Z.eqb_spec (Z.land modifiers GDK_CONTROL_MASK) 0) as [Hc|Hc];
      destruct (Z.eqb_spec (Z.land modifiers GDK_SHIFT_MASK) 0) as [Hs|Hs]; simpl.
    + exfalso. apply Hm. by rewrite Hc, Hs.
    + split_and!; [by right|done|done|by exists it].
    + split_and!; [by left|done|done|by exists it].
    + split_and!; [by left|done|done|by exists it].
Qed.

End SelectionClickMore.

Lemma last_list_view_from_spec l :
  match last_list_view_from l with
  | Some child =>
      exists before after,
        l = before ++ child :: after
        /\ widget_is_list_view child = true
        /\ Forall (fun w => widget_is_list_view w = false) before
  | None => Forall (fun w => widget_is_list_view w = false) l
  end.
Proof.
  induction l as [|w l IH]; simpl; [done|].
  destruct (widget_is_list_view w) eqn:Hw.
  - by exists [], l.
  - destruct (last_list_view_from l) as [child|].
    + destruct IH as (before & after & -> & Hchild & Hbefore).
      exists (w :: before), after. split_and!; [done|done|by constructor].
    + by constructor.
Qed.

(** X28: [real_scroll_to_item] sends the position, unchanged, to the last
    child of the column view that is a list view, and activates nothing
    when no child is one. *)
Theorem real_scroll_to_item_last_list_view children position :
  match real_scroll_to_item children position with
  | Some (child, sent) =>
      sent = position
      /\ exists before after,
           children = before ++ child :: after
           /\ widget_is_list_view child = true
           /\ Forall (fun w => widget_is_list_view w = false) after
  | None => Forall (fun w => widget_is_list_view w = false) children
  end.
Proof.
  unfold real_scroll_to_item.
  pose proof (last_list_view_from_spec (rev children)) as Hspec.
  destruct (last_list_view_from (rev children)) as [child|].
  - split; [done|]. destruct Hspec as (before & after & Hrev & Hchild & Hbefore).
    exists (rev after), (rev before). split_and!; [|done|].
    + rewrite <-(rev_involutive children), Hrev, rev_app_distr. simpl.
      by rewrite <-app_assoc.
    + apply Forall_forall. intros w Hw.
      apply (proj1 (Forall_forall _ _) Hbefore).
      apply list_elem_of_In, in_rev, list_elem_of_In. exact Hw.
  - apply Forall_forall. intros w Hw.
    apply (proj1 (Forall_forall _ _) Hspec).
    apply list_elem_of_In, in_rev. rewrite rev_involutive. by apply list_elem_of_In.
Qed.
